(** * Identity and access control of the social-media backend

    A shallow embedding of the Django / Django REST framework views of
    [users/views.py], [users/social_auth.py], [users/serializers.py],
    [users/validators.py] and [users/models.py].

    - Database tables are lists of rows; [QuerySet.get] is modelled with its
      three outcomes (one row, [DoesNotExist], [MultipleObjectsReturned]).
    - A Python exception is the [Raise] branch of [Outcome]; code that
      reads or writes the database runs in the [ORM] monad, which threads
      the database through and keeps the writes made before an exception.
    - A model instance is compared with [==] through its primary key, as
      Django does. *)

From Stdlib Require Import Ascii.
From stdpp Require Import base decidable option list strings gmap pretty.

Local Open Scope Z_scope.
Local Open Scope string_scope.

(** ** Exceptions and the outcome of a call *)

Inductive Exception :=
  | Http404 (msg : string)
  | PermissionDenied
  | NotAuthenticated
  | ValidationError (msg : string)
  | ValueError (msg : string)
  | IntegrityError
  | TokenError (msg : string)
  | KeyError (key : string)
  | DoesNotExist (model : string)
  | MultipleObjectsReturned (model : string).

Inductive Outcome (A : Type) :=
  | Return (a : A)
  | Raise (e : Exception).
Arguments Return {A} a.
Arguments Raise {A} e.

#[global] Instance Outcome_ret : MRet Outcome := λ A a, Return a.
#[global] Instance Outcome_bind : MBind Outcome := λ A B f m,
  match m with
  | Return a => f a
  | Raise e => Raise e
  end.

(** The status code the REST framework's exception handler answers with. *)
Definition status_of (e : Exception) : Z :=
  match e with
  | Http404 _ => 404
  | PermissionDenied => 403
  | NotAuthenticated => 401
  | ValidationError _ => 400
  | _ => 500
  end.

Definition is_NotFound {A} (r : Outcome A) : Prop :=
  ∃ msg, r = Raise (Http404 msg).

Definition is_ValidationError {A} (r : Outcome A) : Prop :=
  ∃ msg, r = Raise (ValidationError msg).

(** ** Models ([users/models.py]) *)

Record CustomUser := mkUser {
  user_pk : Z;
  user_email : string;
  (* the stored hash; [None] is Django's unusable password *)
  user_password : option string;
  user_first_name : string;
  user_last_name : string;
  user_is_staff : bool;
}.

Record Profile := mkProfile {
  profile_user_id : Z;
  profile_display_name : string;
  profile_bio : string;
}.

Record Post := mkPost {
  post_pk : Z;
  post_author_id : Z;
  post_title : string;
  post_content : string;
  post_privacy : string;
}.

Record Comment := mkComment {
  comment_pk : Z;
  comment_post_id : Z;
  comment_author_id : Z;
  comment_text : string;
}.

Record Media := mkMedia {
  media_pk : Z;
  media_post_id : Z;
  media_file : string;
  media_content_type : string;
  media_size : Z;
  media_width : option Z;
  media_height : option Z;
  media_uploaded_by_id : Z;
}.

Record Like := mkLike {
  like_pk : Z;
  like_post_id : Z;
  like_user_id : Z;
}.

(** allauth's [SocialAccount]: [(provider, uid)] is unique. *)
Record SocialAccount := mkSocialAccount {
  social_user_id : Z;
  social_provider : string;
  social_uid : string;
}.

Record DB := mkDB {
  users : list CustomUser;
  profiles : list Profile;
  posts : list Post;
  comments : list Comment;
  media : list Media;
  likes : list Like;
  social_accounts : list SocialAccount;
}.

#[global] Instance CustomUser_eq_dec : EqDecision CustomUser.
Proof. solve_decision. Defined.
#[global] Instance Profile_eq_dec : EqDecision Profile.
Proof. solve_decision. Defined.
#[global] Instance Post_eq_dec : EqDecision Post.
Proof. solve_decision. Defined.
#[global] Instance Comment_eq_dec : EqDecision Comment.
Proof. solve_decision. Defined.
#[global] Instance Media_eq_dec : EqDecision Media.
Proof. solve_decision. Defined.
#[global] Instance Like_eq_dec : EqDecision Like.
Proof. solve_decision. Defined.
#[global] Instance SocialAccount_eq_dec : EqDecision SocialAccount.
Proof. solve_decision. Defined.

(** ** The ORM *)

(** [QuerySet.get] on the rows a filter selected: exactly one row, or the
    exception of the model. *)
Definition qs_get {A} (model : string) (qs : list A) : Outcome A :=
  match qs with
  | [] => Raise (DoesNotExist model)
  | [x] => Return x
  | _ => Raise (MultipleObjectsReturned model)
  end.

(** [get_object_or_404]: only [DoesNotExist] becomes a 404. *)
Definition get_object_or_404 {A} (model : string) (qs : list A) : Outcome A :=
  match qs_get model qs with
  | Raise (DoesNotExist _) => Raise (Http404 "Not found.")
  | r => r
  end.

(** The next value of an auto-incremented primary key. *)
Definition next_pk {A} (pk : A → Z) (rows : list A) : Z :=
  1 + foldr Z.max 0 (pk <$> rows).

(** ** The requesting principal *)

Inductive RequestUser :=
  | AnonymousUser
  | AuthUser (u : CustomUser).

Definition is_authenticated (user : RequestUser) : bool :=
  match user with
  | AnonymousUser => false
  | AuthUser _ => true
  end.

Definition is_staff (user : RequestUser) : bool :=
  match user with
  | AnonymousUser => false
  | AuthUser u => user_is_staff u
  end.

(** [instance == request.user] where [instance] is the row a foreign key
    points to ([None] when the attribute is absent): equal primary keys. *)
Definition same_user (owner : option Z) (user : RequestUser) : bool :=
  match owner, user with
  | Some pk, AuthUser u => bool_decide (pk = user_pk u)
  | _, _ => false
  end.

Inductive Method := GET | HEAD | OPTIONS | POST | PUT | PATCH | DELETE.

#[global] Instance Method_eq_dec : EqDecision Method.
Proof. solve_decision. Defined.

Definition SAFE_METHODS : list Method := [GET; HEAD; OPTIONS].

Record Request := mkRequest {
  request_user : RequestUser;
  request_method : Method;
}.

(** ** Permission classes *)

(** [getattr(obj, 'author', None)] on the three content models. *)
Class AuthorAttr (A : Type) := getattr_author : A → option Z.
#[global] Instance Post_author : AuthorAttr Post := λ p, Some (post_author_id p).
#[global] Instance Comment_author : AuthorAttr Comment :=
  λ c, Some (comment_author_id c).
#[global] Instance Media_author : AuthorAttr Media := λ _, None.

Record BasePermission (A : Type) := mkPermission {
  has_permission : Request → bool;
  has_object_permission : Request → A → bool;
}.
Arguments has_permission {A} _ _.
Arguments has_object_permission {A} _ _ _.

Definition IsAuthenticated {A} : BasePermission A :=
  {| has_permission := λ request, is_authenticated (request_user request);
     has_object_permission := λ _ _, true |}.

Definition IsOwnerOrReadOnly {A} `{AuthorAttr A} : BasePermission A :=
  {| has_permission := λ _, true;
     has_object_permission := λ request obj,
       if bool_decide (request_method request ∈ SAFE_METHODS) then true
       else same_user (getattr_author obj) (request_user request) |}.

(** [APIView.permission_denied]. *)
Definition permission_denied {A} (request : Request) : Outcome A :=
  if is_authenticated (request_user request) then Raise PermissionDenied
  else Raise NotAuthenticated.

(** [APIView.check_object_permissions]. *)
Fixpoint check_object_permissions {A} (perms : list (BasePermission A))
    (request : Request) (obj : A) : Outcome unit :=
  match perms with
  | [] => Return ()
  | perm :: rest =>
      if has_object_permission perm request obj
      then check_object_permissions rest request obj
      else permission_denied request
  end.

(** [GenericAPIView.get_object] over the view's queryset, looked up by the
    primary key of the URL. *)
Definition generic_get_object {A} (model : string) (pk_of : A → Z)
    (queryset : list A) (perms : list (BasePermission A))
    (request : Request) (pk : Z) : Outcome A :=
  obj ← get_object_or_404 model (filter (λ o, pk_of o = pk) queryset);
  _ ← check_object_permissions perms request obj;
  mret obj.

(** [APIView.check_permissions], run by [initial] before the handler. *)
Fixpoint check_permissions {A} (perms : list (BasePermission A))
    (request : Request) : Outcome unit :=
  match perms with
  | [] => Return ()
  | perm :: rest =>
      if has_permission perm request then check_permissions rest request
      else permission_denied request
  end.

(** ** The database monad *)

Definition ORM (A : Type) : Type := DB → Outcome A * DB.

#[global] Instance ORM_ret : MRet ORM := λ A a db, (Return a, db).
#[global] Instance ORM_bind : MBind ORM := λ A B f m db,
  match m db with
  | (Return a, db') => f a db'
  | (Raise e, db') => (Raise e, db')
  end.

Definition raise {A} (e : Exception) : ORM A := λ db, (Raise e, db).
Definition lift {A} (o : Outcome A) : ORM A := λ db, (o, db).
Definition query {A} (f : DB → A) : ORM A := λ db, (Return (f db), db).
Definition modify (f : DB → DB) : ORM unit := λ db, (Return (), f db).

(** [try: m except Exception as e: h e]. *)
Definition try_except {A} (m : ORM A) (h : Exception → ORM A) : ORM A :=
  λ db, match m db with
        | (Raise e, db') => h e db'
        | r => r
        end.

(** [APIView.dispatch]: [initial] checks the view's permissions, then the
    handler runs. *)
Definition dispatch {A B} (perms : list (BasePermission A))
    (request : Request) (handler : ORM B) : ORM B :=
  _ ← lift (check_permissions perms request);
  handler.

(** ** Table updates *)

Definition set_likes (ls : list Like) (db : DB) : DB :=
  mkDB (users db) (profiles db) (posts db) (comments db) (media db) ls
       (social_accounts db).

Definition set_posts (ps : list Post) (db : DB) : DB :=
  mkDB (users db) (profiles db) ps (comments db) (media db) (likes db)
       (social_accounts db).

Definition set_comments (cs : list Comment) (db : DB) : DB :=
  mkDB (users db) (profiles db) (posts db) cs (media db) (likes db)
       (social_accounts db).

Definition set_media (ms : list Media) (db : DB) : DB :=
  mkDB (users db) (profiles db) (posts db) (comments db) ms (likes db)
       (social_accounts db).

Definition set_users (us : list CustomUser) (db : DB) : DB :=
  mkDB us (profiles db) (posts db) (comments db) (media db) (likes db)
       (social_accounts db).

Definition set_profiles (ps : list Profile) (db : DB) : DB :=
  mkDB (users db) ps (posts db) (comments db) (media db) (likes db)
       (social_accounts db).

Definition set_social_accounts (ss : list SocialAccount) (db : DB) : DB :=
  mkDB (users db) (profiles db) (posts db) (comments db) (media db) (likes db)
       ss.

(** Deleting a post cascades to the rows that reference it. The replies
    of its comments ([Comment.parent]) are not part of this model: they
    are comments, possibly of other posts, that the cascade takes as
    well. *)
Definition delete_post (p : Post) (db : DB) : DB :=
  mkDB (users db) (profiles db)
       (filter (λ q, post_pk q ≠ post_pk p) (posts db))
       (filter (λ c, comment_post_id c ≠ post_pk p) (comments db))
       (filter (λ m, media_post_id m ≠ post_pk p) (media db))
       (filter (λ l, like_post_id l ≠ post_pk p) (likes db))
       (social_accounts db).

(** [Post.objects.get(id=post_id)]. *)
Definition Post_get (post_id : Z) : ORM Post :=
  λ db, (qs_get "Post" (filter (λ p, post_pk p = post_id) (posts db)), db).

(** ** [PostViewSet] *)

Module PostViewSet.

Definition permission_classes : list (BasePermission Post) :=
  [IsAuthenticated; IsOwnerOrReadOnly].

Definition get_queryset (db : DB) (request : Request) : list Post :=
  let base := posts db in
  let user := request_user request in
  if negb (is_authenticated user) then
    filter (λ p, post_privacy p = "public") base
  else if is_staff user then base
  else filter (λ p, post_privacy p = "public"
                    ∨ same_user (Some (post_author_id p)) user = true) base.

Definition get_object (perms : list (BasePermission Post))
    (request : Request) (pk : Z) : ORM Post :=
  queryset ← query (λ db, get_queryset db request);
  lift (generic_get_object "Post" post_pk queryset perms request pk).

(** [ListModelMixin.list]: the queryset, serialized. *)
Definition list_ (request : Request) : ORM (list Post) :=
  query (λ db, get_queryset db request).

Definition retrieve (request : Request) (pk : Z) : ORM Post :=
  get_object permission_classes request pk.

(** The fields [PostSerializer.update] sets with [setattr]. *)
Record PostFields := mkPostFields {
  new_title : option string;
  new_content : option string;
  new_privacy : option string;
}.

Definition serializer_update (instance : Post) (validated_data : PostFields)
    : Post :=
  mkPost (post_pk instance) (post_author_id instance)
         (default (post_title instance) (new_title validated_data))
         (default (post_content instance) (new_content validated_data))
         (default (post_privacy instance) (new_privacy validated_data)).

(** [update]: the object is fetched first, then the payload is validated
    ([validated_data = None] when [is_valid] rejects it). *)
Definition update (request : Request) (pk : Z)
    (validated_data : option PostFields) : ORM Post :=
  instance ← get_object permission_classes request pk;
  match validated_data with
  | None => raise (ValidationError "invalid")
  | Some data =>
      let instance' := serializer_update instance data in
      _ ← modify (λ db,
            set_posts ((λ q, if bool_decide (post_pk q = post_pk instance)
                             then instance' else q) <$> posts db) db);
      mret instance'
  end.

Definition destroy (request : Request) (pk : Z) : ORM unit :=
  instance ← get_object permission_classes request pk;
  modify (delete_post instance).

Record LikeResponse := mkLikeResponse {
  liked : bool;
  likes_count : Z;
  message : string;
}.

(** [post.likes.count()]. *)
Definition post_likes_count (post : Post) : ORM Z :=
  query (λ db, Z.of_nat (length (filter (λ l, like_post_id l = post_pk post)
                                        (likes db)))).

(** [Like.objects.get_or_create(post=post, user=user)]. *)
Definition Like_get_or_create (post : Post) (user : CustomUser)
    : ORM (Like * bool) :=
  try_except
    (l ← (λ db, (qs_get "Like"
                          (filter (λ l, like_post_id l = post_pk post
                                        ∧ like_user_id l = user_pk user)
                                  (likes db)), db));
     mret (l, false))
    (λ e, match e with
          | DoesNotExist "Like" =>
              pk ← query (λ db, next_pk like_pk (likes db));
              let l := mkLike pk (post_pk post) (user_pk user) in
              _ ← modify (λ db, set_likes (likes db ++ [l]) db);
              mret (l, true)
          | _ => raise e
          end).

(** [like.delete()]: the row with the instance's primary key goes. *)
Definition Like_delete (l : Like) : ORM unit :=
  modify (λ db, set_likes (filter (λ x, like_pk x ≠ like_pk l) (likes db)) db).

(** The [like] action; its own [permission_classes] is [IsAuthenticated]. *)
Definition like (request : Request) (pk : Z) : ORM LikeResponse :=
  post ← get_object [IsAuthenticated] request pk;
  match request_user request with
  | AnonymousUser => raise (ValueError "AnonymousUser is not a CustomUser")
  | AuthUser user =>
      '(like, created) ← Like_get_or_create post user;
      if negb created then
        _ ← Like_delete like;
        n ← post_likes_count post;
        mret (mkLikeResponse false n "Like removed")
      else
        n ← post_likes_count post;
        mret (mkLikeResponse true n "Post liked")
  end.

End PostViewSet.

(** [post.privacy == 'private' and post.author != request.user], the check
    the comment and media views repeat. *)
Definition hidden_from (post : Post) (user : RequestUser) : bool :=
  bool_decide (post_privacy post = "private")
  && negb (same_user (Some (post_author_id post)) user).

(** The block
    [try: post = Post.objects.get(id=post_id); if hidden: raise Http404
     except Post.DoesNotExist: raise Http404]. *)
Definition get_accessible_post (request : Request) (post_id : Z) : ORM Post :=
  try_except
    (post ← Post_get post_id;
     if hidden_from post (request_user request)
     then raise (Http404 "Post not found")
     else mret post)
    (λ e, match e with
          | DoesNotExist "Post" => raise (Http404 "Post not found")
          | _ => raise e
          end).

(** ** [CommentViewSet] *)

Module CommentViewSet.

Definition permission_classes : list (BasePermission Comment) :=
  [IsAuthenticated; IsOwnerOrReadOnly].

Definition get_queryset (db : DB) (post_pk : Z) : list Comment :=
  filter (λ c, comment_post_id c = post_pk) (comments db).

Definition get_object (request : Request) (post_pk pk : Z) : ORM Comment :=
  queryset ← query (λ db, get_queryset db post_pk);
  lift (generic_get_object "Comment" comment_pk queryset permission_classes
          request pk).

(** [perform_create]; [text] is the validated payload of the serializer. *)
Definition perform_create (request : Request) (post_id : Z) (text : string)
    : ORM Comment :=
  _ ← get_accessible_post request post_id;
  match request_user request with
  | AnonymousUser => raise (ValueError "AnonymousUser is not a CustomUser")
  | AuthUser user =>
      pk ← query (λ db, next_pk comment_pk (comments db));
      let c := mkComment pk post_id (user_pk user) text in
      _ ← modify (λ db, set_comments (comments db ++ [c]) db);
      mret c
  end.

Definition destroy (request : Request) (post_pk pk : Z) : ORM unit :=
  instance ← get_object request post_pk pk;
  modify (λ db, set_comments
            (filter (λ c, comment_pk c ≠ comment_pk instance) (comments db))
            db).

Definition update (request : Request) (post_pk pk : Z)
    (validated_text : option string) : ORM Comment :=
  instance ← get_object request post_pk pk;
  match validated_text with
  | None => raise (ValidationError "invalid")
  | Some text =>
      let instance' := mkComment (comment_pk instance)
                         (comment_post_id instance)
                         (comment_author_id instance) text in
      _ ← modify (λ db,
            set_comments
              ((λ c, if bool_decide (comment_pk c = comment_pk instance)
                     then instance' else c) <$> comments db) db);
      mret instance'
  end.

End CommentViewSet.

(** ** Python string methods used by the code *)

Module Py.

Definition lower_ascii (c : Ascii.ascii) : Ascii.ascii :=
  let n := Ascii.N_of_ascii c in
  if ((65 <=? n) && (n <=? 90))%N then Ascii.ascii_of_N (n + 32) else c.

(** [str.lower], on ASCII letters. *)
Fixpoint lower (s : string) : string :=
  match s with
  | "" => ""
  | String c s' => String (lower_ascii c) (lower s')
  end.

(** Strings are the UTF-8 encoding of Python's [str]. [str.isspace] holds
    of 29 characters; [skip_space] drops one of them from the head of a
    string and [skip_space_rev] from the head of a reversed string. *)
Definition is_space (n : N) : bool :=
  ((9 <=? n) && (n <=? 13) || (28 <=? n) && (n <=? 32))%N.

Definition skip_space (s : string) : option string :=
  match s with
  | "" => None
  | String c rest =>
      let n := Ascii.N_of_ascii c in
      if is_space n then Some rest
      else
        match rest with
        | "" => None
        | String d rest1 =>
            let m := Ascii.N_of_ascii d in
            if ((n =? 194) && ((m =? 133) || (m =? 160)))%N then Some rest1
            else
              match rest1 with
              | "" => None
              | String e rest2 =>
                  let k := Ascii.N_of_ascii e in
                  if ((n =? 225) && (m =? 154) && (k =? 128)
                      || (n =? 226) && (m =? 128)
                         && ((128 <=? k) && (k <=? 138) || (k =? 168)
                             || (k =? 169) || (k =? 175))
                      || (n =? 226) && (m =? 129) && (k =? 159)
                      || (n =? 227) && (m =? 128) && (k =? 128))%N
                  then Some rest2 else None
              end
        end
  end.

Definition skip_space_rev (s : string) : option string :=
  match s with
  | "" => None
  | String c rest =>
      let n := Ascii.N_of_ascii c in
      if is_space n then Some rest
      else
        match rest with
        | "" => None
        | String d rest1 =>
            let m := Ascii.N_of_ascii d in
            if ((m =? 194) && ((n =? 133) || (n =? 160)))%N then Some rest1
            else
              match rest1 with
              | "" => None
              | String e rest2 =>
                  let k := Ascii.N_of_ascii e in
                  if ((k =? 225) && (m =? 154) && (n =? 128)
                      || (k =? 226) && (m =? 128)
                         && ((128 <=? n) && (n <=? 138) || (n =? 168)
                             || (n =? 169) || (n =? 175))
                      || (k =? 226) && (m =? 129) && (n =? 159)
                      || (k =? 227) && (m =? 128) && (n =? 128))%N
                  then Some rest2 else None
              end
        end
  end.

Fixpoint skip_spaces (skip : string → option string) (fuel : nat)
    (s : string) : string :=
  match fuel with
  | O => s
  | S fuel =>
      match skip s with
      | Some rest => skip_spaces skip fuel rest
      | None => s
      end
  end.

Definition lstrip (s : string) : string :=
  skip_spaces skip_space (String.length s) s.

(** [str.strip]. *)
Definition strip (s : string) : string :=
  let s := String.rev (lstrip s) in
  String.rev (skip_spaces skip_space_rev (String.length s) s).

(** [len(s)]: the characters, that is the bytes that do not continue one. *)
Fixpoint len (s : string) : nat :=
  match s with
  | "" => O
  | String c s' =>
      let n := Ascii.N_of_ascii c in
      if ((128 <=? n) && (n <? 192))%N then len s' else S (len s')
  end.

(** [s.isascii()]. *)
Fixpoint isascii (s : string) : bool :=
  match s with
  | "" => true
  | String c s' => (Ascii.N_of_ascii c <? 128)%N && isascii s'
  end.

Fixpoint contains (c : Ascii.ascii) (s : string) : bool :=
  match s with
  | "" => false
  | String c' s' => Ascii.eqb c c' || contains c s'
  end.

Definition hex_digit (n : N) : Ascii.ascii :=
  Ascii.ascii_of_N (if (n <? 10)%N then 48 + n else 87 + n).

(** [repr(s)] of a string of printable characters and ASCII controls:
    single quotes unless the string has one and no double quote; the
    quote, the backslash and the controls are escaped. *)
Definition repr (s : string) : string :=
  let single := Ascii.ascii_of_N 39 in
  let double := Ascii.ascii_of_N 34 in
  let backslash := Ascii.ascii_of_N 92 in
  let quote := if contains single s && negb (contains double s)
               then double else single in
  let escape := fix escape (s : string) : string :=
    match s with
    | "" => ""
    | String c s' =>
        let n := Ascii.N_of_ascii c in
        let rest := escape s' in
        if Ascii.eqb c quote || Ascii.eqb c backslash
        then String backslash (String c rest)
        else if (n =? 9)%N then String backslash (String "t" rest)
        else if (n =? 10)%N then String backslash (String "n" rest)
        else if (n =? 13)%N then String backslash (String "r" rest)
        else if ((n <? 32) || (n =? 127))%N
        then String backslash
               (String "x" (String (hex_digit (n / 16))
                              (String (hex_digit (n mod 16)) rest)))
        else String c rest
    end in
  String quote (escape s +:+ String quote "").

(** [s.rsplit(sep, 1)] when it has two parts, [None] when [sep] is absent. *)
Fixpoint rsplit1 (sep : Ascii.ascii) (s : string) : option (string * string) :=
  match s with
  | "" => None
  | String c s' =>
      match rsplit1 sep s' with
      | Some (a, b) => Some (String c a, b)
      | None => if Ascii.eqb c sep then Some ("", s') else None
      end
  end.

(** [s.split(sep)[0]]. *)
Fixpoint split_head (sep : Ascii.ascii) (s : string) : string :=
  match s with
  | "" => ""
  | String c s' => if Ascii.eqb c sep then "" else String c (split_head sep s')
  end.

(** Truth value of [x] for [x] a string or [None]. *)
Definition truthy (x : option string) : bool :=
  match x with
  | None | Some "" => false
  | Some _ => true
  end.

(** [x or y] on strings. *)
Definition or (x y : string) : string :=
  if bool_decide (x = "") then y else x.

End Py.

(** ** Password hashing (an opaque library with a contract) *)

Class PasswordHasher := mkHasher {
  make_password : string → string;
  check_hash : string → string → bool;
}.

(** The contract of Django's hashers: a password verifies against its hash. *)
Class HasherCorrect `{hasher : PasswordHasher} :=
  check_make : ∀ raw, check_hash raw (make_password raw) = true.

(** [user.check_password(raw)]. *)
Definition check_password `{hasher : PasswordHasher} (user : CustomUser) (raw : string)
    : bool :=
  match user_password user with
  | Some h => check_hash raw h
  | None => false
  end.

(** ** [CustomUserManager] *)

Module CustomUserManager.

(** [BaseUserManager.normalize_email]: lowercase the domain part. *)
Definition normalize_email (email : string) : string :=
  match Py.rsplit1 "@"%char (Py.strip email) with
  | Some (email_name, domain_part) =>
      email_name +:+ "@" +:+ Py.lower domain_part
  | None => email
  end.

(** [user.save()] of a new row: the email column is unique. *)
Definition save_new (user : CustomUser) : ORM unit :=
  taken ← query (λ db, bool_decide (user_email user ∈ user_email <$> users db));
  if taken : bool then raise IntegrityError
  else modify (λ db, set_users (users db ++ [user]) db).

Definition create_user `{hasher : PasswordHasher} (email : string)
    (password : option string) (first_name last_name : string)
    : ORM CustomUser :=
  if bool_decide (email = "") then
    raise (ValueError "The Email field must be set")
  else
    let email := normalize_email email in
    pk ← query (λ db, next_pk user_pk (users db));
    let user := mkUser pk email (make_password <$> password)
                       first_name last_name false in
    _ ← save_new user;
    mret user.

End CustomUserManager.

(** [Profile.objects.create]: one profile per user. *)
Definition Profile_create (p : Profile) : ORM Profile :=
  taken ← query (λ db,
    bool_decide (profile_user_id p ∈ profile_user_id <$> profiles db));
  if taken : bool then raise IntegrityError
  else
    _ ← modify (λ db, set_profiles (profiles db ++ [p]) db);
    mret p.

(** [SocialAccount.objects.create]: [(provider, uid)] is unique. *)
Definition SocialAccount_create (a : SocialAccount) : ORM SocialAccount :=
  taken ← query (λ db,
    bool_decide ((social_provider a, social_uid a)
                 ∈ (λ x, (social_provider x, social_uid x))
                   <$> social_accounts db));
  if taken : bool then raise IntegrityError
  else
    _ ← modify (λ db, set_social_accounts (social_accounts db ++ [a]) db);
    mret a.

(** [User.objects.get(email=email)] and the dereference of a foreign key
    to a user. *)
Definition User_get_by_email (email : string) : ORM CustomUser :=
  λ db, (qs_get "CustomUser" (filter (λ u, user_email u = email) (users db)),
         db).

Definition User_get (pk : Z) : ORM CustomUser :=
  λ db, (qs_get "CustomUser" (filter (λ u, user_pk u = pk) (users db)), db).

(** ** Registration ([users/serializers.py], [RegisterView]) *)

(** [AUTH_PASSWORD_VALIDATORS] and the format check of [EmailField] come
    from the settings and the framework. *)
Class PasswordPolicy := validate_password : string → bool.
Class EmailFormat := validate_email : string → bool.

Module UserRegistrationSerializer.

(** [request.data]: the string under each key, [None] when the key is
    absent. *)
Record Data := mkData {
  data_email : option string;
  data_password : option string;
  data_password_confirm : option string;
  data_display_name : option string;
}.

(** [validated_data]: the field values after the fields processed them. *)
Record Attrs := mkAttrs {
  email : string;
  password : string;
  password_confirm : string;
  display_name : option string;
}.

(** [CharField.run_validation] with the defaults [trim_whitespace=True] and
    [allow_blank=False]: an absent key fails a required field and skips an
    optional one; the value is stripped, must not be blank, must not hold a
    null character, must be within [max_length] characters and must pass
    the validators of the field. *)
Definition CharField (required : bool) (max_length : option nat)
    (validators : list (string → bool)) (data : option string)
    : Outcome (option string) :=
  match data with
  | None =>
      if required then Raise (ValidationError "This field is required.")
      else Return None
  | Some data =>
      let value := Py.strip data in
      if bool_decide (value = "") then
        Raise (ValidationError "This field may not be blank.")
      else if Py.contains "000"%char value then
        Raise (ValidationError "Null characters are not allowed.")
      else if from_option (λ n, n <? Py.len value)%nat false max_length then
        Raise (ValidationError "Ensure this field has no more characters.")
      else if negb (forallb (λ validator, validator value) validators) then
        Raise (ValidationError "Invalid value.")
      else Return (Some value)
  end.

Definition validate (attrs : Attrs) : Outcome Attrs :=
  if bool_decide (password attrs ≠ password_confirm attrs)
  then Raise (ValidationError "Passwords don't match")
  else Return attrs.

(** [is_valid(raise_exception=True)]: the fields in the order of
    [Meta.fields], then [validate]. The email field is the model's, so it is
    required, holds at most 254 characters and carries the format check and
    a uniqueness validator, an exact lookup of the value as typed. The
    errors of all fields are raised together as one [ValidationError]; the
    first of them stands for it here. *)
Definition is_valid `{policy : PasswordPolicy} `{email_format : EmailFormat}
    (data : Data) : ORM Attrs :=
  taken ← query (λ db value, bool_decide (value ∈ user_email <$> users db));
  lift (
    email ← CharField true (Some 254%nat)
              [validate_email; λ value, negb (taken value)]
              (data_email data);
    password ← CharField true None [validate_password] (data_password data);
    password_confirm ← CharField true None [] (data_password_confirm data);
    display_name ← CharField false (Some 150%nat) []
                     (data_display_name data);
    validate (mkAttrs (default "" email) (default "" password)
                      (default "" password_confirm) display_name)).

Definition create `{hasher : PasswordHasher} (validated_data : Attrs)
    : ORM CustomUser :=
  let display_name := default "" (display_name validated_data) in
  user ← CustomUserManager.create_user (email validated_data)
           (Some (password validated_data)) "" "";
  _ ← Profile_create
        (mkProfile (user_pk user)
           (Py.or display_name (Py.split_head "@"%char (user_email user)))
           "");
  mret user.

End UserRegistrationSerializer.

Module RegisterView.

(** [create]: the answer is 201 with the new user (and a token pair minted
    for it, which needs no database state here). *)
Definition create `{hasher : PasswordHasher} `{policy : PasswordPolicy} `{email_format : EmailFormat}
    (data : UserRegistrationSerializer.Data) : ORM CustomUser :=
  validated ← UserRegistrationSerializer.is_valid data;
  UserRegistrationSerializer.create validated.

End RegisterView.

(** ** Social login ([users/social_auth.py]) *)

Module social_auth.

(** [google_user_info] is the JSON object Google's userinfo endpoint
    returns. *)
Abbreviation GoogleUserInfo := (gmap string string).

Definition display_name_of (google_user_info : GoogleUserInfo)
    (first_name last_name email : string) : string :=
  let name := default "" (google_user_info !! "name") in
  let name := if bool_decide (name = "")
              then Py.strip (first_name +:+ " " +:+ last_name) else name in
  if bool_decide (name = "") then Py.split_head "@"%char email else name.

Definition create_user_from_google `{hasher : PasswordHasher}
    (google_user_info : GoogleUserInfo) : ORM CustomUser :=
  let email := default "" (google_user_info !! "email") in
  let first_name := default "" (google_user_info !! "given_name") in
  let last_name := default "" (google_user_info !! "family_name") in
  let google_id := default "" (google_user_info !! "id") in
  user ← CustomUserManager.create_user email None first_name last_name;
  _ ← SocialAccount_create (mkSocialAccount (user_pk user) "google" google_id);
  existing ← query (λ db,
    filter (λ p, profile_user_id p = user_pk user) (profiles db));
  match existing with
  | [] =>
      _ ← Profile_create
            (mkProfile (user_pk user)
               (display_name_of google_user_info first_name last_name email)
               "");
      mret user
  | profile :: _ =>
      if bool_decide (profile_display_name profile = "") then
        let name := display_name_of google_user_info first_name last_name
                      email in
        _ ← modify (λ db, set_profiles
              ((λ p, if bool_decide (profile_user_id p = user_pk user)
                     then mkProfile (profile_user_id p) name (profile_bio p)
                     else p) <$> profiles db) db);
        mret user
      else mret user
  end.

Definition get_or_create_user_from_google `{hasher : PasswordHasher}
    (google_user_info : GoogleUserInfo) : ORM (CustomUser * bool) :=
  let email := google_user_info !! "email" in
  let google_id := google_user_info !! "id" in
  if negb (Py.truthy email) || negb (Py.truthy google_id) then
    raise (ValueError "Missing required user information from Google")
  else
    let email := default "" email in
    let google_id := default "" google_id in
    found ← try_except
      (social_account ← (λ db,
         (qs_get "SocialAccount"
                 (filter (λ a, social_provider a = "google"
                               ∧ social_uid a = google_id)
                         (social_accounts db)), db));
       user ← User_get (social_user_id social_account);
       mret (Some user))
      (λ e, match e with
            | DoesNotExist "SocialAccount" => mret None
            | _ => raise e
            end);
    match found with
    | Some user => mret (user, false)
    | None =>
        try_except
          (user ← User_get_by_email email;
           _ ← SocialAccount_create
                 (mkSocialAccount (user_pk user) "google" google_id);
           mret (user, false))
          (λ e, match e with
                | DoesNotExist "CustomUser" =>
                    user ← create_user_from_google google_user_info;
                    mret (user, true)
                | _ => raise e
                end)
    end.

End social_auth.

(** ** Media validation ([users/validators.py]) *)

Record UploadedFile := mkFile {
  file_name : string;
  file_size : Z;
  file_content_type : option string;
  file_body : string;
}.

(** The two settings the validator reads with [getattr(settings, _, default)]. *)
Record Settings := mkSettings {
  MEDIA_MAX_SIZE : option Z;
  MEDIA_ALLOWED_CONTENT_TYPES : option (list string);
}.

(** Pillow: [Image.open(f).size] followed by [verify()]; [None] when either
    raises. *)
Class ImageLibrary := image_open : UploadedFile → option (Z * Z).

Record MediaMeta := mkMeta {
  meta_content_type : string;
  meta_size : Z;
  meta_width : option Z;
  meta_height : option Z;
}.

Definition validate_media_file `{images : ImageLibrary} (settings : Settings)
    (uploaded_file : UploadedFile) : Outcome MediaMeta :=
  let max_size := default (5 * 1024 * 1024) (MEDIA_MAX_SIZE settings) in
  let allowed := default [] (MEDIA_ALLOWED_CONTENT_TYPES settings) in
  let size := file_size uploaded_file in
  let ctype := default "" (file_content_type uploaded_file) in
  if bool_decide (size = 0) then
    Raise (ValidationError "Empty file upload is not allowed")
  else if bool_decide (size > max_size) then
    Raise (ValidationError
             ("File exceeds maximum size of " +:+ pretty max_size +:+ " bytes"))
  else if bool_decide (allowed ≠ []) && bool_decide (ctype ∉ allowed) then
    Raise (ValidationError ("Unsupported content type: " +:+ ctype))
  else if String.prefix "image/" ctype then
    match image_open uploaded_file with
    | Some (width, height) =>
        Return (mkMeta ctype size (Some width) (Some height))
    | None => Raise (ValidationError "Invalid image file")
    end
  else Return (mkMeta ctype size None None).

(** [str(e)]. *)
Definition str_exception (e : Exception) : string :=
  match e with
  | ValidationError msg => "[" +:+ Py.repr msg +:+ "]"
  | Http404 msg | ValueError msg | TokenError msg | KeyError msg => msg
  | DoesNotExist model | MultipleObjectsReturned model => model
  | PermissionDenied => "PermissionDenied"
  | NotAuthenticated => "NotAuthenticated"
  | IntegrityError => "IntegrityError"
  end.

Record Response (B : Type) := mkResponse {
  status_code : Z;
  data : B;
}.
Arguments mkResponse {B} _ _.
Arguments status_code {B} _.
Arguments data {B} _.

(** [upload_post_media_path]. *)
Definition upload_post_media_path (post_id : Z) (filename : string) : string :=
  "posts/" +:+ pretty post_id +:+ "/" +:+ filename.

(** [FieldFile.save], run when the row is created: the name under which
    the storage keeps a file requested under a name. Django's storage
    replaces the characters it holds unsafe and alters the name until no
    stored file has it, so the result depends on what the storage holds;
    nothing is assumed of it here. *)
Class FileStorage := storage_save : DB → string → string.

(** ** [MediaBatchUploadView] *)

Module MediaBatchUploadView.

Record FileError := mkFileError {
  filename : string;
  error : string;
}.

Inductive Body :=
  | ErrorBody (error : string)
  | BatchBody (created : list Media) (errors : list FileError).

(** The [try] block of the loop body. *)
Definition create_media `{images : ImageLibrary} `{storage : FileStorage}
    (settings : Settings) (request : Request) (post_id : Z)
    (f : UploadedFile) : ORM Media :=
  meta ← lift (validate_media_file settings f);
  match request_user request with
  | AnonymousUser => raise (ValueError "AnonymousUser is not a CustomUser")
  | AuthUser user =>
      pk ← query (λ db, next_pk media_pk (media db));
      file ← query (λ db,
        storage_save db (upload_post_media_path post_id (file_name f)));
      let m := mkMedia pk post_id file
                 (meta_content_type meta) (meta_size meta) (meta_width meta)
                 (meta_height meta) (user_pk user) in
      _ ← modify (λ db, set_media (media db ++ [m]) db);
      mret m
  end.

(** [for f in files: try: ... except Exception as e: errors.append(...)]. *)
Fixpoint upload_loop `{images : ImageLibrary} `{storage : FileStorage}
    (settings : Settings) (request : Request) (post_id : Z) (files : list UploadedFile)
    (created : list Media) (errors : list FileError)
    : ORM (list Media * list FileError) :=
  match files with
  | [] => mret (created, errors)
  | f :: rest =>
      r ← try_except
            (m ← create_media settings request post_id f; mret (inl m))
            (λ e, mret (inr (mkFileError (file_name f) (str_exception e))));
      match r with
      | inl m => upload_loop settings request post_id rest (created ++ [m]) errors
      | inr e => upload_loop settings request post_id rest created (errors ++ [e])
      end
  end.

Definition post `{images : ImageLibrary} `{storage : FileStorage}
    (settings : Settings) (request : Request)
    (post_pk : Z) (files : list UploadedFile) : ORM (Response Body) :=
  _ ← get_accessible_post request post_pk;
  match files with
  | [] => mret (mkResponse 400 (ErrorBody "No files provided"))
  | _ =>
      '(created, errors) ← upload_loop settings request post_pk files [] [];
      let status_code := match errors with [] => 201 | _ => 207 end in
      mret (mkResponse status_code (BatchBody created errors))
  end.

End MediaBatchUploadView.

(** ** [MediaDetailView] *)

Module MediaDetailView.

Definition permission_classes : list (BasePermission Media) :=
  [IsAuthenticated].

Definition get_queryset (db : DB) (post_pk : Z) : list Media :=
  filter (λ m, media_post_id m = post_pk) (media db).

Definition get_object (request : Request) (post_pk pk : Z) : ORM Media :=
  queryset ← query (λ db, get_queryset db post_pk);
  obj ← lift (generic_get_object "Media" media_pk queryset permission_classes
                request pk);
  post ← Post_get (media_post_id obj);
  if negb (same_user (Some (post_author_id post)) (request_user request))
     && negb (same_user (Some (media_uploaded_by_id obj))
                        (request_user request))
  then raise (Http404 "Media not found")
  else mret obj.

Definition get (request : Request) (post_pk pk : Z) : ORM Media :=
  get_object request post_pk pk.

Definition delete (request : Request) (post_pk pk : Z)
    : ORM (Response string) :=
  obj ← get_object request post_pk pk;
  _ ← modify (λ db,
        set_media (filter (λ m, media_pk m ≠ media_pk obj) (media db)) db);
  mret (mkResponse 204 "Media deleted successfully").

End MediaDetailView.

(** ** Refresh tokens and logout *)

(** The claims of a decoded token. *)
Record Payload := mkPayload {
  token_type : option string;
  exp : option Z;
  jti : option string;
  user_id : option Z;
}.

(** [TokenBackend.decode]: [None] when the string is not a token signed by
    this server. *)
Class TokenBackend := decode : string → option Payload.

(** The clock and the blacklist application's tables, keyed by [jti]. *)
Record TokenStore := mkTokenStore {
  current_time : Z;
  outstanding : gset string;
  blacklisted : gset string;
}.

Module RefreshToken.

(** [BlacklistMixin.check_blacklist]. *)
Definition check_blacklist (store : TokenStore) (payload : Payload)
    : Outcome unit :=
  match jti payload with
  | None => Raise (KeyError "jti")
  | Some j =>
      if bool_decide (j ∈ blacklisted store)
      then Raise (TokenError "Token is blacklisted")
      else Return ()
  end.

(** [Token.check_exp]. *)
Definition check_exp (store : TokenStore) (payload : Payload) : Outcome unit :=
  match exp payload with
  | None => Raise (TokenError "Token has no 'exp' claim")
  | Some claim_time =>
      if bool_decide (claim_time <= current_time store)
      then Raise (TokenError "Token 'exp' claim has expired")
      else Return ()
  end.

(** [Token.verify_token_type]. *)
Definition verify_token_type (payload : Payload) : Outcome unit :=
  match token_type payload with
  | None => Raise (TokenError "Token has no type")
  | Some t =>
      if bool_decide (t = "refresh") then Return ()
      else Raise (TokenError "Token has wrong type")
  end.

(** [verify] of a token class with the blacklist mixin. *)
Definition verify (store : TokenStore) (payload : Payload) : Outcome unit :=
  _ ← check_blacklist store payload;
  _ ← check_exp store payload;
  _ ← (if jti payload is None then Raise (TokenError "Token has no id")
       else Return ());
  verify_token_type payload.

(** [RefreshToken(token)]: decode, then verify. *)
Definition init `{backend : TokenBackend} (store : TokenStore) (token : string)
    : Outcome Payload :=
  match decode token with
  | None => Raise (TokenError "Token is invalid or expired")
  | Some payload => _ ← verify store payload; mret payload
  end.

(** [token.blacklist()]. *)
Definition blacklist (store : TokenStore) (payload : Payload)
    : Outcome TokenStore :=
  match jti payload with
  | None => Raise (KeyError "jti")
  | Some j =>
      Return (mkTokenStore (current_time store) ({[j]} ∪ outstanding store)
                           ({[j]} ∪ blacklisted store))
  end.

End RefreshToken.

Inductive LogoutBody :=
  | Message (message : string)
  | Error (error : string).

(** [logout_view]; [refresh] is [request.data.get('refresh')]. *)
Definition logout_view `{backend : TokenBackend} (store : TokenStore)
    (refresh : option string) : Response LogoutBody * TokenStore :=
  let ok := mkResponse 200 (Message "Successfully logged out") in
  let attempt : Outcome TokenStore :=
    if Py.truthy refresh then
      token ← RefreshToken.init store (default "" refresh);
      RefreshToken.blacklist store token
    else Return store in
  match attempt with
  | Return store' => (ok, store')
  | Raise _ => (mkResponse 400 (Error "Invalid token"), store)
  end.

(** ** [MediaSerializer] and [MediaUploadView] (single upload) *)

Module MediaSerializer.

(** [create]: Django's [ValidationError] of the validator becomes the
    serializer's, keyed by ['file']; the uploader is [request.user]. *)
Definition create `{images : ImageLibrary} `{storage : FileStorage}
    (settings : Settings) (request : Request) (post_id : Z)
    (file : UploadedFile) : ORM Media :=
  meta ← try_except (lift (validate_media_file settings file))
           (λ e, match e with
                 | ValidationError msg => raise (ValidationError msg)
                 | _ => raise e
                 end);
  match request_user request with
  | AnonymousUser => raise (ValueError "AnonymousUser is not a CustomUser")
  | AuthUser user =>
      pk ← query (λ db, next_pk media_pk (media db));
      name ← query (λ db,
        storage_save db (upload_post_media_path post_id (file_name file)));
      let m := mkMedia pk post_id name
                 (meta_content_type meta) (meta_size meta) (meta_width meta)
                 (meta_height meta) (user_pk user) in
      _ ← modify (λ db, set_media (media db ++ [m]) db);
      mret m
  end.

End MediaSerializer.

Module MediaUploadView.

(** [perform_create]; [file] is the file the serializer validated. *)
Definition perform_create `{images : ImageLibrary} `{storage : FileStorage}
    (settings : Settings) (request : Request) (post_id : Z)
    (file : UploadedFile) : ORM Media :=
  _ ← get_accessible_post request post_id;
  MediaSerializer.create settings request post_id file.

End MediaUploadView.

(** ** [ProfileUpdateView] *)

Module ProfileUpdateView.

(** [Profile.objects.get_or_create(user=request.user)]. *)
Definition get_object (request : Request) : ORM Profile :=
  match request_user request with
  | AnonymousUser => raise (ValueError "AnonymousUser is not a CustomUser")
  | AuthUser user =>
      try_except
        (λ db, (qs_get "Profile"
                  (filter (λ p, profile_user_id p = user_pk user)
                          (profiles db)), db))
        (λ e, match e with
              | DoesNotExist "Profile" =>
                  Profile_create (mkProfile (user_pk user) "" "")
              | _ => raise e
              end)
  end.

(** The fields [ProfileSerializer] writes. *)
Record ProfileFields := mkProfileFields {
  new_display_name : option string;
  new_bio : option string;
}.

(** [update]: the object first, then the validated payload
    ([None] when [is_valid] rejects it). *)
Definition update (request : Request) (validated_data : option ProfileFields)
    : ORM Profile :=
  instance ← get_object request;
  match validated_data with
  | None => raise (ValidationError "invalid")
  | Some data =>
      let instance' :=
        mkProfile (profile_user_id instance)
          (default (profile_display_name instance) (new_display_name data))
          (default (profile_bio instance) (new_bio data)) in
      _ ← modify (λ db,
            set_profiles
              ((λ p, if bool_decide (profile_user_id p
                                     = profile_user_id instance)
                     then instance' else p) <$> profiles db) db);
      mret instance'
  end.

End ProfileUpdateView.

(** ** Throttles ([users/throttles.py]) *)

Module throttles.

(** [SimpleRateThrottle.cache_format % {'scope': scope, 'ident': ident}]. *)
Definition cache_format (scope ident : string) : string :=
  "throttle_" +:+ scope +:+ "_" +:+ ident.

Inductive Throttle :=
  | BurstRateThrottle
  | SustainedRateThrottle
  | AuthLoginThrottle
  | AuthRegisterThrottle
  | PostCreateThrottle
  | CommentCreateThrottle.

Definition scope (t : Throttle) : string :=
  match t with
  | BurstRateThrottle => "burst"
  | SustainedRateThrottle => "sustained"
  | AuthLoginThrottle => "auth_login"
  | AuthRegisterThrottle => "auth_register"
  | PostCreateThrottle => "post_create"
  | CommentCreateThrottle => "comment_create"
  end.

(** [get_cache_key]; [ident] is what [self.get_ident(request)] returns (the
    client address). [None] means the request is not throttled. *)
Definition get_cache_key (t : Throttle) (request : Request) (ident : string)
    : option string :=
  match t with
  | BurstRateThrottle | SustainedRateThrottle =>
      Some (cache_format (scope t) ident)
  | AuthLoginThrottle | AuthRegisterThrottle =>
      if bool_decide (request_method request ≠ POST) then None
      else Some (cache_format (scope t) ident)
  | PostCreateThrottle | CommentCreateThrottle =>
      if bool_decide (request_method request ≠ POST) then None
      else
        let ident := match request_user request with
                     | AuthUser user => pretty (user_pk user)
                     | AnonymousUser => ident
                     end in
        Some (cache_format (scope t) ident)
  end.

End throttles.

(** ** [SocialAccountAdapter.save_user] ([users/adapters.py]) *)

Module SocialAccountAdapter.

(** The display name [save_user] gives the profile of a saved user. *)
Definition display_name_of (extra_data : gmap string string)
    (user : CustomUser) : string :=
  let display_name := default "" (extra_data !! "name") in
  let display_name :=
    if bool_decide (display_name = "")
       && negb (bool_decide (user_first_name user = ""))
    then Py.strip (user_first_name user +:+ " " +:+ user_last_name user)
    else display_name in
  if bool_decide (display_name = "")
  then Py.split_head "@"%char (user_email user)
  else display_name.

(** [save_user] after [super().save_user(...)] has stored [user]: a profile
    is created when the user has none. *)
Definition save_user (extra_data : gmap string string) (user : CustomUser)
    : ORM CustomUser :=
  existing ← query (λ db,
    filter (λ p, profile_user_id p = user_pk user) (profiles db));
  match existing with
  | [] =>
      _ ← Profile_create
            (mkProfile (user_pk user) (display_name_of extra_data user) "");
      mret user
  | _ => mret user
  end.

End SocialAccountAdapter.

(** ** [CommentViewSet.list] *)

(** [ListModelMixin.list] over [CommentViewSet.get_queryset]; the route
    passes [post_pk]. *)
Definition CommentViewSet_list (request : Request) (post_pk : Z)
    : ORM (list Comment) :=
  query (λ db, CommentViewSet.get_queryset db post_pk).

(** ** [google_login] ([users/social_auth.py]) *)




Module UserSerializer.


End UserSerializer.



(** * Vocabulary of the properties *)

(** ** Visibility and likes *)

(** What [get_queryset] lets a principal see. *)
Definition visible_to (user : RequestUser) (p : Post) : Prop :=
  if is_authenticated user then
    is_staff user = true ∨ post_privacy p = "public"
    ∨ same_user (Some (post_author_id p)) user = true
  else post_privacy p = "public".

(** [unique_together = ('post', 'user')]. *)
Definition unique_together (db : DB) : Prop :=
  NoDup ((λ l, (like_post_id l, like_user_id l)) <$> likes db).

(** The principals that hold a like on a post. *)
Definition likers (db : DB) (post : Post) : gset Z :=
  list_to_set
    (like_user_id <$> filter (λ l, like_post_id l = post_pk post) (likes db)).

Definition has_liked (db : DB) (post : Post) (u : CustomUser) : Prop :=
  ∃ l, l ∈ likes db ∧ like_post_id l = post_pk post
       ∧ like_user_id l = user_pk u.

(** ** Batch upload *)

(** A file fails its validation when [validate_media_file] raises. *)
Definition fails_validation `{images : ImageLibrary} (settings : Settings)
    (f : UploadedFile) : bool :=
  match validate_media_file settings f with
  | Return _ => false
  | Raise _ => true
  end.

(** [K]: how many of the files fail. *)
Definition failures `{images : ImageLibrary} (settings : Settings)
    (files : list UploadedFile) : nat :=
  length (filter (λ f, fails_validation settings f = true) files).

(** ** Logout *)

(** A decoded token passes [RefreshToken(...)] when its identifier is not
    blacklisted, it has not expired and it is a refresh token. *)
Definition verifies (store : TokenStore) (payload : Payload) : Prop :=
  ∃ j e, jti payload = Some j ∧ (j ∉ blacklisted store)
         ∧ exp payload = Some e ∧ current_time store < e
         ∧ token_type payload = Some "refresh".

Definition logged_out : Response LogoutBody :=
  mkResponse 200 (Message "Successfully logged out").
Definition invalid_token : Response LogoutBody :=
  mkResponse 400 (Error "Invalid token").

(** ** Registration *)

(** The row [create_user] builds for a registration. *)
Definition registered_user `{hasher : PasswordHasher} (db : DB)
    (attrs : UserRegistrationSerializer.Attrs) : CustomUser :=
  mkUser (next_pk user_pk (users db))
         (CustomUserManager.normalize_email
            (UserRegistrationSerializer.email attrs))
         (Some (make_password (UserRegistrationSerializer.password attrs)))
         "" "" false.

Definition registered_profile (db : DB)
    (attrs : UserRegistrationSerializer.Attrs) : Profile :=
  mkProfile (next_pk user_pk (users db))
    (Py.or (default "" (UserRegistrationSerializer.display_name attrs))
           (Py.split_head "@"%char
              (CustomUserManager.normalize_email
                 (UserRegistrationSerializer.email attrs))))
    "".

(** What [is_valid] hands to [create]: the three required fields were
    sent, every value is stripped, the passwords agree, and the email is
    well formed and free as typed. *)
Definition validated `{policy : PasswordPolicy} `{email_format : EmailFormat}
    (db : DB) (data : UserRegistrationSerializer.Data)
    (attrs : UserRegistrationSerializer.Attrs) : Prop :=
  ∃ e pw pc,
    UserRegistrationSerializer.data_email data = Some e
    ∧ UserRegistrationSerializer.data_password data = Some pw
    ∧ UserRegistrationSerializer.data_password_confirm data = Some pc
    ∧ attrs = UserRegistrationSerializer.mkAttrs (Py.strip e) (Py.strip pw)
                (Py.strip pc)
                (Py.strip
                   <$> UserRegistrationSerializer.data_display_name data)
    ∧ Py.strip pw = Py.strip pc
    ∧ Py.strip e ≠ "" ∧ Py.strip pw ≠ ""
    ∧ (Py.strip e ∉ user_email <$> users db)
    ∧ validate_email (Py.strip e) = true
    ∧ validate_password (Py.strip pw) = true.

(** What the database must allow for the two inserts of [create]. *)
Definition insertable (db : DB) (attrs : UserRegistrationSerializer.Attrs)
    : Prop :=
  UserRegistrationSerializer.email attrs ≠ ""
  ∧ (CustomUserManager.normalize_email (UserRegistrationSerializer.email attrs)
     ∉ user_email <$> users db)
  ∧ (next_pk user_pk (users db) ∉ profile_user_id <$> profiles db).

#[global] Instance insertable_dec db attrs : Decision (insertable db attrs).
Proof. unfold insertable. apply _. Defined.

(** ** Social login *)

(** allauth's constraint on [SocialAccount]. *)
Definition google_identities_unique (db : DB) : Prop :=
  NoDup ((λ a, (social_provider a, social_uid a)) <$> social_accounts db).

Definition linked (db : DB) (google_id : string) (user : CustomUser) : Prop :=
  ∃ a, a ∈ social_accounts db ∧ social_provider a = "google"
       ∧ social_uid a = google_id ∧ social_user_id a = user_pk user
       ∧ user ∈ users db.

Definition unlinked (db : DB) (google_id : string) : Prop :=
  ∀ a, a ∈ social_accounts db →
       ¬ (social_provider a = "google" ∧ social_uid a = google_id).

(** The claims carry a subject id and an email. *)
Definition claims (info : gmap string string) (google_id email : string)
    : Prop :=
  info !! "id" = Some google_id ∧ google_id ≠ ""
  ∧ info !! "email" = Some email ∧ email ≠ "".

(** The account step 3 creates, with its identity and its profile. *)
Definition new_google_user (db : DB) (info : gmap string string)
    (email : string) : CustomUser :=
  mkUser (next_pk user_pk (users db))
         (CustomUserManager.normalize_email email) None
         (default "" (info !! "given_name"))
         (default "" (info !! "family_name")) false.

Definition after_google_signup (db : DB) (info : gmap string string)
    (google_id email : string) : DB :=
  let pk := next_pk user_pk (users db) in
  set_profiles
    (profiles db
     ++ [mkProfile pk
           (social_auth.display_name_of info
              (default "" (info !! "given_name"))
              (default "" (info !! "family_name")) email) ""])
    (set_social_accounts
       (social_accounts db ++ [mkSocialAccount pk "google" google_id])
       (set_users (users db ++ [new_google_user db info email]) db)).

(** ** Sample data for the examples *)

Definition alice : CustomUser := mkUser 1 "a@example.com" None "" "" false.
Definition bob : CustomUser := mkUser 2 "b@example.com" None "" "" false.
Definition admin : CustomUser := mkUser 3 "root@example.com" None "" "" true.

(** Alice owns a private and a public post, Bob a private one. *)
Definition sample_db : DB :=
  mkDB [alice; bob; admin] [mkProfile 1 "a" ""; mkProfile 2 "b" ""]
       [mkPost 1 1 "" "Secret" "private"; mkPost 2 1 "" "Visible" "public";
        mkPost 3 2 "" "Mine" "private"]
       [mkComment 1 2 1 "Original"]
       [mkMedia 1 2 "posts/2/a.txt" "text/plain" 5 None None 1;
        mkMedia 2 2 "posts/2/b.txt" "text/plain" 5 None None 2]
       [mkLike 1 2 1]
       [mkSocialAccount 1 "google" "g1"].

(** A decoder that accepts only the PNG signature, 10 by 10 pixels. *)
Definition sample_images : ImageLibrary :=
  λ f, if String.prefix "PNG" (file_body f) then Some (10, 10) else None.

(** A storage that holds no file yet keeps a clean name as it is. *)
Definition sample_storage : FileStorage := λ _ name, name.

Definition sample_settings : Settings :=
  mkSettings (Some 1024) (Some ["image/png"; "text/plain"]).

Definition sample_files : list UploadedFile :=
  [mkFile "img.png" 3 (Some "image/png") "PNG";
   mkFile "big.txt" 2048 (Some "text/plain") "aaaa";
   mkFile "file.bin" 10 (Some "application/octet-stream") "binarydata"].

(** The server's tokens in the examples: one string decodes. *)
Definition sample_backend : TokenBackend :=
  λ s, if bool_decide (s = "r1")
       then Some (mkPayload (Some "refresh") (Some 200) (Some "j1") (Some 1))
       else None.

(** The hash is the password, reversed. *)
Definition sample_hasher : PasswordHasher :=
  mkHasher String.rev (λ raw h, bool_decide (String.rev raw = h)).

(** At least eight characters, and something that has an [@]. *)
Definition sample_policy : PasswordPolicy :=
  λ pw, bool_decide (8 ≤ String.length pw)%nat.
Definition sample_email_format : EmailFormat :=
  λ e, bool_decide (is_Some (Py.rsplit1 "@"%char e)).

Definition carol_data : UserRegistrationSerializer.Data :=
  UserRegistrationSerializer.mkData (Some "carol@Example.COM")
    (Some "Passw0rd!") (Some "Passw0rd!") None.

(** Dave types a space after his password, both times. *)
Definition dave_data : UserRegistrationSerializer.Data :=
  UserRegistrationSerializer.mkData (Some "dave@example.com")
    (Some "Passw0rd! ") (Some "Passw0rd! ") None.

(** Bob registered with a password; no Google identity is linked to him. *)
Definition social_db : DB :=
  mkDB [mkUser 1 "bob@example.com" (Some "hash") "" "" false]
       [mkProfile 1 "bob" ""] [] [] [] [] [].

(** Google reports Bob's address with another capitalisation of the
    domain. *)
Definition bob_claims : gmap string string :=
  {[ "id" := "g1"; "email" := "bob@EXAMPLE.com"; "name" := "Bob" ]}.



(** ** Media acceptance *)

(** The limit and the allow-list [validate_media_file] reads. *)
Definition max_size (settings : Settings) : Z :=
  default (5 * 1024 * 1024) (MEDIA_MAX_SIZE settings).
Definition allowed_types (settings : Settings) : list string :=
  default [] (MEDIA_ALLOWED_CONTENT_TYPES settings).
Definition declared_type (f : UploadedFile) : string :=
  default "" (file_content_type f).

(** What a file must satisfy to be stored. *)
Definition media_acceptable `{images : ImageLibrary} (settings : Settings)
    (f : UploadedFile) : Prop :=
  (file_size f ≠ 0)%Z
  ∧ (file_size f ≤ max_size settings)%Z
  ∧ (allowed_types settings = [] ∨ declared_type f ∈ allowed_types settings)
  ∧ (String.prefix "image/" (declared_type f) = true →
     is_Some (image_open f)).

#[global] Instance media_acceptable_dec `{images : ImageLibrary} settings f :
  Decision (media_acceptable settings f).
Proof. unfold media_acceptable. apply _. Defined.

(** The metadata of an accepted file. *)
Definition media_meta `{images : ImageLibrary} (f : UploadedFile)
    : MediaMeta :=
  let dims := if String.prefix "image/" (declared_type f)
              then image_open f else None in
  mkMeta (declared_type f) (file_size f) (fst <$> dims) (snd <$> dims).

(** ** Stored media *)

(** The row an upload of [f] by [u] to a post leaves, but for its key and
    the name the storage gave the file. *)
Definition stored_as `{images : ImageLibrary} (settings : Settings)
    (u : CustomUser) (post_id : Z) (f : UploadedFile) (m : Media) : Prop :=
  media_post_id m = post_id ∧ media_uploaded_by_id m = user_pk u
  ∧ media_content_type m = declared_type f ∧ media_size m = file_size f
  ∧ media_width m = meta_width (media_meta f)
  ∧ media_height m = meta_height (media_meta f)
  ∧ media_acceptable settings f.

(** The entry of [errors] for a file the validator refused: the text is
    [str] of the exception, given here for a message in ASCII. *)
Definition reported `{images : ImageLibrary} (settings : Settings)
    (f : UploadedFile) (e : MediaBatchUploadView.FileError) : Prop :=
  MediaBatchUploadView.filename e = file_name f
  ∧ ∃ msg, validate_media_file settings f = Raise (ValidationError msg)
           ∧ (Py.isascii msg = true →
              MediaBatchUploadView.error e = "[" +:+ Py.repr msg +:+ "]").

(** ** Primary keys *)

Definition pks_unique (db : DB) : Prop :=
  NoDup (user_pk <$> users db) ∧ NoDup (post_pk <$> posts db)
  ∧ NoDup (comment_pk <$> comments db) ∧ NoDup (media_pk <$> media db)
  ∧ NoDup (like_pk <$> likes db).

(** * Properties *)

(** ** Running the database monad *)

Lemma bind_return {A B} (m : ORM A) (f : A → ORM B) db a db' :
  m db = (Return a, db') → (m ≫= f) db = f a db'.
Proof. intros Hm. unfold mbind, ORM_bind. by rewrite Hm. Qed.

Lemma bind_raise {A B} (m : ORM A) (f : A → ORM B) db e db' :
  m db = (Raise e, db') → (m ≫= f) db = (Raise e, db').
Proof. intros Hm. unfold mbind, ORM_bind. by rewrite Hm. Qed.

(** Behind [IsAuthenticated] and [IsOwnerOrReadOnly] an authenticated
    request reaches its handler, an anonymous one is answered 401. *)
Lemma dispatch_authenticated {A B} `{AuthorAttr A} (u : CustomUser) method
    (handler : ORM B) db :
  dispatch (A := A) [IsAuthenticated; IsOwnerOrReadOnly]
    (mkRequest (AuthUser u) method) handler db = handler db.
Proof.
  unfold dispatch, mbind, ORM_bind, lift. simpl. by destruct (handler db).
Qed.

Lemma dispatch_anonymous {A B} `{AuthorAttr A} method (handler : ORM B) db :
  dispatch (A := A) [IsAuthenticated; IsOwnerOrReadOnly]
    (mkRequest AnonymousUser method) handler db = (Raise NotAuthenticated, db).
Proof. done. Qed.

(** ** Queries over a table with a unique key *)

Section unique_key.
Context {A B : Type} (key : A → B).

Lemma filter_empty (P : A → Prop) `{∀ x, Decision (P x)} (rows : list A) :
  (∀ y, y ∈ rows → ¬ P y) → filter P rows = [].
Proof.
  induction rows as [|a rows IH]; intros Hno; [done|].
  rewrite filter_cons. destruct (decide (P a)) as [Ha|_].
  - exfalso. apply (Hno a); [left|done].
  - apply IH. intros y Hy. apply Hno. by right.
Qed.

Lemma filter_all (P : A → Prop) `{∀ x, Decision (P x)} (rows : list A) :
  (∀ y, y ∈ rows → P y) → filter P rows = rows.
Proof.
  induction rows as [|a rows IH]; intros Hall; [done|].
  rewrite filter_cons, decide_True by (apply Hall; left).
  f_equal. apply IH. intros y Hy. apply Hall. by right.
Qed.

Lemma filter_singleton (P : A → Prop) `{∀ x, Decision (P x)}
    (rows : list A) (x : A) :
  NoDup (key <$> rows) → x ∈ rows → P x →
  (∀ y, y ∈ rows → P y → key y = key x) →
  filter P rows = [x].
Proof.
  induction rows as [|a rows IH]; intros Hnd Hx HP Hkey.
  { by apply elem_of_nil in Hx. }
  rewrite fmap_cons in Hnd. apply NoDup_cons in Hnd as [Hfresh Hnd].
  rewrite filter_cons. apply elem_of_cons in Hx as [->|Hx].
  - rewrite decide_True by done. f_equal.
    apply filter_empty. intros y Hy HPy. apply Hfresh.
    rewrite <- (Hkey y); [|by right|done].
    apply list_elem_of_fmap. by exists y.
  - destruct (decide (P a)) as [Ha|_].
    + exfalso. apply Hfresh. rewrite (Hkey a); [|left|done].
      apply list_elem_of_fmap. by exists x.
    + apply IH; try done. intros y Hy. apply Hkey. by right.
Qed.

Lemma unique_key_eq (rows : list A) (x y : A) :
  NoDup (key <$> rows) → x ∈ rows → y ∈ rows → key x = key y → x = y.
Proof.
  induction rows as [|a rows IH]; intros Hnd Hx Hy Hk.
  { by apply elem_of_nil in Hx. }
  rewrite fmap_cons in Hnd. apply NoDup_cons in Hnd as [Hfresh Hnd].
  apply elem_of_cons in Hx as [->|Hx]; apply elem_of_cons in Hy as [->|Hy];
    try done.
  - exfalso. apply Hfresh. rewrite Hk. apply list_elem_of_fmap. by exists y.
  - exfalso. apply Hfresh. rewrite <- Hk. apply list_elem_of_fmap. by exists x.
  - by apply IH.
Qed.

End unique_key.

(** A fresh primary key is above every key in use. *)
Lemma next_pk_fresh {A} (pk : A → Z) (rows : list A) (x : A) :
  x ∈ rows → pk x < next_pk pk rows.
Proof.
  unfold next_pk. induction rows as [|a rows IH]; intros Hx.
  { by apply elem_of_nil in Hx. }
  rewrite fmap_cons. cbn [foldr].
  apply elem_of_cons in Hx as [->|Hx]; [lia|].
  specialize (IH Hx). lia.
Qed.

Lemma next_pk_not_in {A} (pk : A → Z) (rows : list A) :
  next_pk pk rows ∉ pk <$> rows.
Proof.
  intros (x & Heq & Hx)%list_elem_of_fmap.
  pose proof (next_pk_fresh pk rows x Hx). lia.
Qed.

(** ** Reading a post *)

Lemma get_object_or_404_missing {A} (model : string) :
  get_object_or_404 (A := A) model [] = Raise (Http404 "Not found.").
Proof. done. Qed.

Lemma generic_get_object_missing {A} model (pk_of : A → Z) queryset perms
    request pk :
  filter (λ o, pk_of o = pk) queryset = [] →
  generic_get_object model pk_of queryset perms request pk
  = Raise (Http404 "Not found.").
Proof. intros Heq. unfold generic_get_object. by rewrite Heq. Qed.

Lemma generic_get_object_found {A} model (pk_of : A → Z) queryset perms
    request pk obj :
  filter (λ o, pk_of o = pk) queryset = [obj] →
  generic_get_object model pk_of queryset perms request pk
  = (_ ← check_object_permissions perms request obj; mret obj).
Proof. intros Heq. unfold generic_get_object. by rewrite Heq. Qed.

Lemma get_queryset_subseteq db request p :
  p ∈ PostViewSet.get_queryset db request → p ∈ posts db.
Proof.
  unfold PostViewSet.get_queryset.
  destruct (negb _); [|destruct (is_staff _)];
    rewrite ?list_elem_of_filter; tauto.
Qed.

Lemma elem_of_get_queryset db request p :
  p ∈ PostViewSet.get_queryset db request
  ↔ p ∈ posts db ∧ visible_to (request_user request) p.
Proof.
  unfold PostViewSet.get_queryset, visible_to.
  destruct (is_authenticated _); simpl.
  - destruct (is_staff _); rewrite ?list_elem_of_filter; [tauto|].
    split; [intros [[?|?] ?]|intros [? [?|[?|?]]]]; try done; tauto.
  - rewrite list_elem_of_filter. tauto.
Qed.

Lemma get_object_hidden db request perms post :
  NoDup (post_pk <$> posts db) → post ∈ posts db →
  ¬ visible_to (request_user request) post →
  PostViewSet.get_object perms request (post_pk post) db
  = (Raise (Http404 "Not found."), db).
Proof.
  intros Hnd Hin Hhid. unfold PostViewSet.get_object, mbind, ORM_bind, query, lift.
  rewrite generic_get_object_missing; [done|].
  apply filter_empty. intros q [Hq Hvis]%elem_of_get_queryset Hpk.
  assert (q = post) as -> by (by eapply (unique_key_eq post_pk)).
  done.
Qed.

Lemma get_object_missing db request perms pk :
  pk ∉ post_pk <$> posts db →
  PostViewSet.get_object perms request pk db
  = (Raise (Http404 "Not found."), db).
Proof.
  intros Hpk. unfold PostViewSet.get_object, mbind, ORM_bind, query, lift.
  rewrite generic_get_object_missing; [done|].
  apply filter_empty. intros q Hq%get_queryset_subseteq Heq.
  apply Hpk. apply list_elem_of_fmap. by exists q.
Qed.

Lemma NoDup_key_filter {A B} (key : A → B) (P : A → Prop)
    `{∀ x, Decision (P x)} (rows : list A) :
  NoDup (key <$> rows) → NoDup (key <$> filter P rows).
Proof.
  intros Hnd. eapply sublist_NoDup; [done|].
  apply fmap_sublist, sublist_filter.
Qed.

Lemma get_queryset_NoDup db request :
  NoDup (post_pk <$> posts db) →
  NoDup (post_pk <$> PostViewSet.get_queryset db request).
Proof.
  intros Hnd. unfold PostViewSet.get_queryset.
  destruct (negb _); [|destruct (is_staff _)]; try done;
    by apply NoDup_key_filter.
Qed.

Lemma get_object_visible db request perms post :
  NoDup (post_pk <$> posts db) → post ∈ posts db →
  visible_to (request_user request) post →
  PostViewSet.get_object perms request (post_pk post) db
  = ((_ ← check_object_permissions perms request post; mret post), db).
Proof.
  intros Hnd Hin Hvis.
  unfold PostViewSet.get_object, mbind at 1, ORM_bind, query, lift.
  erewrite generic_get_object_found; [done|].
  apply (filter_singleton post_pk); try done.
  - by apply get_queryset_NoDup.
  - by apply elem_of_get_queryset.
Qed.

(** ** Listing posts *)

(** C3. For a non-staff authenticated principal, the post listing holds
    exactly the public posts and the principal's own posts; for a staff
    principal it is the whole table, unfiltered; a private post of somebody
    else is never in the listing of a non-staff principal. *)
Theorem list_posts_visibility (db : DB) (u : CustomUser) (method : Method) :
  let request := mkRequest (AuthUser u) method in
  (user_is_staff u = false →
     ∃ listing, PostViewSet.list_ request db = (Return listing, db)
       ∧ (∀ p, p ∈ listing ↔
                p ∈ posts db
                ∧ (post_privacy p = "public" ∨ post_author_id p = user_pk u))
       ∧ (∀ p, p ∈ listing → post_privacy p = "private" →
                post_author_id p = user_pk u))
  ∧ (user_is_staff u = true →
     PostViewSet.list_ request db = (Return (posts db), db)).
Proof.
  intros request. unfold PostViewSet.list_, query, PostViewSet.get_queryset.
  simpl. split; intros ->.
  - eexists. split; [done|]. split.
    + intros p. rewrite list_elem_of_filter, bool_decide_eq_true. tauto.
    + intros p [[Hpub|Hown%bool_decide_eq_true] _]%list_elem_of_filter Hpriv;
        [|done].
      rewrite Hpub in Hpriv. discriminate.
  - done.
Qed.

Lemma list_posts_visibility_witness :
  ∃ listing, PostViewSet.list_ (mkRequest (AuthUser bob) GET) sample_db
             = (Return listing, sample_db)
    ∧ (∀ p, p ∈ listing ↔
             p ∈ posts sample_db
             ∧ (post_privacy p = "public" ∨ post_author_id p = user_pk bob))
    ∧ (∀ p, p ∈ listing → post_privacy p = "private" →
             post_author_id p = user_pk bob).
Proof.
  apply (list_posts_visibility sample_db bob GET). reflexivity.
Defined.

(** ** A private post is indistinguishable from a missing one *)

Lemma get_accessible_post_hidden db request post :
  NoDup (post_pk <$> posts db) → post ∈ posts db →
  hidden_from post (request_user request) = true →
  get_accessible_post request (post_pk post) db
  = (Raise (Http404 "Post not found"), db).
Proof.
  intros Hnd Hin Hhid.
  unfold get_accessible_post, try_except, mbind, ORM_bind, Post_get.
  rewrite (filter_singleton post_pk _ (posts db) post); try done.
  simpl. by rewrite Hhid.
Qed.

Lemma get_accessible_post_missing db request pk :
  pk ∉ post_pk <$> posts db →
  get_accessible_post request pk db = (Raise (Http404 "Post not found"), db).
Proof.
  intros Hpk.
  unfold get_accessible_post, try_except, mbind, ORM_bind, Post_get.
  rewrite filter_empty; [done|].
  intros q Hq Heq. apply Hpk. apply list_elem_of_fmap. by exists q.
Qed.

Lemma get_accessible_post_ok db request post :
  NoDup (post_pk <$> posts db) → post ∈ posts db →
  hidden_from post (request_user request) = false →
  get_accessible_post request (post_pk post) db = (Return post, db).
Proof.
  intros Hnd Hin Hhid.
  unfold get_accessible_post, try_except, mbind, ORM_bind, Post_get.
  rewrite (filter_singleton post_pk _ (posts db) post); try done.
  simpl. by rewrite Hhid.
Qed.

(** C1. A private post fetched by a principal who is neither its author
    nor staff is answered with [Http404], by [retrieve], by the [like]
    action and by the creation of a comment, leaving the database as it
    was: the same answers as for an identifier no post has. *)
Theorem private_post_is_not_found (db : DB) (request : Request) (post : Post)
    (text : string) (missing : Z) :
  NoDup (post_pk <$> posts db) →
  post ∈ posts db →
  post_privacy post = "private" →
  same_user (Some (post_author_id post)) (request_user request) = false →
  is_staff (request_user request) = false →
  missing ∉ post_pk <$> posts db →
  let pk := post_pk post in
  PostViewSet.retrieve request pk db = (Raise (Http404 "Not found."), db)
  ∧ PostViewSet.like request pk db = (Raise (Http404 "Not found."), db)
  ∧ CommentViewSet.perform_create request pk text db
    = (Raise (Http404 "Post not found"), db)
  ∧ PostViewSet.retrieve request missing db
    = PostViewSet.retrieve request pk db
  ∧ PostViewSet.like request missing db = PostViewSet.like request pk db
  ∧ CommentViewSet.perform_create request missing text db
    = CommentViewSet.perform_create request pk text db.
Proof.
  intros Hnd Hin Hpriv Hown Hstaff Hmissing pk. subst pk.
  assert (¬ visible_to (request_user request) post) as Hhid.
  { unfold visible_to. rewrite Hstaff, Hown, Hpriv.
    destruct (is_authenticated _); [intros [?|[?|?]]|intros ?]; done. }
  assert (hidden_from post (request_user request) = true) as Hhid'.
  { unfold hidden_from. rewrite Hown, Hpriv. done. }
  assert (PostViewSet.retrieve request (post_pk post) db
          = (Raise (Http404 "Not found."), db)) as Hget.
  { by apply get_object_hidden. }
  assert (PostViewSet.like request (post_pk post) db
          = (Raise (Http404 "Not found."), db)) as Hlike.
  { unfold PostViewSet.like, mbind, ORM_bind.
    by rewrite (get_object_hidden db request _ post). }
  assert (CommentViewSet.perform_create request (post_pk post) text db
          = (Raise (Http404 "Post not found"), db)) as Hcomment.
  { unfold CommentViewSet.perform_create, mbind, ORM_bind.
    by rewrite (get_accessible_post_hidden db request post). }
  rewrite Hget, Hlike, Hcomment. repeat split.
  - by apply get_object_missing.
  - unfold PostViewSet.like, mbind, ORM_bind.
    by rewrite (get_object_missing db request _ missing).
  - unfold CommentViewSet.perform_create, mbind, ORM_bind.
    by rewrite (get_accessible_post_missing db request missing).
Qed.

Lemma private_post_is_not_found_witness :
  PostViewSet.retrieve (mkRequest (AuthUser bob) GET) 1 sample_db
  = (Raise (Http404 "Not found."), sample_db)
  ∧ PostViewSet.like (mkRequest (AuthUser bob) GET) 1 sample_db
    = (Raise (Http404 "Not found."), sample_db)
  ∧ CommentViewSet.perform_create (mkRequest (AuthUser bob) GET) 1 "hi"
      sample_db = (Raise (Http404 "Post not found"), sample_db)
  ∧ PostViewSet.retrieve (mkRequest (AuthUser bob) GET) 99999 sample_db
    = PostViewSet.retrieve (mkRequest (AuthUser bob) GET) 1 sample_db
  ∧ PostViewSet.like (mkRequest (AuthUser bob) GET) 99999 sample_db
    = PostViewSet.like (mkRequest (AuthUser bob) GET) 1 sample_db
  ∧ CommentViewSet.perform_create (mkRequest (AuthUser bob) GET) 99999 "hi"
      sample_db
    = CommentViewSet.perform_create (mkRequest (AuthUser bob) GET) 1 "hi"
        sample_db.
Proof.
  apply (private_post_is_not_found sample_db (mkRequest (AuthUser bob) GET)
           (mkPost 1 1 "" "Secret" "private") "hi" 99999).
  - compute_done.
  - compute_done.
  - reflexivity.
  - reflexivity.
  - reflexivity.
  - compute_done.
Defined.

(** ** Object-level write access *)

Lemma write_methods_unsafe (method : Method) :
  method ∈ [PUT; PATCH; DELETE] → method ∉ SAFE_METHODS.
Proof. destruct method; compute_done. Qed.

Lemma IsOwnerOrReadOnly_unsafe {A} `{AuthorAttr A} request (obj : A) :
  request_method request ∉ SAFE_METHODS →
  has_object_permission IsOwnerOrReadOnly request obj
  = same_user (getattr_author obj) (request_user request).
Proof.
  intros Hm. unfold IsOwnerOrReadOnly, has_object_permission.
  by rewrite bool_decide_eq_false_2.
Qed.

Lemma check_owner {A} `{AuthorAttr A} (u : CustomUser) method (obj : A) :
  method ∈ [PUT; PATCH; DELETE] →
  check_object_permissions [IsAuthenticated; IsOwnerOrReadOnly]
    (mkRequest (AuthUser u) method) obj
  = if same_user (getattr_author obj) (AuthUser u)
    then Return () else Raise PermissionDenied.
Proof.
  intros Hm. cbn [check_object_permissions].
  rewrite IsOwnerOrReadOnly_unsafe by (by apply write_methods_unsafe).
  simpl. by destruct (same_user _ _).
Qed.

Lemma comment_get_object db request post_pk comment :
  NoDup (comment_pk <$> comments db) → comment ∈ comments db →
  comment_post_id comment = post_pk →
  CommentViewSet.get_object request post_pk (comment_pk comment) db
  = ((_ ← check_object_permissions CommentViewSet.permission_classes request
            comment; mret comment), db).
Proof.
  intros Hnd Hin Hpost.
  unfold CommentViewSet.get_object, mbind at 1, ORM_bind, query, lift.
  erewrite generic_get_object_found; [done|].
  apply (filter_singleton comment_pk); try done.
  - by apply NoDup_key_filter.
  - unfold CommentViewSet.get_queryset. by apply list_elem_of_filter.
Qed.

Lemma post_write_access db u method post :
  method ∈ [PUT; PATCH; DELETE] →
  NoDup (post_pk <$> posts db) → post ∈ posts db →
  visible_to (AuthUser u) post →
  PostViewSet.get_object PostViewSet.permission_classes
    (mkRequest (AuthUser u) method) (post_pk post) db
  = if bool_decide (post_author_id post = user_pk u)
    then (Return post, db) else (Raise PermissionDenied, db).
Proof.
  intros Hm Hnd Hin Hvis.
  rewrite (get_object_visible db _ _ post) by done.
  unfold PostViewSet.permission_classes. rewrite check_owner by done.
  simpl. by destruct (bool_decide _).
Qed.

Lemma comment_write_access db u method comment :
  method ∈ [PUT; PATCH; DELETE] →
  NoDup (comment_pk <$> comments db) → comment ∈ comments db →
  CommentViewSet.get_object (mkRequest (AuthUser u) method)
    (comment_post_id comment) (comment_pk comment) db
  = if bool_decide (comment_author_id comment = user_pk u)
    then (Return comment, db) else (Raise PermissionDenied, db).
Proof.
  intros Hm Hnd Hin.
  rewrite (comment_get_object db _ _ comment) by done.
  unfold CommentViewSet.permission_classes. rewrite check_owner by done.
  simpl. by destruct (bool_decide _).
Qed.

(** ** The like toggle *)

Lemma likers_NoDup (rows : list Like) (post_id : Z) :
  NoDup ((λ l, (like_post_id l, like_user_id l)) <$> rows) →
  NoDup (like_user_id <$> filter (λ l, like_post_id l = post_id) rows).
Proof.
  induction rows as [|a rows IH]; intros Hnd; [constructor|].
  rewrite fmap_cons in Hnd. apply NoDup_cons in Hnd as [Hfresh Hnd].
  rewrite filter_cons. destruct (decide _) as [Ha|_]; [|by apply IH].
  rewrite fmap_cons. apply NoDup_cons. split; [|by apply IH].
  intros (y & Hu & [Hp Hy]%list_elem_of_filter)%list_elem_of_fmap.
  apply Hfresh. apply list_elem_of_fmap. exists y. split; [|done].
  by rewrite Hu, Ha, Hp.
Qed.

(** The count the view reports is the number of distinct likers. *)
Lemma likes_count_distinct db post :
  unique_together db →
  fst (PostViewSet.post_likes_count post db)
  = Return (Z.of_nat (size (likers db post))).
Proof.
  intros Huniq. unfold PostViewSet.post_likes_count, query, likers. simpl.
  rewrite size_list_to_set by (by apply likers_NoDup).
  by rewrite length_fmap.
Qed.

Lemma set_likes_same db : set_likes (likes db) db = db.
Proof. by destruct db. Qed.

Lemma like_get_object db u post :
  NoDup (post_pk <$> posts db) → post ∈ posts db →
  visible_to (AuthUser u) post →
  PostViewSet.get_object [IsAuthenticated] (mkRequest (AuthUser u) POST)
    (post_pk post) db = (Return post, db).
Proof. intros. by rewrite (get_object_visible db _ _ post). Qed.

(** First toggle: no row yet, one is inserted. *)
Lemma like_creates db u post :
  NoDup (post_pk <$> posts db) → post ∈ posts db →
  visible_to (AuthUser u) post → ¬ has_liked db post u →
  let l := mkLike (next_pk like_pk (likes db)) (post_pk post) (user_pk u) in
  let db1 := set_likes (likes db ++ [l]) db in
  PostViewSet.like (mkRequest (AuthUser u) POST) (post_pk post) db
  = (Return (PostViewSet.mkLikeResponse true
               (Z.of_nat (length (filter (λ l, like_post_id l = post_pk post)
                                         (likes db1))))
               "Post liked"), db1).
Proof.
  intros Hnd Hin Hvis Hnone l db1. unfold PostViewSet.like.
  rewrite (bind_return _ _ _ _ _ (like_get_object db u post Hnd Hin Hvis)).
  simpl. unfold PostViewSet.Like_get_or_create.
  unfold mbind at 1, ORM_bind, try_except.
  unfold mbind at 1, ORM_bind.
  rewrite filter_empty; [done|].
  intros y Hy [Hp Hu]. apply Hnone. by exists y.
Qed.

(** Second toggle: the row is found and deleted. *)
Lemma like_removes db u post l :
  NoDup (post_pk <$> posts db) → post ∈ posts db →
  visible_to (AuthUser u) post → unique_together db →
  l ∈ likes db → like_post_id l = post_pk post → like_user_id l = user_pk u →
  let db2 := set_likes (filter (λ x, like_pk x ≠ like_pk l) (likes db)) db in
  PostViewSet.like (mkRequest (AuthUser u) POST) (post_pk post) db
  = (Return (PostViewSet.mkLikeResponse false
               (Z.of_nat (length (filter (λ l, like_post_id l = post_pk post)
                                         (likes db2))))
               "Like removed"), db2).
Proof.
  intros Hnd Hin Hvis Huniq Hl Hp Hu db2. unfold PostViewSet.like.
  rewrite (bind_return _ _ _ _ _ (like_get_object db u post Hnd Hin Hvis)).
  simpl. unfold PostViewSet.Like_get_or_create.
  unfold mbind at 1, ORM_bind, try_except.
  unfold mbind at 1, ORM_bind.
  rewrite (filter_singleton (λ l, (like_post_id l, like_user_id l)) _ _ l);
    try done.
  intros y _ [Hyp Hyu]. by rewrite Hyp, Hyu, Hp, Hu.
Qed.

Lemma filter_drop_new (rows : list Like) (l : Like) :
  like_pk l = next_pk like_pk rows →
  filter (λ x, like_pk x ≠ like_pk l) (rows ++ [l])%list = rows.
Proof.
  intros Hpk. rewrite filter_app, filter_cons, decide_False by auto.
  rewrite filter_nil, app_nil_r.
  apply filter_all. intros x Hx.
  pose proof (next_pk_fresh like_pk _ x Hx). lia.
Qed.

Lemma toggle_restores (db : DB) (l : Like) :
  like_pk l = next_pk like_pk (likes db) →
  let db1 := set_likes (likes db ++ [l]) db in
  set_likes (filter (λ x, like_pk x ≠ like_pk l) (likes db1)) db1 = db.
Proof.
  intros Hpk. destruct db as [us ps qs cs ms ls ss]. unfold set_likes.
  cbn [likes users profiles posts comments media social_accounts] in *.
  by rewrite filter_drop_new.
Qed.

(** C2. On a post the principal can see and has not liked, two toggles in a
    row answer [liked = true] and then [liked = false] and leave the
    database exactly as it was; of the two counts reported, each is the
    number of distinct principals holding a like at that moment (so it is
    never negative and no principal counts twice), and the pair
    [(post, user)] stays unique. *)
Theorem like_toggle_twice (db : DB) (u : CustomUser) (post : Post) :
  NoDup (post_pk <$> posts db) → post ∈ posts db →
  visible_to (AuthUser u) post →
  unique_together db → ¬ has_liked db post u →
  let request := mkRequest (AuthUser u) POST in
  ∃ db1 r1 r2,
    PostViewSet.like request (post_pk post) db = (Return r1, db1)
    ∧ PostViewSet.like request (post_pk post) db1 = (Return r2, db)
    ∧ PostViewSet.liked r1 = true ∧ PostViewSet.liked r2 = false
    ∧ unique_together db1
    ∧ likers db1 post = ({[user_pk u]} ∪ likers db post)
    ∧ (user_pk u ∉ likers db post)
    ∧ PostViewSet.likes_count r1 = Z.of_nat (size (likers db1 post))
    ∧ PostViewSet.likes_count r2 = Z.of_nat (size (likers db post))
    ∧ (0 ≤ PostViewSet.likes_count r2)%Z
    ∧ PostViewSet.likes_count r1 = (PostViewSet.likes_count r2 + 1)%Z.
Proof.
  intros Hnd Hin Hvis Huniq Hnone request. subst request.
  set (l := mkLike (next_pk like_pk (likes db)) (post_pk post) (user_pk u)).
  set (db1 := set_likes (likes db ++ [l]) db).
  assert (user_pk u ∉ likers db post) as Hfresh.
  { unfold likers. rewrite elem_of_list_to_set.
    intros (y & Hu & [Hp Hy]%list_elem_of_filter)%list_elem_of_fmap.
    apply Hnone. by exists y. }
  assert (unique_together db1) as Huniq1.
  { unfold unique_together, db1. simpl. rewrite fmap_app.
    apply NoDup_app. split; [done|]. split; [|apply NoDup_singleton].
    intros x (y & -> & Hy)%list_elem_of_fmap Hx.
    apply list_elem_of_singleton in Hx. simpl in Hx.
    apply Hnone. exists y. by inversion Hx. }
  assert (likers db1 post = ({[user_pk u]} ∪ likers db post)) as Hlikers.
  { unfold likers, db1. simpl.
    rewrite filter_app, filter_cons, decide_True by done.
    rewrite filter_nil, fmap_app, list_to_set_app_L. simpl. set_solver. }
  pose proof (like_creates db u post Hnd Hin Hvis Hnone) as H1.
  pose proof (like_removes db1 u post l Hnd Hin Hvis Huniq1) as H2.
  cbn zeta in H1, H2. fold l db1 in H1.
  specialize (H2 ltac:(unfold db1; simpl; apply elem_of_app; right; left)
                 eq_refl eq_refl).
  assert (set_likes (filter (λ x, like_pk x ≠ like_pk l) (likes db1)) db1
          = db) as Hrestore by (by apply toggle_restores).
  rewrite !Hrestore in H2.
  eexists db1, _, _. split; [exact H1|]. split; [exact H2|]. simpl.
  pose proof (likes_count_distinct db post Huniq) as Hc.
  pose proof (likes_count_distinct db1 post Huniq1) as Hc1.
  unfold PostViewSet.post_likes_count, query in Hc, Hc1. simpl in Hc, Hc1.
  injection Hc as Hc. injection Hc1 as Hc1.
  rewrite Hc, Hc1, Hlikers. rewrite size_union by set_solver.
  rewrite size_singleton. repeat split; try done; lia.
Qed.

Lemma like_toggle_twice_witness :
  ∃ db1 r1 r2,
    PostViewSet.like (mkRequest (AuthUser bob) POST) 2 sample_db
    = (Return r1, db1)
    ∧ PostViewSet.like (mkRequest (AuthUser bob) POST) 2 db1
      = (Return r2, sample_db)
    ∧ PostViewSet.likes_count r1 = 2 ∧ PostViewSet.likes_count r2 = 1.
Proof.
  destruct (like_toggle_twice sample_db bob (mkPost 2 1 "" "Visible" "public"))
    as (db1 & r1 & r2 & H1 & H2 & _); try compute_done.
  - intros (l & Hl & Hp & Hu). revert Hl Hp Hu.
    change (likes sample_db) with [mkLike 1 2 1].
    intros ->%list_elem_of_singleton _ Hu. discriminate Hu.
  - exists db1, r1, r2. split; [exact H1|]. split; [exact H2|].
    vm_compute in H1. injection H1 as <- <-.
    vm_compute in H2. injection H2 as <-. done.
Defined.

(** ** Media detail *)

Lemma Post_get_found db post :
  NoDup (post_pk <$> posts db) → post ∈ posts db →
  Post_get (post_pk post) db = (Return post, db).
Proof.
  intros Hnd Hin. unfold Post_get.
  by rewrite (filter_singleton post_pk _ (posts db) post).
Qed.

Lemma media_get_object db request m post :
  NoDup (media_pk <$> media db) → m ∈ media db →
  NoDup (post_pk <$> posts db) → post ∈ posts db →
  post_pk post = media_post_id m →
  MediaDetailView.get_object request (media_post_id m) (media_pk m) db
  = if negb (same_user (Some (post_author_id post)) (request_user request))
       && negb (same_user (Some (media_uploaded_by_id m))
                          (request_user request))
    then (Raise (Http404 "Media not found"), db)
    else (Return m, db).
Proof.
  intros Hnd Hin Hndp Hinp Hpost. unfold MediaDetailView.get_object.
  unfold mbind at 1, ORM_bind, query.
  unfold mbind at 1, ORM_bind, lift.
  erewrite generic_get_object_found; last first.
  { apply (filter_singleton media_pk); try done.
    - by apply NoDup_key_filter.
    - unfold MediaDetailView.get_queryset. by apply list_elem_of_filter. }
  cbn [MediaDetailView.permission_classes check_object_permissions
       IsAuthenticated has_object_permission mbind Outcome_bind mret
       Outcome_ret].
  rewrite <- Hpost.
  rewrite (bind_return _ _ _ _ _ (Post_get_found db post Hndp Hinp)).
  by destruct (_ && _).
Qed.

(** C9. A media row is returned by [get], and removed by [delete], exactly
    when the requesting user is the author of the parent post or the
    uploader; any other authenticated user gets [Http404] and nothing is
    deleted, whatever the privacy of the parent post (so also when it is
    public). *)
Theorem media_detail_access (db : DB) (u : CustomUser) (method : Method)
    (m : Media) (post : Post) :
  NoDup (media_pk <$> media db) → m ∈ media db →
  NoDup (post_pk <$> posts db) → post ∈ posts db →
  post_pk post = media_post_id m →
  let request := mkRequest (AuthUser u) method in
  let permitted :=
    post_author_id post = user_pk u ∨ media_uploaded_by_id m = user_pk u in
  (permitted →
     MediaDetailView.get request (media_post_id m) (media_pk m) db
     = (Return m, db)
     ∧ MediaDetailView.delete request (media_post_id m) (media_pk m) db
       = (Return (mkResponse 204 "Media deleted successfully"),
          set_media (filter (λ x, media_pk x ≠ media_pk m) (media db)) db))
  ∧ (¬ permitted →
     MediaDetailView.get request (media_post_id m) (media_pk m) db
     = (Raise (Http404 "Media not found"), db)
     ∧ MediaDetailView.delete request (media_post_id m) (media_pk m) db
       = (Raise (Http404 "Media not found"), db)).
Proof.
  intros Hnd Hin Hndp Hinp Hpost request permitted.
  pose proof (media_get_object db request m post Hnd Hin Hndp Hinp Hpost)
    as Hobj.
  subst request permitted. simpl in Hobj.
  unfold MediaDetailView.get, MediaDetailView.delete.
  split; intros Hperm.
  - assert (MediaDetailView.get_object (mkRequest (AuthUser u) method)
              (media_post_id m) (media_pk m) db = (Return m, db)) as Hok.
    { rewrite Hobj. destruct Hperm as [Ha|Hb].
      - by rewrite (bool_decide_eq_true_2 _ Ha).
      - rewrite (bool_decide_eq_true_2 _ Hb). by destruct (bool_decide _). }
    by rewrite (bind_return _ _ _ _ _ Hok).
  - rewrite !bool_decide_eq_false_2 in Hobj by tauto. simpl in Hobj.
    by rewrite (bind_raise _ _ _ _ _ Hobj).
Qed.

Lemma media_detail_access_witness :
  (* Bob uploaded media 2 on Alice's public post 2; the staff user did not *)
  MediaDetailView.get (mkRequest (AuthUser bob) GET) 2 2 sample_db
  = (Return (mkMedia 2 2 "posts/2/b.txt" "text/plain" 5 None None 2),
     sample_db)
  ∧ MediaDetailView.get (mkRequest (AuthUser admin) GET) 2 2 sample_db
    = (Raise (Http404 "Media not found"), sample_db).
Proof.
  split.
  - refine (proj1 (proj1
      (media_detail_access sample_db bob GET
         (mkMedia 2 2 "posts/2/b.txt" "text/plain" 5 None None 2)
         (mkPost 2 1 "" "Visible" "public") _ _ _ _ _) _));
      compute_done.
  - refine (proj1 (proj2
      (media_detail_access sample_db admin GET
         (mkMedia 2 2 "posts/2/b.txt" "text/plain" 5 None None 2)
         (mkPost 2 1 "" "Visible" "public") _ _ _ _ _) _));
      compute_done.
Defined.

(** ** Object-level write access, media included *)

(** C8. On a post or comment the principal can see, [update] and
    [destroy] go through exactly when the principal is the author; anybody
    else, staff included, gets [PermissionDenied] (403) and the database is
    left alone. A media file has no author, its view
    ([RetrieveDestroyAPIView]) has no update and does not ask
    [IsOwnerOrReadOnly]: its delete goes through exactly when the principal
    is the uploader or the author of the post it hangs on, and anybody
    else, staff included, gets [Http404] and the database is left alone. *)
Theorem write_access_iff_author (db : DB) (u : CustomUser) (method : Method)
    (post : Post) (comment : Comment) (data : PostViewSet.PostFields)
    (text : string) (m : Media) (parent : Post) :
  method ∈ [PUT; PATCH; DELETE] →
  NoDup (post_pk <$> posts db) → post ∈ posts db →
  visible_to (AuthUser u) post →
  NoDup (comment_pk <$> comments db) → comment ∈ comments db →
  NoDup (media_pk <$> media db) → m ∈ media db →
  parent ∈ posts db → post_pk parent = media_post_id m →
  let request := mkRequest (AuthUser u) method in
  let Forbidden {A} : Outcome A * DB := (Raise PermissionDenied, db) in
  (has_object_permission IsOwnerOrReadOnly request post
   = bool_decide (post_author_id post = user_pk u))
  ∧ (has_object_permission IsOwnerOrReadOnly request comment
     = bool_decide (comment_author_id comment = user_pk u))
  ∧ (post_author_id post = user_pk u →
       (∃ db', PostViewSet.destroy request (post_pk post) db = (Return (), db')
               ∧ post ∉ posts db')
       ∧ fst (PostViewSet.update request (post_pk post) (Some data) db)
         = Return (PostViewSet.serializer_update post data))
  ∧ (post_author_id post ≠ user_pk u →
       PostViewSet.destroy request (post_pk post) db = Forbidden
       ∧ PostViewSet.update request (post_pk post) (Some data) db = Forbidden)
  ∧ (comment_author_id comment = user_pk u →
       fst (CommentViewSet.destroy request (comment_post_id comment)
              (comment_pk comment) db) = Return ()
       ∧ fst (CommentViewSet.update request (comment_post_id comment)
                (comment_pk comment) (Some text) db)
         = Return (mkComment (comment_pk comment) (comment_post_id comment)
                     (comment_author_id comment) text))
  ∧ (comment_author_id comment ≠ user_pk u →
       CommentViewSet.destroy request (comment_post_id comment)
         (comment_pk comment) db = Forbidden
       ∧ CommentViewSet.update request (comment_post_id comment)
           (comment_pk comment) (Some text) db = Forbidden)
  ∧ (media_uploaded_by_id m = user_pk u ∨ post_author_id parent = user_pk u →
       MediaDetailView.delete (mkRequest (AuthUser u) DELETE)
         (media_post_id m) (media_pk m) db
       = (Return (mkResponse 204 "Media deleted successfully"),
          set_media (filter (λ x, media_pk x ≠ media_pk m) (media db)) db))
  ∧ (media_uploaded_by_id m ≠ user_pk u → post_author_id parent ≠ user_pk u →
       MediaDetailView.delete (mkRequest (AuthUser u) DELETE)
         (media_post_id m) (media_pk m) db
       = (Raise (Http404 "Media not found"), db)).
Proof.
  intros Hm Hnd Hin Hvis Hndc Hinc Hndm Hinm Hparent Hpk request Forbidden.
  pose proof (post_write_access db u method post Hm Hnd Hin Hvis) as Hpost.
  pose proof (comment_write_access db u method comment Hm Hndc Hinc)
    as Hcomment.
  pose proof (media_get_object db (mkRequest (AuthUser u) DELETE) m parent
                Hndm Hinm Hnd Hparent Hpk) as Hmedia.
  cbn [request_user same_user] in Hmedia.
  subst request Forbidden.
  rewrite !IsOwnerOrReadOnly_unsafe by (by apply write_methods_unsafe).
  unfold PostViewSet.destroy, PostViewSet.update, CommentViewSet.destroy,
    CommentViewSet.update, MediaDetailView.delete.
  split; [done|]. split; [done|].
  split; [|split; [|split; [|split; [|split]]]].
  - intros Hown. rewrite bool_decide_eq_true_2 in Hpost by done.
    rewrite !(bind_return _ _ _ _ _ Hpost). split; [|done].
    eexists. split; [done|]. unfold delete_post. simpl.
    intros [Hne _]%list_elem_of_filter. by apply Hne.
  - intros Hown. rewrite bool_decide_eq_false_2 in Hpost by done.
    by rewrite !(bind_raise _ _ _ _ _ Hpost).
  - intros Hown. rewrite bool_decide_eq_true_2 in Hcomment by done.
    by rewrite !(bind_return _ _ _ _ _ Hcomment).
  - intros Hown. rewrite bool_decide_eq_false_2 in Hcomment by done.
    by rewrite !(bind_raise _ _ _ _ _ Hcomment).
  - intros Hown.
    replace (negb (bool_decide (post_author_id parent = user_pk u))
             && negb (bool_decide (media_uploaded_by_id m = user_pk u)))
      with false in Hmedia.
    + by rewrite (bind_return _ _ _ _ _ Hmedia).
    + symmetry. destruct Hown as [Hown|Hown];
        rewrite (bool_decide_eq_true_2 _ Hown); [apply andb_false_r|done].
  - intros Huploader Hauthor.
    rewrite !bool_decide_eq_false_2 in Hmedia by done.
    by rewrite (bind_raise _ _ _ _ _ Hmedia).
Qed.

Lemma write_access_iff_author_witness :
  PostViewSet.destroy (mkRequest (AuthUser admin) DELETE) 2 sample_db
  = (Raise PermissionDenied, sample_db)
  ∧ (∃ db', PostViewSet.destroy (mkRequest (AuthUser alice) DELETE) 2
              sample_db = (Return (), db')
            ∧ (mkPost 2 1 "" "Visible" "public" ∉ posts db'))
  ∧ MediaDetailView.delete (mkRequest (AuthUser admin) DELETE) 2 2 sample_db
    = (Raise (Http404 "Media not found"), sample_db).
Proof.
  split; [|split].
  - refine (proj1 (proj1 (proj2 (proj2 (proj2
      (write_access_iff_author sample_db admin DELETE
         (mkPost 2 1 "" "Visible" "public") (mkComment 1 2 1 "Original")
         (PostViewSet.mkPostFields None None None) "x"
         (mkMedia 2 2 "posts/2/b.txt" "text/plain" 5 None None 2)
         (mkPost 2 1 "" "Visible" "public") _ _ _ _ _ _ _ _ _ _)))) _));
      compute_done.
  - refine (proj1 (proj1 (proj2 (proj2
      (write_access_iff_author sample_db alice DELETE
         (mkPost 2 1 "" "Visible" "public") (mkComment 1 2 1 "Original")
         (PostViewSet.mkPostFields None None None) "x"
         (mkMedia 2 2 "posts/2/b.txt" "text/plain" 5 None None 2)
         (mkPost 2 1 "" "Visible" "public") _ _ _ _ _ _ _ _ _ _))) _));
      compute_done.
  - refine (proj2 (proj2 (proj2 (proj2 (proj2 (proj2 (proj2
      (write_access_iff_author sample_db admin DELETE
         (mkPost 2 1 "" "Visible" "public") (mkComment 1 2 1 "Original")
         (PostViewSet.mkPostFields None None None) "x"
         (mkMedia 2 2 "posts/2/b.txt" "text/plain" 5 None None 2)
         (mkPost 2 1 "" "Visible" "public") _ _ _ _ _ _ _ _ _ _))))))) _ _);
      compute_done.
Defined.

(** The rule "write iff owner, Forbidden otherwise" fails for media: Alice
    is the author of post 2 and not the uploader of its media file 2, yet
    her delete goes through; the staff user, who may see the post, is
    answered 404 rather than 403. *)
Lemma media_delete_by_post_author :
  media_uploaded_by_id
    (mkMedia 2 2 "posts/2/b.txt" "text/plain" 5 None None 2) ≠ user_pk alice
  ∧ MediaDetailView.delete (mkRequest (AuthUser alice) DELETE) 2 2 sample_db
    = (Return (mkResponse 204 "Media deleted successfully"),
       set_media [mkMedia 1 2 "posts/2/a.txt" "text/plain" 5 None None 1]
         sample_db)
  ∧ PostViewSet.retrieve (mkRequest (AuthUser admin) GET) 2 sample_db
    = (Return (mkPost 2 1 "" "Visible" "public"), sample_db)
  ∧ MediaDetailView.delete (mkRequest (AuthUser admin) DELETE) 2 2 sample_db
    = (Raise (Http404 "Media not found"), sample_db).
Proof. by vm_compute. Qed.

(** ** Batch upload *)

Section batch_upload.
Context `{images : ImageLibrary} `{storage : FileStorage}
  (settings : Settings).

#[local] Abbreviation failures := (failures settings).
#[local] Abbreviation fails_validation := (fails_validation settings).

Lemma failures_cons f files :
  failures (f :: files)
  = ((if fails_validation f then 1 else 0) + failures files)%nat.
Proof.
  unfold failures. rewrite filter_cons.
  destruct (fails_validation f); [by rewrite decide_True|by rewrite decide_False].
Qed.

Lemma failures_le files : (failures files ≤ length files)%nat.
Proof. apply length_filter. Qed.

Lemma upload_loop_spec (u : CustomUser) method post_id files :
  ∀ created errors db,
  ∃ cs es,
    MediaBatchUploadView.upload_loop settings (mkRequest (AuthUser u) method)
      post_id files created errors db
    = (Return ((created ++ cs)%list, (errors ++ es)%list),
       set_media (media db ++ cs) db)
    ∧ length es = failures files
    ∧ (length cs + failures files = length files)%nat.
Proof.
  induction files as [|f files IH]; intros created errors db.
  { exists [], []. rewrite !app_nil_r. simpl.
    split; [|done]. by destruct db. }
  cbn [MediaBatchUploadView.upload_loop]. rewrite failures_cons.
  unfold mbind at 1, ORM_bind, try_except, MediaBatchUploadView.create_media.
  unfold mbind at 1 2, ORM_bind, lift, fails_validation.
  destruct (validate_media_file settings f) as [meta|e]; simpl.
  - match goal with
    | |- context [MediaBatchUploadView.upload_loop _ _ _ _ (created ++ [?m]) _ ?db1] =>
        destruct (IH (created ++ [m])%list errors db1) as (cs & es & Heq & Hes & Hcs);
        exists (m :: cs), es
    end.
    rewrite Heq. simpl. rewrite <- !app_assoc. simpl. split; [done|].
    split; [done|]. lia.
  - match goal with
    | |- context [MediaBatchUploadView.upload_loop _ _ _ _ _ (errors ++ [?x]) _] =>
        destruct (IH created (errors ++ [x])%list db) as (cs & es & Heq & Hes & Hcs);
        exists cs, (x :: es)
    end.
    rewrite Heq. simpl. rewrite <- !app_assoc. simpl. split; [done|].
    split; [by rewrite Hes|lia].
Qed.

(** C6. A batch of [N >= 1] files of which [K] fail validation, sent by an
    authenticated user to a post the user may access, is answered with
    [N - K] entries in [created] and [K] in [errors]; the created rows are
    all in the media table afterwards, errors or not; the status is 201
    without errors and 207 with, also when every file fails (then
    [created] is empty and there are [N] errors). *)
Theorem batch_upload_partial_success (db : DB) (u : CustomUser)
    (method : Method) (post : Post) (files : list UploadedFile) :
  NoDup (post_pk <$> posts db) → post ∈ posts db →
  hidden_from post (AuthUser u) = false →
  files ≠ [] →
  let N := length files in
  let K := failures files in
  ∃ created errors db',
    MediaBatchUploadView.post settings (mkRequest (AuthUser u) method)
      (post_pk post) files db
    = (Return (mkResponse (if decide (K = 0%nat) then 201 else 207)
                 (MediaBatchUploadView.BatchBody created errors)), db')
    ∧ length created = (N - K)%nat
    ∧ length errors = K
    ∧ media db' = (media db ++ created)%list
    ∧ (K = N → created = [] ∧ length errors = N).
Proof.
  intros Hnd Hin Hacc Hfiles N K.
  destruct (upload_loop_spec u method (post_pk post) files [] [] db)
    as (cs & es & Heq & Hes & Hcs).
  exists cs, es, (set_media (media db ++ cs) db).
  unfold MediaBatchUploadView.post.
  rewrite (bind_return _ _ _ _ _
             (get_accessible_post_ok db (mkRequest (AuthUser u) method) post
                Hnd Hin Hacc)).
  destruct files as [|f files]; [done|].
  rewrite (bind_return _ _ _ _ _ Heq). simpl app.
  subst N K. split; [|split; [lia|split; [done|split; [done|]]]].
  - cbn [mret ORM_ret]. do 3 f_equal.
    destruct es; simpl in Hes; rewrite <- Hes; done.
  - intros HK. split; [|lia]. destruct cs as [|c cs]; [done|].
    exfalso. rewrite HK in Hcs. cbn [length] in Hcs. lia.
Qed.

(** C10. With an empty file list the same view answers 400 "No files
    provided" and writes nothing, instead of an empty result. *)
Theorem batch_upload_no_files (db : DB) (u : CustomUser) (method : Method)
    (post : Post) :
  NoDup (post_pk <$> posts db) → post ∈ posts db →
  hidden_from post (AuthUser u) = false →
  MediaBatchUploadView.post settings (mkRequest (AuthUser u) method)
    (post_pk post) [] db
  = (Return (mkResponse 400 (MediaBatchUploadView.ErrorBody
                               "No files provided")), db).
Proof.
  intros Hnd Hin Hacc. unfold MediaBatchUploadView.post.
  by rewrite (bind_return _ _ _ _ _
                (get_accessible_post_ok db (mkRequest (AuthUser u) method) post
                Hnd Hin Hacc)).
Qed.

End batch_upload.

Lemma batch_upload_partial_success_witness :
  ∃ created errors db',
    MediaBatchUploadView.post (images := sample_images)
      (storage := sample_storage) sample_settings
      (mkRequest (AuthUser bob) POST) 2 sample_files sample_db
    = (Return (mkResponse 207
                 (MediaBatchUploadView.BatchBody created errors)), db')
    ∧ length created = 1%nat ∧ length errors = 2%nat
    ∧ media db' = (media sample_db ++ created)%list.
Proof.
  destruct (batch_upload_partial_success (images := sample_images)
      (storage := sample_storage) sample_settings
              sample_db bob POST (mkPost 2 1 "" "Visible" "public")
              sample_files)
    as (created & errors & db' & Heq & Hc & He & Hm & _); try compute_done.
  exists created, errors, db'.
  split; [exact Heq|]. split; [exact Hc|]. split; [exact He|exact Hm].
Defined.

(** When every file fails the answer is still the 207 result. *)
Example batch_upload_all_fail :
  MediaBatchUploadView.post (images := sample_images)
      (storage := sample_storage) sample_settings
    (mkRequest (AuthUser bob) POST) 2
    [mkFile "empty.txt" 0 (Some "text/plain") "";
     mkFile "bad.png" 4 (Some "image/png") "JPEG"] sample_db
  = (Return (mkResponse 207
       (MediaBatchUploadView.BatchBody []
          [MediaBatchUploadView.mkFileError "empty.txt"
             "['Empty file upload is not allowed']";
           MediaBatchUploadView.mkFileError "bad.png"
             "['Invalid image file']"])), sample_db).
Proof. reflexivity. Qed.

Lemma batch_upload_no_files_witness :
  MediaBatchUploadView.post (images := sample_images)
      (storage := sample_storage) sample_settings
    (mkRequest (AuthUser bob) POST) 2 [] sample_db
  = (Return (mkResponse 400 (MediaBatchUploadView.ErrorBody
                               "No files provided")), sample_db).
Proof.
  apply (batch_upload_no_files (images := sample_images)
           (storage := sample_storage) sample_settings sample_db
           bob POST (mkPost 2 1 "" "Visible" "public")); compute_done.
Defined.

(** ** Logout *)

Lemma verify_ok store payload :
  verifies store payload → RefreshToken.verify store payload = Return ().
Proof.
  intros (j & e & Hj & Hbl & He & Hexp & Hty).
  unfold RefreshToken.verify, RefreshToken.check_blacklist,
    RefreshToken.check_exp, RefreshToken.verify_token_type.
  rewrite Hj, He, Hty.
  rewrite (bool_decide_eq_false_2 (j ∈ blacklisted store)) by done.
  rewrite (bool_decide_eq_false_2 (e <= current_time store)) by lia.
  done.
Qed.

Lemma verify_fails store payload :
  ¬ verifies store payload → ∃ e, RefreshToken.verify store payload = Raise e.
Proof.
  intros Hno.
  unfold RefreshToken.verify, RefreshToken.check_blacklist,
    RefreshToken.check_exp, RefreshToken.verify_token_type.
  destruct (jti payload) as [j|] eqn:Hj; [|by eexists].
  simpl. case_bool_decide as Hbl; [by eexists|]. simpl.
  destruct (exp payload) as [e|] eqn:He; [|by eexists].
  simpl. case_bool_decide as Hexp; [by eexists|]. simpl.
  destruct (token_type payload) as [t|] eqn:Ht; [|by eexists].
  case_bool_decide as Hty; [|by eexists].
  exfalso. apply Hno. exists j, e. subst t. repeat split; try done. lia.
Qed.

(** C5, as the code has it. Logout answers 200 when no refresh token is
    sent, and when the token sent decodes, is a refresh token, has not
    expired and is not blacklisted; its identifier is then blacklisted, and
    a second logout with the same token answers 400. It answers 400
    "Invalid token", with the blacklist unchanged, when the token is
    malformed and also when it has expired or is already revoked. *)
Theorem logout_outcomes `{backend : TokenBackend} (store : TokenStore)
    (token : string) :
  token ≠ "" →
  logout_view store None = (logged_out, store)
  ∧ logout_view store (Some "") = (logged_out, store)
  ∧ (decode token = None →
       logout_view store (Some token) = (invalid_token, store))
  ∧ (∀ payload, decode token = Some payload → ¬ verifies store payload →
       logout_view store (Some token) = (invalid_token, store))
  ∧ (∀ payload, decode token = Some payload → verifies store payload →
       ∃ j store',
         jti payload = Some j
         ∧ store' = mkTokenStore (current_time store)
                      ({[j]} ∪ outstanding store) ({[j]} ∪ blacklisted store)
         ∧ logout_view store (Some token) = (logged_out, store')
         ∧ logout_view store' (Some token) = (invalid_token, store')).
Proof.
  intros Hne.
  assert (Py.truthy (Some token) = true) as Htruthy by (by destruct token).
  split; [done|]. split; [done|].
  unfold logout_view. rewrite Htruthy.
  change (default "" (Some token)) with token.
  unfold RefreshToken.init. split; [|split].
  - by intros ->.
  - intros payload -> Hno.
    destruct (verify_fails store payload Hno) as [e ->]. done.
  - intros payload Hdec Hok.
    pose proof Hok as (j & e & Hj & Hbl & He & Hexp & Hty).
    eexists j, _. split; [done|]. split; [done|].
    rewrite Hdec, (verify_ok store payload Hok). simpl.
    unfold RefreshToken.blacklist. rewrite Hj. split; [done|].
    match goal with
    | |- context [RefreshToken.verify ?s payload] =>
        destruct (verify_fails s payload) as [e' ->]; [|done]
    end.
    intros (j' & e'' & Hj' & Hbl' & _). simpl in Hbl'.
    rewrite Hj in Hj'. injection Hj' as <-. set_solver.
Qed.

Lemma logout_outcomes_witness :
  logout_view (backend := sample_backend) (mkTokenStore 100 ∅ ∅) (Some "r1")
  = (logged_out, mkTokenStore 100 ({["j1"]} ∪ ∅) ({["j1"]} ∪ ∅))
  ∧ logout_view (backend := sample_backend)
      (mkTokenStore 100 ({["j1"]} ∪ ∅) ({["j1"]} ∪ ∅)) (Some "r1")
    = (invalid_token, mkTokenStore 100 ({["j1"]} ∪ ∅) ({["j1"]} ∪ ∅)).
Proof.
  destruct (logout_outcomes (backend := sample_backend) (mkTokenStore 100 ∅ ∅) "r1")
    as (_ & _ & _ & _ & Hok); [done|].
  destruct (Hok (mkPayload (Some "refresh") (Some 200) (Some "j1") (Some 1)))
    as (j & store' & Hj & -> & H1 & H2); [reflexivity| |].
  - exists "j1", 200. repeat split; done.
  - injection Hj as <-. split; [exact H1|exact H2].
Defined.

(** C5 as claimed fails: a well-formed, unexpired refresh token that was
    already revoked is answered with 400, and so is a well-formed refresh
    token that has expired. *)
Lemma logout_rejects_revoked_and_expired :
  decode (TokenBackend := sample_backend) "r1"
  = Some (mkPayload (Some "refresh") (Some 200) (Some "j1") (Some 1))
  ∧ status_code
      (logout_view (backend := sample_backend)
         (mkTokenStore 100 {["j1"]} {["j1"]}) (Some "r1")).1 = 400
  ∧ status_code
      (logout_view (backend := sample_backend) (mkTokenStore 300 ∅ ∅)
         (Some "r1")).1 = 400.
Proof. split; [reflexivity|]. split; vm_compute; reflexivity. Qed.

(** ** Registration *)

Section registration.
Context `{hasher : PasswordHasher} `{policy : PasswordPolicy} `{email_format : EmailFormat}.

Import UserRegistrationSerializer.

(** A field either refuses the value or returns it stripped. *)
Lemma CharField_outcome required max_length validators data :
  match CharField required max_length validators data with
  | Return None => data = None
  | Return (Some value) =>
      ∃ raw, data = Some raw ∧ value = Py.strip raw ∧ value ≠ ""
             ∧ forallb (λ validator, validator value) validators = true
  | Raise e => ∃ msg, e = ValidationError msg
  end.
Proof.
  unfold CharField. destruct data as [raw|].
  - case_bool_decide as Hblank; [by eexists|].
    destruct (Py.contains _ _); [by eexists|].
    destruct (from_option _ _ _); [by eexists|].
    destruct (forallb _ _) eqn:Hvalid; [|by eexists].
    by exists raw.
  - destruct required; [by eexists|done].
Qed.

Lemma CharField_required max_length validators data :
  match CharField true max_length validators data with
  | Return None => False
  | _ => True
  end.
Proof.
  unfold CharField. destruct data as [raw|]; [|done].
  case_bool_decide; [done|]. destruct (Py.contains _ _); [done|].
  destruct (from_option _ _ _); [done|]. by destruct (forallb _ _).
Qed.

(** [is_valid] writes nothing: it returns the stripped fields or raises a
    [ValidationError]. *)
Lemma is_valid_outcome db data :
  (∃ attrs, is_valid data db = (Return attrs, db) ∧ validated db data attrs)
  ∨ (∃ msg, is_valid data db = (Raise (ValidationError msg), db)).
Proof.
  unfold is_valid, query, lift, mbind, ORM_bind. cbv beta iota.
  pose proof (CharField_outcome true (Some 254%nat)
                [validate_email;
                 λ value, negb (bool_decide (value ∈ user_email <$> users db))]
                (data_email data)) as He.
  pose proof (CharField_required (Some 254%nat)
                [validate_email;
                 λ value, negb (bool_decide (value ∈ user_email <$> users db))]
                (data_email data)) as He'.
  destruct (CharField true (Some 254%nat) _ (data_email data))
    as [[email|]|?]; [|done|]; last first.
  { destruct He as [msg ->]. right. by exists msg. }
  destruct He as (e & Hemail & -> & Hne & Hvalid).
  cbn [forallb] in Hvalid.
  apply andb_true_iff in Hvalid as [Hformat Hfree].
  apply andb_true_iff in Hfree as [Hfree _].
  apply negb_true_iff, bool_decide_eq_false in Hfree.
  pose proof (CharField_outcome true None [validate_password]
                (data_password data)) as Hp.
  pose proof (CharField_required None [validate_password]
                (data_password data)) as Hp'.
  cbn [mbind Outcome_bind].
  destruct (CharField true None _ (data_password data))
    as [[password|]|?]; [|done|]; last first.
  { destruct Hp as [msg ->]. right. by exists msg. }
  destruct Hp as (pw & Hpassword & -> & Hpne & Hpolicy).
  cbn [forallb] in Hpolicy. apply andb_true_iff in Hpolicy as [Hpolicy _].
  pose proof (CharField_outcome true None [] (data_password_confirm data))
    as Hc.
  pose proof (CharField_required None [] (data_password_confirm data)) as Hc'.
  destruct (CharField true None _ (data_password_confirm data))
    as [[confirm|]|?]; [|done|]; last first.
  { destruct Hc as [msg ->]. right. by exists msg. }
  destruct Hc as (pc & Hconfirm & -> & _ & _).
  pose proof (CharField_outcome false (Some 150%nat) []
                (data_display_name data)) as Hd.
  destruct (CharField false (Some 150%nat) _ (data_display_name data))
    as [name|?]; last first.
  { destruct Hd as [msg ->]. right. by exists msg. }
  cbv [Outcome_bind validate].
  cbn [default from_option id password password_confirm].
  case_bool_decide as Hdiffer; [right; by eexists|].
  left. eexists. split; [done|].
  exists e, pw, pc. do 3 (split; [done|]). split.
  { f_equal. destruct name as [name|].
    - destruct Hd as (raw & -> & -> & _). done.
    - by rewrite Hd. }
  assert (Py.strip pw = Py.strip pc) as Hsame.
  { destruct (decide (Py.strip pw = Py.strip pc)) as [|Hneq]; [done|].
    by destruct Hdiffer. }
  by repeat split.
Qed.

Lemma create_ok db attrs :
  email attrs ≠ "" →
  CustomUserManager.normalize_email (email attrs) ∉ user_email <$> users db →
  next_pk user_pk (users db) ∉ profile_user_id <$> profiles db →
  create attrs db
  = (Return (registered_user db attrs),
     set_profiles (profiles db ++ [registered_profile db attrs])
       (set_users (users db ++ [registered_user db attrs]) db)).
Proof.
  intros Hne Hfree Hprof.
  unfold create, CustomUserManager.create_user.
  rewrite bool_decide_eq_false_2 by done.
  unfold mbind at 1, ORM_bind. unfold mbind at 1, ORM_bind, query.
  unfold mbind at 1, ORM_bind, CustomUserManager.save_new.
  unfold mbind at 1, ORM_bind, query. cbn [user_email].
  rewrite bool_decide_eq_false_2 by done.
  cbn [modify mret ORM_ret].
  unfold Profile_create. unfold mbind at 1, ORM_bind.
  unfold mbind at 1, ORM_bind, query. cbn [profile_user_id user_pk].
  cbn [profiles set_users]. rewrite bool_decide_eq_false_2 by done.
  reflexivity.
Qed.

Lemma create_fails db attrs :
  ¬ insertable db attrs → ∃ e db', create attrs db = (Raise e, db').
Proof.
  intros Hno. unfold create, CustomUserManager.create_user.
  case_bool_decide as Hne; [by eexists _, _|].
  unfold mbind at 1, ORM_bind. unfold mbind at 1, ORM_bind, query.
  unfold mbind at 1, ORM_bind, CustomUserManager.save_new.
  unfold mbind at 1, ORM_bind, query. cbn [user_email].
  case_bool_decide as Hfree; [by eexists _, _|].
  cbn [modify mret ORM_ret].
  unfold Profile_create. unfold mbind at 1, ORM_bind.
  unfold mbind at 1, ORM_bind, query. cbn [profile_user_id user_pk].
  cbn [profiles set_users].
  case_bool_decide as Hprof; [by eexists _, _|].
  exfalso. by apply Hno.
Qed.

(** A registration that returns went through [is_valid] and both inserts. *)
Lemma register_return db data user db' :
  RegisterView.create data db = (Return user, db') →
  ∃ attrs, validated db data attrs ∧ insertable db attrs
    ∧ user = registered_user db attrs
    ∧ db' = set_profiles (profiles db ++ [registered_profile db attrs])
              (set_users (users db ++ [user]) db).
Proof.
  unfold RegisterView.create. intros Hrun.
  destruct (is_valid_outcome db data) as [(attrs & Hvalid & Hfacts)|[msg Hmsg]];
    last first.
  { rewrite (bind_raise _ _ _ _ _ Hmsg) in Hrun. discriminate. }
  rewrite (bind_return _ _ _ _ _ Hvalid) in Hrun.
  destruct (decide (insertable db attrs)) as [Hins|Hins]; last first.
  { destruct (create_fails db attrs Hins) as (e & db'' & Hfail).
    rewrite Hfail in Hrun. discriminate. }
  pose proof Hins as (Hne & Hfree & Hprof).
  rewrite (create_ok db attrs Hne Hfree Hprof) in Hrun.
  injection Hrun as <- <-. by exists attrs.
Qed.

(** C7. A registration is rejected with a [ValidationError], the database
    untouched and so no account created, whenever the two passwords differ
    once stripped, the email as typed (stripped) is already the email of an
    account, or the stripped password fails the policy. Every successful
    registration has added exactly the returned account, that account has
    exactly one profile, and the password sent, stripped of the whitespace
    around it as the serializer's fields do, checks against it. *)
Theorem registration_outcomes `{hasher_correct : !HasherCorrect} (db : DB)
    (data : Data) :
  ((∃ pw pc, data_password data = Some pw
             ∧ data_password_confirm data = Some pc
             ∧ Py.strip pw ≠ Py.strip pc)
   ∨ (∃ e, data_email data = Some e
           ∧ Py.strip e ∈ user_email <$> users db)
   ∨ (∃ pw, data_password data = Some pw
            ∧ validate_password (Py.strip pw) = false) →
   ∃ msg, RegisterView.create data db = (Raise (ValidationError msg), db))
  ∧ (∀ user db', RegisterView.create data db = (Return user, db') →
       users db' = (users db ++ [user])%list
       ∧ length (filter (λ p, profile_user_id p = user_pk user) (profiles db'))
         = 1%nat
       ∧ ∃ supplied, data_password data = Some supplied
           ∧ check_password user (Py.strip supplied) = true).
Proof.
  split.
  - intros Hbad. unfold RegisterView.create.
    destruct (is_valid_outcome db data)
      as [(attrs & _ & e & pw & pc & He & Hpw & Hpc & _ & Hsame & _ & _
           & Hfree & _ & Hpolicy)|[msg Hmsg]]; last first.
    { exists msg. by rewrite (bind_raise _ _ _ _ _ Hmsg). }
    exfalso. destruct Hbad as [(pw' & pc' & Hpw' & Hpc' & Hdiffer)
                              |[(e' & He' & Htaken)|(pw' & Hpw' & Hfails)]];
      simplify_eq; congruence.
  - intros user db' Hrun.
    destruct (register_return db data user db' Hrun)
      as (attrs & (e & pw & pc & _ & Hpw & _ & -> & _) & (_ & _ & Hprof)
          & -> & ->).
    split; [done|]. split.
    + cbn [profiles set_profiles registered_user user_pk].
      rewrite filter_app, filter_cons, decide_True by done.
      rewrite filter_nil, filter_empty; [done|].
      intros p Hp Heq. apply Hprof. apply list_elem_of_fmap. by exists p.
    + exists pw. split; [done|].
      unfold check_password, registered_user. simpl. apply check_make.
Qed.

End registration.

Lemma sample_hasher_correct : HasherCorrect (hasher := sample_hasher).
Proof. intros raw. by apply bool_decide_eq_true_2. Qed.

Lemma registration_outcomes_witness :
  ∃ user db',
    RegisterView.create (hasher := sample_hasher) (policy := sample_policy)
      (email_format := sample_email_format) carol_data sample_db
    = (Return user, db')
    ∧ user_email user = "carol@example.com"
    ∧ length (filter (λ p, profile_user_id p = user_pk user) (profiles db'))
      = 1%nat
    ∧ check_password (hasher := sample_hasher) user "Passw0rd!" = true.
Proof.
  destruct (RegisterView.create (hasher := sample_hasher)
              (policy := sample_policy) (email_format := sample_email_format)
              carol_data sample_db) as [[user|e] db'] eqn:Hrun;
    [|by vm_compute in Hrun].
  exists user, db'. split; [done|].
  destruct (registration_outcomes (hasher := sample_hasher)
              (policy := sample_policy) (email_format := sample_email_format)
              (hasher_correct := sample_hasher_correct) sample_db carol_data)
    as (_ & Hsuccess).
  destruct (Hsuccess user db' Hrun) as (_ & Hprofile & pw & Hpw & Hcheck).
  injection Hpw as <-.
  split; [|split; [exact Hprofile|exact Hcheck]].
  vm_compute in Hrun. by injection Hrun as <- _.
Defined.

(** The password as sent does not check when it was sent with whitespace
    around it: the account holds the hash of the stripped password. *)
Lemma registration_trims_password :
  ∃ user db',
    RegisterView.create (hasher := sample_hasher) (policy := sample_policy)
      (email_format := sample_email_format) dave_data sample_db
    = (Return user, db')
    ∧ UserRegistrationSerializer.data_password dave_data = Some "Passw0rd! "
    ∧ check_password (hasher := sample_hasher) user "Passw0rd! " = false
    ∧ check_password (hasher := sample_hasher) user "Passw0rd!" = true.
Proof. eexists _, _. split; [by vm_compute|]. by vm_compute. Qed.

(** An email that is free as typed but taken once normalized passes
    [is_valid] and is stopped by the unique column. *)
Example registration_normalized_email_collision :
  RegisterView.create (hasher := sample_hasher) (policy := sample_policy)
    (email_format := sample_email_format)
    (UserRegistrationSerializer.mkData (Some "bob@EXAMPLE.com")
       (Some "Passw0rd!") (Some "Passw0rd!") None) social_db
  = (Raise IntegrityError, social_db).
Proof. by vm_compute. Qed.

(** ** Social login *)

(** C4 fails on this input. No identity links [("google", "g1")] and no
    account has the claimed email, yet no account is created: the lookup
    compares the email as claimed while [create_user] stores it
    normalized, the insert hits the unique email and the resolution ends
    in [IntegrityError]. *)
Theorem social_login_normalized_email_collision :
  filter (λ a, social_provider a = "google" ∧ social_uid a = "g1")
         (social_accounts social_db) = []
  ∧ filter (λ u, user_email u = "bob@EXAMPLE.com") (users social_db) = []
  ∧ social_auth.get_or_create_user_from_google (hasher := sample_hasher)
      bob_claims social_db
    = (Raise IntegrityError, social_db).
Proof. split; [done|]. split; [done|]. vm_compute. reflexivity. Qed.

Lemma try_except_return {A} (m : ORM A) h db a db' :
  m db = (Return a, db') → try_except m h db = (Return a, db').
Proof. intros Hm. unfold try_except. by rewrite Hm. Qed.

Lemma try_except_raise {A} (m : ORM A) h db e db' :
  m db = (Raise e, db') → try_except m h db = h e db'.
Proof. intros Hm. unfold try_except. by rewrite Hm. Qed.

Lemma SocialAccount_create_ok db a :
  (social_provider a, social_uid a)
    ∉ (λ x, (social_provider x, social_uid x)) <$> social_accounts db →
  SocialAccount_create a db
  = (Return a, set_social_accounts (social_accounts db ++ [a]) db).
Proof.
  intros Hfree. unfold SocialAccount_create.
  unfold mbind at 1, ORM_bind. unfold query.
  by rewrite bool_decide_eq_false_2.
Qed.

Lemma Profile_create_ok db p :
  profile_user_id p ∉ profile_user_id <$> profiles db →
  Profile_create p db = (Return p, set_profiles (profiles db ++ [p]) db).
Proof.
  intros Hfree. unfold Profile_create.
  unfold mbind at 1, ORM_bind. unfold query.
  by rewrite bool_decide_eq_false_2.
Qed.

Lemma create_user_ok `{hasher : PasswordHasher} db email password first_name
    last_name :
  email ≠ "" →
  CustomUserManager.normalize_email email ∉ user_email <$> users db →
  let user := mkUser (next_pk user_pk (users db))
                (CustomUserManager.normalize_email email)
                (make_password <$> password) first_name last_name false in
  CustomUserManager.create_user email password first_name last_name db
  = (Return user, set_users (users db ++ [user]) db).
Proof.
  intros Hne Hfree user. unfold CustomUserManager.create_user.
  rewrite bool_decide_eq_false_2 by done.
  unfold mbind at 1, ORM_bind. unfold query.
  unfold mbind at 1, ORM_bind, CustomUserManager.save_new.
  unfold mbind at 1, ORM_bind, query. cbn [user_email].
  by rewrite bool_decide_eq_false_2.
Qed.

Section social_resolution.
Context `{hasher : PasswordHasher}.

Lemma resolve_start info google_id email db :
  claims info google_id email →
  social_auth.get_or_create_user_from_google info db
  = (found ← try_except
      (social_account ← (λ db,
         (qs_get "SocialAccount"
                 (filter (λ a, social_provider a = "google"
                               ∧ social_uid a = google_id)
                         (social_accounts db)), db));
       user ← User_get (social_user_id social_account);
       mret (Some user))
      (λ e, match e with
            | DoesNotExist "SocialAccount" => mret None
            | _ => raise e
            end);
    match found with
    | Some user => mret (user, false)
    | None =>
        try_except
          (user ← User_get_by_email email;
           _ ← SocialAccount_create
                 (mkSocialAccount (user_pk user) "google" google_id);
           mret (user, false))
          (λ e, match e with
                | DoesNotExist "CustomUser" =>
                    user ← social_auth.create_user_from_google info;
                    mret (user, true)
                | _ => raise e
                end)
    end) db.
Proof.
  intros (Hg & Hgne & He & Hne).
  unfold social_auth.get_or_create_user_from_google. rewrite He, Hg.
  assert (Py.truthy (Some email) = true) as -> by (by destruct email).
  by assert (Py.truthy (Some google_id) = true) as ->
    by (by destruct google_id).
Qed.

(** Step 1: an identity is linked. *)
Lemma resolve_linked db info email google_id user :
  claims info google_id email →
  google_identities_unique db → NoDup (user_pk <$> users db) →
  linked db google_id user →
  social_auth.get_or_create_user_from_google info db
  = (Return (user, false), db).
Proof.
  intros Hclaims Huniq Hpk (a & Ha & Hprov & Huid & Huser & Hin).
  rewrite (resolve_start info google_id email) by done.
  rewrite (bind_return _ _ db (Some user) db); [done|].
  apply try_except_return.
  rewrite (bind_return _ _ db a db); last first.
  { rewrite (filter_singleton (λ a, (social_provider a, social_uid a)) _ _ a);
      try done.
    intros y _ [Hyp Hyu]. by rewrite Hyp, Hyu, Hprov, Huid. }
  rewrite (bind_return _ _ db user db); [done|].
  unfold User_get. rewrite Huser.
  by rewrite (filter_singleton user_pk _ _ user).
Qed.

(** Step 2: no identity, but an account has the claimed email. *)
Lemma resolve_by_email db info email google_id user :
  claims info google_id email →
  unlinked db google_id → NoDup (user_email <$> users db) →
  user ∈ users db → user_email user = email →
  social_auth.get_or_create_user_from_google info db
  = (Return (user, false),
     set_social_accounts
       (social_accounts db ++ [mkSocialAccount (user_pk user) "google" google_id])
       db).
Proof.
  intros Hclaims Hun Hemail Hin Hue.
  rewrite (resolve_start info google_id email) by done.
  rewrite (bind_return _ _ db None db); last first.
  { rewrite (try_except_raise _ _ db (DoesNotExist "SocialAccount") db);
      [done|].
    rewrite (bind_raise _ _ db (DoesNotExist "SocialAccount") db); [done|].
    rewrite filter_empty; [done|]. intros y Hy. by apply Hun. }
  apply try_except_return.
  rewrite (bind_return _ _ db user db); last first.
  { unfold User_get_by_email. rewrite <- Hue.
    by rewrite (filter_singleton user_email _ _ user). }
  unfold SocialAccount_create.
  unfold mbind at 1, ORM_bind. unfold mbind at 1, ORM_bind, query.
  cbn [social_provider social_uid].
  rewrite bool_decide_eq_false_2; [done|].
  intros (y & Heq & Hy)%list_elem_of_fmap. apply (Hun y Hy).
  by injection Heq as <- <-.
Qed.

(** Step 3: neither an identity nor an account with the claimed email. *)
Lemma resolve_new db info email google_id :
  claims info google_id email →
  unlinked db google_id →
  email ∉ user_email <$> users db →
  CustomUserManager.normalize_email email ∉ user_email <$> users db →
  next_pk user_pk (users db) ∉ profile_user_id <$> profiles db →
  social_auth.get_or_create_user_from_google info db
  = (Return (new_google_user db info email, true),
     after_google_signup db info google_id email).
Proof.
  intros Hclaims Hun Hfree Hnorm Hprof.
  rewrite (resolve_start info google_id email) by done.
  destruct Hclaims as (Hg & Hgne & He & Hne).
  rewrite (bind_return _ _ db None db); last first.
  { rewrite (try_except_raise _ _ db (DoesNotExist "SocialAccount") db);
      [done|].
    rewrite (bind_raise _ _ db (DoesNotExist "SocialAccount") db); [done|].
    rewrite filter_empty; [done|]. intros y Hy. by apply Hun. }
  rewrite (try_except_raise _ _ db (DoesNotExist "CustomUser") db); last first.
  { rewrite (bind_raise _ _ db (DoesNotExist "CustomUser") db); [done|].
    unfold User_get_by_email. rewrite filter_empty; [done|].
    intros y Hy Heq. apply Hfree. apply list_elem_of_fmap. by exists y. }
  unfold social_auth.create_user_from_google. rewrite He, Hg.
  change (default "" (Some email)) with email.
  change (default "" (Some google_id)) with google_id.
  unfold mbind at 1, ORM_bind.
  rewrite (bind_return _ _ _ _ _ (create_user_ok db email None _ _ Hne Hnorm)).
  erewrite bind_return; last first.
  { apply SocialAccount_create_ok.
    intros (y & Heq & Hy)%list_elem_of_fmap. apply (Hun y Hy).
    by injection Heq as <- <-. }
  unfold mbind at 1, ORM_bind, query.
  cbn [profiles set_social_accounts set_users user_pk].
  rewrite filter_empty; last first.
  { intros p Hp Heq. apply Hprof. apply list_elem_of_fmap. by exists p. }
  erewrite bind_return; last first.
  { by apply Profile_create_ok. }
  done.
Qed.
Lemma link_keeps_unique db a :
  google_identities_unique db →
  unlinked db (social_uid a) → social_provider a = "google" →
  NoDup ((λ a, (social_provider a, social_uid a))
         <$> (social_accounts db ++ [a])%list).
Proof.
  intros Huniq Hun Hprov. rewrite fmap_app. apply NoDup_app.
  split; [done|]. split; [|apply NoDup_singleton].
  intros x (y & -> & Hy)%list_elem_of_fmap Hx.
  apply list_elem_of_singleton in Hx. apply (Hun y Hy).
  injection Hx as Hp Hu. by rewrite Hp, Hu.
Qed.

(** X22. The order of the resolution, away from the collision above: a
    linked identity wins; otherwise an account with the claimed email is linked
    and no account is created; otherwise, when the normalized email is free
    as well, an account without password is created. In each case a later
    login with the same subject id gets the same account, with
    [created = false]. *)
Theorem social_resolution_order (db : DB) (info info' : gmap string string)
    (google_id email email' : string) :
  google_identities_unique db → NoDup (user_pk <$> users db) →
  NoDup (user_email <$> users db) →
  (∀ p, p ∈ profiles db → profile_user_id p ∈ user_pk <$> users db) →
  claims info google_id email → claims info' google_id email' →
  let resolve := social_auth.get_or_create_user_from_google in
  (∀ user, linked db google_id user →
     resolve info db = (Return (user, false), db))
  ∧ (unlinked db google_id →
     ∀ user, user ∈ users db → user_email user = email →
       ∃ db', resolve info db = (Return (user, false), db')
         ∧ users db' = users db
         ∧ linked db' google_id user
         ∧ resolve info' db' = (Return (user, false), db'))
  ∧ (unlinked db google_id → email ∉ user_email <$> users db →
     CustomUserManager.normalize_email email ∉ user_email <$> users db →
       ∃ user db', resolve info db = (Return (user, true), db')
         ∧ users db' = (users db ++ [user])%list
         ∧ user_password user = None
         ∧ linked db' google_id user
         ∧ resolve info' db' = (Return (user, false), db')).
Proof.
  intros Huniq Hpk Hemail Hfk Hclaims Hclaims' resolve. subst resolve.
  split; [|split].
  - intros user Hlinked. by eapply resolve_linked.
  - intros Hun user Hin Hue.
    set (a := mkSocialAccount (user_pk user) "google" google_id).
    assert (linked (set_social_accounts (social_accounts db ++ [a]) db)
              google_id user) as Hlinked.
    { exists a. split; [|done]. simpl. apply elem_of_app. right. by left. }
    eexists. split; [by eapply resolve_by_email|]. split; [done|].
    split; [done|].
    eapply resolve_linked; try done.
    by apply (link_keeps_unique db a).
  - intros Hun Hfree Hnorm.
    assert (next_pk user_pk (users db) ∉ profile_user_id <$> profiles db)
      as Hprof.
    { intros (p & Heq & Hp)%list_elem_of_fmap.
      apply (next_pk_not_in user_pk (users db)). rewrite Heq. by apply Hfk. }
    set (a := mkSocialAccount (next_pk user_pk (users db)) "google" google_id).
    assert (linked (after_google_signup db info google_id email) google_id
              (new_google_user db info email)) as Hlinked.
    { exists a. simpl. split; [apply elem_of_app; right; by left|].
      repeat split; try done. apply elem_of_app. right. by left. }
    eexists _, _. split; [by eapply resolve_new|]. split; [done|].
    split; [done|]. split; [done|].
    eapply resolve_linked; try done.
    + by apply (link_keeps_unique db a).
    + simpl. rewrite fmap_app. apply NoDup_app. split; [done|].
      split; [|apply NoDup_singleton].
      intros x Hx ->%list_elem_of_singleton.
      by apply (next_pk_not_in user_pk (users db)).
Qed.

End social_resolution.

(** * Further properties *)

(** ** Media validation *)

Section media_validation.
Context `{images : ImageLibrary} `{storage : FileStorage}
  (settings : Settings).

Lemma validate_media_file_ok (f : UploadedFile) :
  media_acceptable settings f →
  validate_media_file settings f = Return (media_meta f).
Proof.
  unfold media_acceptable, media_meta, validate_media_file, max_size,
    allowed_types, declared_type.
  set (ctype := default "" (file_content_type f)).
  set (allowed := default [] (MEDIA_ALLOWED_CONTENT_TYPES settings)).
  set (limit := default (5 * 1024 * 1024) (MEDIA_MAX_SIZE settings)).
  intros (Hsize & Hmax & Hallowed & Himage).
  rewrite bool_decide_eq_false_2 by done.
  rewrite bool_decide_eq_false_2 by lia.
  replace (bool_decide (allowed ≠ []) && bool_decide (ctype ∉ allowed))
    with false.
  2:{ destruct Hallowed as [->|Hin]; [done|].
      rewrite (bool_decide_eq_false_2 (ctype ∉ allowed)) by auto.
      by rewrite andb_false_r. }
  destruct (String.prefix "image/" ctype); [|done].
  destruct (Himage eq_refl) as [[w h] ->]. done.
Qed.

Lemma validate_media_file_rejects (f : UploadedFile) :
  ¬ media_acceptable settings f →
  ∃ msg, validate_media_file settings f = Raise (ValidationError msg).
Proof.
  unfold media_acceptable, media_meta, validate_media_file, max_size,
    allowed_types, declared_type.
  set (ctype := default "" (file_content_type f)).
  set (allowed := default [] (MEDIA_ALLOWED_CONTENT_TYPES settings)).
  set (limit := default (5 * 1024 * 1024) (MEDIA_MAX_SIZE settings)).
  intros Hno.
  case_bool_decide as Hsize; [by eexists|].
  case_bool_decide as Hmax; [by eexists|].
  destruct (bool_decide (allowed ≠ []) && bool_decide (ctype ∉ allowed))
    eqn:Hallowed; [by eexists|].
  assert (allowed = [] ∨ ctype ∈ allowed) as Hok.
  { apply andb_false_iff in Hallowed as [H|H];
      apply bool_decide_eq_false in H; [left|right]; by apply dec_stable. }
  destruct (String.prefix "image/" ctype) eqn:Himg.
  - destruct (image_open f) as [[w h]|] eqn:Hopen; [|by eexists].
    exfalso. apply Hno. split; [done|]. split; [lia|]. split; [done|].
    intros _. by eexists.
  - exfalso. apply Hno. split; [done|]. split; [lia|]. by split.
Qed.

(** The validator raises nothing but [ValidationError]. *)
Lemma validate_media_file_cases (f : UploadedFile) :
  (media_acceptable settings f
   ∧ validate_media_file settings f = Return (media_meta f))
  ∨ (¬ media_acceptable settings f
     ∧ ∃ msg, validate_media_file settings f = Raise (ValidationError msg)).
Proof.
  destruct (validate_media_file settings f) as [meta|e] eqn:Hrun.
  - left. assert (media_acceptable settings f) as Hok.
    { destruct (decide (media_acceptable settings f)) as [Hok|Hno]; [done|].
      apply validate_media_file_rejects in Hno as [msg Hmsg]. congruence. }
    split; [done|]. rewrite <- Hrun. by apply validate_media_file_ok.
  - right. assert (¬ media_acceptable settings f) as Hno.
    { intros Hok%validate_media_file_ok. congruence. }
    split; [done|]. rewrite <- Hrun. by apply validate_media_file_rejects.
Qed.

(** X1. [validate_media_file] accepts a file exactly when it is not empty,
    within the size limit (5 MiB unless configured), of an allowed content
    type (any type when the allow-list is empty or unset) and, if declared
    an image, decodable; the metadata it then returns are the declared type
    and size, with dimensions only for images. Every refusal is a
    [ValidationError]. *)
Theorem validate_media_file_accepts (f : UploadedFile) :
  (media_acceptable settings f →
     validate_media_file settings f = Return (media_meta f))
  ∧ (¬ media_acceptable settings f →
     ∃ msg, validate_media_file settings f = Raise (ValidationError msg)).
Proof.
  split; [apply validate_media_file_ok|apply validate_media_file_rejects].
Qed.

End media_validation.

Lemma validate_media_file_accepts_witness :
  validate_media_file (images := sample_images) sample_settings
    (mkFile "img.png" 3 (Some "image/png") "PNG")
  = Return (mkMeta "image/png" 3 (Some 10) (Some 10))
  ∧ ∃ msg, validate_media_file (images := sample_images) sample_settings
             (mkFile "file.bin" 10 (Some "application/octet-stream") "binary")
           = Raise (ValidationError msg).
Proof.
  split.
  - apply (validate_media_file_accepts (images := sample_images)
             sample_settings (mkFile "img.png" 3 (Some "image/png") "PNG")).
    split; [done|]. split; [vm_compute; discriminate|].
    split; [right; compute_done|]. intros _. by eexists.
  - apply (validate_media_file_accepts (images := sample_images)
             sample_settings
             (mkFile "file.bin" 10 (Some "application/octet-stream")
                "binary")).
    intros (_ & _ & [Hnil|Hin] & _); [discriminate Hnil|].
    revert Hin. apply (bool_decide_eq_false_1 (_ ∈ _)). vm_compute.
    reflexivity.
Defined.

(** ** The like toggle, from any state *)

Lemma elem_of_likers db post v :
  v ∈ likers db post
  ↔ ∃ l, l ∈ likes db ∧ like_post_id l = post_pk post ∧ like_user_id l = v.
Proof.
  unfold likers. rewrite elem_of_list_to_set, list_elem_of_fmap. split.
  - intros (l & -> & [Hp Hl]%list_elem_of_filter). by exists l.
  - intros (l & Hl & Hp & <-). exists l. split; [done|].
    by apply list_elem_of_filter.
Qed.

(** X2. From any state in which the pair (post, user) and the primary keys
    are unique, one toggle on a visible post flips the requester's own like
    on that post and nothing else: every other (post, user) pair keeps its
    state, the reported count is the number of likers afterwards, and the
    uniqueness constraints still hold. *)
Theorem like_toggles_membership (db : DB) (u : CustomUser) (post : Post) :
  NoDup (post_pk <$> posts db) → post ∈ posts db →
  visible_to (AuthUser u) post →
  unique_together db → NoDup (like_pk <$> likes db) →
  ∃ r db',
    PostViewSet.like (mkRequest (AuthUser u) POST) (post_pk post) db
    = (Return r, db')
    ∧ (PostViewSet.liked r = true ↔ user_pk u ∉ likers db post)
    ∧ (user_pk u ∈ likers db' post ↔ user_pk u ∉ likers db post)
    ∧ (∀ post' v, (post_pk post', v) ≠ (post_pk post, user_pk u) →
         v ∈ likers db' post' ↔ v ∈ likers db post')
    ∧ PostViewSet.likes_count r = Z.of_nat (size (likers db' post))
    ∧ unique_together db' ∧ NoDup (like_pk <$> likes db')
    ∧ set_likes (likes db) db' = db.
Proof.
  intros Hnd Hin Hvis Huniq Hpks.
  destruct (decide (user_pk u ∈ likers db post)) as [Hliked|Hfresh].
  - pose proof Hliked as (l & Hl & Hp & Hu)%elem_of_likers.
    pose proof (like_removes db u post l Hnd Hin Hvis Huniq Hl Hp Hu) as Hrun.
    cbn zeta in Hrun.
    set (db2 := set_likes (filter (λ x, like_pk x ≠ like_pk l) (likes db)) db)
      in *.
    assert (unique_together db2) as Huniq2.
    { unfold unique_together, db2. simpl. by apply NoDup_key_filter. }
    assert (∀ post' v, v ∈ likers db2 post'
              ↔ v ∈ likers db post'
                ∧ (post_pk post', v) ≠ (post_pk post, user_pk u)) as Hmem.
    { intros post' v. rewrite !elem_of_likers. unfold db2. simpl. split.
      - intros (x & [Hne Hx]%list_elem_of_filter & Hxp & Hxu).
        split; [by exists x|]. intros [= Hpp Hv]. apply Hne. f_equal.
        apply (unique_key_eq (λ l, (like_post_id l, like_user_id l))
                 (likes db)); try done.
        by rewrite Hxp, Hxu, Hp, Hu, Hpp, Hv.
      - intros [(x & Hx & Hxp & Hxu) Hne]. exists x. split; [|done].
        apply list_elem_of_filter. split; [|done].
        intros Hpk. apply Hne.
        assert (x = l) as ->
          by (by apply (unique_key_eq like_pk (likes db))).
        by rewrite <- Hxp, <- Hxu, Hp, Hu. }
    eexists _, db2. split; [exact Hrun|]. simpl.
    split; [split; [done|by intros []]|].
    split. { rewrite Hmem. split; [by intros [_ []]|by intros []]. }
    split. { intros post' v Hne. rewrite Hmem. tauto. }
    split.
    { pose proof (likes_count_distinct db2 post Huniq2) as Hc.
      unfold PostViewSet.post_likes_count, query in Hc. simpl in Hc.
      by injection Hc. }
    split; [done|]. split; [by apply NoDup_key_filter|].
    unfold db2. by destruct db.
  - assert (¬ has_liked db post u) as Hnone.
    { intros (l & Hl & Hp & Hu). apply Hfresh, elem_of_likers. by exists l. }
    pose proof (like_creates db u post Hnd Hin Hvis Hnone) as Hrun.
    cbn zeta in Hrun.
    set (l := mkLike (next_pk like_pk (likes db)) (post_pk post) (user_pk u))
      in *.
    set (db1 := set_likes (likes db ++ [l]) db) in *.
    assert (unique_together db1) as Huniq1.
    { unfold unique_together, db1. simpl. rewrite fmap_app.
      apply NoDup_app. split; [done|]. split; [|apply NoDup_singleton].
      intros x (y & -> & Hy)%list_elem_of_fmap Hx.
      apply list_elem_of_singleton in Hx. simpl in Hx.
      apply Hnone. exists y. by inversion Hx. }
    assert (∀ post' v, v ∈ likers db1 post'
              ↔ v ∈ likers db post'
                ∨ (post_pk post', v) = (post_pk post, user_pk u)) as Hmem.
    { intros post' v. rewrite !elem_of_likers. unfold db1. simpl. split.
      - intros (x & [Hx|Hx%list_elem_of_singleton]%elem_of_app & Hxp & Hxu).
        + left. by exists x.
        + right. subst x. simpl in Hxp, Hxu. by rewrite Hxp, Hxu.
      - intros [(x & Hx & Hxp & Hxu)|Heq].
        + exists x. split; [|done]. apply elem_of_app. by left.
        + injection Heq as Hpp Hv. exists l. split; [|done]. apply elem_of_app. right. by left. }
    eexists _, db1. split; [exact Hrun|]. simpl.
    split; [done|].
    split. { rewrite Hmem. split; [done|]. intros _. by right. }
    split. { intros post' v Hne. rewrite Hmem. tauto. }
    split.
    { pose proof (likes_count_distinct db1 post Huniq1) as Hc.
      unfold PostViewSet.post_likes_count, query in Hc. simpl in Hc.
      by injection Hc. }
    split; [done|]. split.
    { unfold db1. simpl. rewrite fmap_app. apply NoDup_app.
      split; [done|]. split; [|apply NoDup_singleton].
      intros x Hx ->%list_elem_of_singleton.
      by apply (next_pk_not_in like_pk (likes db)). }
    unfold db1. by destruct db.
Qed.

Lemma like_toggles_membership_witness :
  ∃ r db',
    PostViewSet.like (mkRequest (AuthUser alice) POST) 2 sample_db
    = (Return r, db')
    ∧ PostViewSet.liked r = false
    ∧ likes db' = [].
Proof.
  destruct (like_toggles_membership sample_db alice
              (mkPost 2 1 "" "Visible" "public"))
    as (r & db' & Hrun & _); try compute_done.
  exists r, db'. split; [exact Hrun|].
  vm_compute in Hrun. by injection Hrun as <- <-.
Defined.

(** ** Comments *)

Lemma filter_drop_fresh {A} (pk : A → Z) (rows : list A) (x : A) :
  pk x = next_pk pk rows →
  filter (λ y, pk y ≠ pk x) (rows ++ [x])%list = rows.
Proof.
  intros Hpk. rewrite filter_app, filter_cons, decide_False by auto.
  rewrite filter_nil, app_nil_r.
  apply filter_all. intros y Hy.
  pose proof (next_pk_fresh pk _ y Hy). lia.
Qed.

Lemma NoDup_pk_snoc {A} (pk : A → Z) (rows : list A) (x : A) :
  pk x = next_pk pk rows → NoDup (pk <$> rows) →
  NoDup (pk <$> (rows ++ [x])%list).
Proof.
  intros Hpk Hnd. rewrite fmap_app. apply NoDup_app.
  split; [done|]. split; [|apply NoDup_singleton].
  intros y Hy ->%list_elem_of_singleton. rewrite Hpk in Hy.
  by apply (next_pk_not_in pk rows).
Qed.

Lemma perform_create_ok db u method post text :
  NoDup (post_pk <$> posts db) → post ∈ posts db →
  hidden_from post (AuthUser u) = false →
  let c := mkComment (next_pk comment_pk (comments db)) (post_pk post)
             (user_pk u) text in
  CommentViewSet.perform_create (mkRequest (AuthUser u) method) (post_pk post)
    text db
  = (Return c, set_comments (comments db ++ [c]) db).
Proof.
  intros Hnd Hin Hvis c. unfold CommentViewSet.perform_create.
  by erewrite bind_return by (by apply get_accessible_post_ok).
Qed.

(** X3. A comment created on an accessible post gets a fresh primary key
    and the requester as author, is appended to the listing of that post
    and keeps the keys unique; afterwards another user's attempt to delete
    it is refused with [PermissionDenied], and the author's own delete
    brings the database back to what it was before the comment. *)
Theorem comment_create_then_delete (db : DB) (u v : CustomUser) (post : Post)
    (text : string) :
  NoDup (post_pk <$> posts db) → post ∈ posts db →
  hidden_from post (AuthUser u) = false →
  NoDup (comment_pk <$> comments db) →
  user_pk v ≠ user_pk u →
  ∃ c db',
    CommentViewSet.perform_create (mkRequest (AuthUser u) POST) (post_pk post)
      text db = (Return c, db')
    ∧ comment_author_id c = user_pk u ∧ comment_post_id c = post_pk post
    ∧ comment_text c = text
    ∧ (comment_pk c ∉ comment_pk <$> comments db)
    ∧ comments db' = (comments db ++ [c])%list
    ∧ NoDup (comment_pk <$> comments db')
    ∧ CommentViewSet_list (mkRequest (AuthUser v) GET) (post_pk post) db'
      = (Return (CommentViewSet.get_queryset db (post_pk post) ++ [c])%list,
         db')
    ∧ CommentViewSet.destroy (mkRequest (AuthUser v) DELETE) (post_pk post)
        (comment_pk c) db' = (Raise PermissionDenied, db')
    ∧ CommentViewSet.destroy (mkRequest (AuthUser u) DELETE) (post_pk post)
        (comment_pk c) db' = (Return (), db).
Proof.
  intros Hnd Hin Hvis Hpks Hvu.
  set (c := mkComment (next_pk comment_pk (comments db)) (post_pk post)
              (user_pk u) text).
  set (db' := set_comments (comments db ++ [c]) db).
  assert (NoDup (comment_pk <$> comments db')) as Hpks'.
  { unfold db'. simpl. by apply NoDup_pk_snoc. }
  assert (c ∈ comments db') as Hc.
  { unfold db'. simpl. apply elem_of_app. right. by left. }
  exists c, db'. split; [by apply perform_create_ok|].
  do 3 (split; [done|]). split; [apply next_pk_not_in|].
  split; [done|]. split; [done|]. split.
  { unfold CommentViewSet_list, query, CommentViewSet.get_queryset, db'.
    simpl. rewrite filter_app, filter_cons, decide_True by done. done. }
  split.
  - unfold CommentViewSet.destroy.
    pose proof (comment_write_access db' v DELETE c) as Hget.
    rewrite bool_decide_eq_false_2 in Hget by (simpl; congruence).
    erewrite bind_raise; [done|]. apply Hget; [compute_done|done..].
  - unfold CommentViewSet.destroy.
    pose proof (comment_write_access db' u DELETE c) as Hget.
    rewrite bool_decide_eq_true_2 in Hget by done.
    erewrite bind_return by (apply Hget; [compute_done|done..]).
    unfold modify, db', set_comments. cbn [comments].
    rewrite (filter_drop_fresh comment_pk _ c) by done.
    by destruct db.
Qed.

Lemma comment_create_then_delete_witness :
  ∃ c db',
    CommentViewSet.perform_create (mkRequest (AuthUser bob) POST) 2 "Nice"
      sample_db = (Return c, db')
    ∧ c = mkComment 2 2 2 "Nice"
    ∧ CommentViewSet.destroy (mkRequest (AuthUser alice) DELETE) 2
        (comment_pk c) db' = (Raise PermissionDenied, db')
    ∧ CommentViewSet.destroy (mkRequest (AuthUser bob) DELETE) 2
        (comment_pk c) db' = (Return (), sample_db).
Proof.
  destruct (comment_create_then_delete sample_db bob alice
              (mkPost 2 1 "" "Visible" "public") "Nice")
    as (c & db' & Hrun & _ & _ & _ & _ & _ & _ & _ & Hv & Hu);
    try compute_done.
  exists c, db'. split; [exact Hrun|].
  vm_compute in Hrun. injection Hrun as <- <-. by split.
Defined.

(** ** Nested routes *)

Lemma filter_other_parent {A} (pk parent : A → Z) (rows : list A) (x : A)
    (other : Z) :
  NoDup (pk <$> rows) → x ∈ rows → other ≠ parent x →
  filter (λ y, pk y = pk x) (filter (λ y, parent y = other) rows) = [].
Proof.
  intros Hnd Hx Hother. apply filter_empty.
  intros y [Hp Hy]%list_elem_of_filter Hpk.
  assert (y = x) as -> by (by apply (unique_key_eq pk rows)).
  congruence.
Qed.

(** X4. A comment or a media file addressed under a post it does not
    belong to is not found, whoever asks and whatever the method: reading,
    changing and deleting all answer 404 and leave the database alone. *)
Theorem nested_route_scoping (db : DB) (request : Request) (c : Comment)
    (m : Media) (other : Z) (text : option string) :
  NoDup (comment_pk <$> comments db) → c ∈ comments db →
  NoDup (media_pk <$> media db) → m ∈ media db →
  let NotFound {A : Type} : Outcome A * DB := (Raise (Http404 "Not found."), db) in
  (other ≠ comment_post_id c →
     CommentViewSet.update request other (comment_pk c) text db = NotFound
     ∧ CommentViewSet.destroy request other (comment_pk c) db = NotFound)
  ∧ (other ≠ media_post_id m →
     MediaDetailView.get request other (media_pk m) db = NotFound
     ∧ MediaDetailView.delete request other (media_pk m) db = NotFound).
Proof.
  intros Hcs Hc Hms Hm NotFound. subst NotFound. cbn beta.
  split; intros Hother.
  - assert (CommentViewSet.get_object request other (comment_pk c) db
            = (Raise (Http404 "Not found."), db)) as Hget.
    { unfold CommentViewSet.get_object, query, lift, mbind, ORM_bind.
      rewrite generic_get_object_missing; [done|].
      by apply (filter_other_parent comment_pk comment_post_id). }
    unfold CommentViewSet.update, CommentViewSet.destroy.
    by rewrite !(bind_raise _ _ _ _ _ Hget).
  - assert (MediaDetailView.get_object request other (media_pk m) db
            = (Raise (Http404 "Not found."), db)) as Hget.
    { unfold MediaDetailView.get_object, query, lift.
      unfold mbind at 1, ORM_bind. unfold mbind at 1, ORM_bind.
      rewrite generic_get_object_missing; [done|].
      by apply (filter_other_parent media_pk media_post_id). }
    unfold MediaDetailView.get, MediaDetailView.delete.
    by rewrite !(bind_raise _ _ _ _ _ Hget).
Qed.

Lemma nested_route_scoping_witness :
  CommentViewSet.destroy (mkRequest (AuthUser alice) DELETE) 1 1 sample_db
  = (Raise (Http404 "Not found."), sample_db)
  ∧ MediaDetailView.delete (mkRequest (AuthUser alice) DELETE) 1 1 sample_db
    = (Raise (Http404 "Not found."), sample_db).
Proof.
  destruct (nested_route_scoping sample_db (mkRequest (AuthUser alice) DELETE)
              (mkComment 1 2 1 "Original")
              (mkMedia 1 2 "posts/2/a.txt" "text/plain" 5 None None 1)
              1 None) as [Hc Hm]; try compute_done.
  split.
  - apply Hc. compute_done.
  - apply Hm. compute_done.
Defined.

(** ** Privacy outside [PostViewSet] *)

(** X5. The comments of a private post are not private: a user for whom
    the post itself is answered with 404 still receives all of its comments
    from the comment listing, which depends on the post identifier only;
    creating a comment there is answered with 404. *)
Theorem private_post_comments_listed (db : DB) (u : CustomUser) (post : Post)
    (text : string) :
  NoDup (post_pk <$> posts db) → post ∈ posts db →
  post_privacy post = "private" → post_author_id post ≠ user_pk u →
  user_is_staff u = false →
  let request := mkRequest (AuthUser u) GET in
  PostViewSet.retrieve request (post_pk post) db
  = (Raise (Http404 "Not found."), db)
  ∧ dispatch CommentViewSet.permission_classes request
      (CommentViewSet_list request (post_pk post)) db
    = (Return (filter (λ c, comment_post_id c = post_pk post) (comments db)),
       db)
  ∧ dispatch CommentViewSet.permission_classes
      (mkRequest (AuthUser u) POST)
      (CommentViewSet.perform_create (mkRequest (AuthUser u) POST)
         (post_pk post) text) db
    = (Raise (Http404 "Post not found"), db).
Proof.
  intros Hnd Hin Hpriv Hown Hstaff request. subst request.
  split; [|split].
  - apply get_object_hidden; try done.
    unfold visible_to. simpl. rewrite Hstaff, Hpriv.
    rewrite bool_decide_eq_false_2 by done. by intros [?|[?|?]].
  - unfold CommentViewSet.permission_classes.
    by rewrite dispatch_authenticated.
  - unfold CommentViewSet.permission_classes.
    rewrite dispatch_authenticated.
    unfold CommentViewSet.perform_create.
    erewrite bind_raise; [done|].
    apply get_accessible_post_hidden; try done.
    unfold hidden_from, same_user. simpl. rewrite Hpriv.
    rewrite (bool_decide_eq_false_2 (post_author_id post = user_pk u)) by done.
    done.
Qed.

Lemma private_post_comments_listed_witness :
  PostViewSet.retrieve (mkRequest (AuthUser alice) GET) 3
    (set_comments [mkComment 1 3 2 "Note to self"] sample_db)
  = (Raise (Http404 "Not found."),
     set_comments [mkComment 1 3 2 "Note to self"] sample_db)
  ∧ dispatch CommentViewSet.permission_classes (mkRequest (AuthUser alice) GET)
      (CommentViewSet_list (mkRequest (AuthUser alice) GET) 3)
      (set_comments [mkComment 1 3 2 "Note to self"] sample_db)
    = (Return [mkComment 1 3 2 "Note to self"],
       set_comments [mkComment 1 3 2 "Note to self"] sample_db).
Proof.
  destruct (private_post_comments_listed
              (set_comments [mkComment 1 3 2 "Note to self"] sample_db) alice
              (mkPost 3 2 "" "Mine" "private") "hi")
    as (Hget & Hlist & _); try compute_done.
  split; [exact Hget|exact Hlist].
Defined.

(** X6. Staff status widens reading only: a staff user who is not the
    author of a private post retrieves it, but commenting on it and
    uploading media to it are answered with 404 as for any other user. *)
Theorem staff_reads_but_cannot_write `{images : ImageLibrary}
    `{storage : FileStorage} (settings : Settings) (db : DB) (u : CustomUser) (post : Post)
    (text : string) (file : UploadedFile) (files : list UploadedFile) :
  NoDup (post_pk <$> posts db) → post ∈ posts db →
  post_privacy post = "private" → post_author_id post ≠ user_pk u →
  user_is_staff u = true →
  let request := mkRequest (AuthUser u) in
  let NotFound {A : Type} : Outcome A * DB := (Raise (Http404 "Post not found"), db) in
  PostViewSet.retrieve (request GET) (post_pk post) db = (Return post, db)
  ∧ CommentViewSet.perform_create (request POST) (post_pk post) text db
    = NotFound
  ∧ MediaUploadView.perform_create settings (request POST) (post_pk post) file
      db = NotFound
  ∧ MediaBatchUploadView.post settings (request POST) (post_pk post) files db
    = NotFound.
Proof.
  intros Hnd Hin Hpriv Hown Hstaff request NotFound.
  subst request NotFound. cbn beta.
  assert (get_accessible_post (mkRequest (AuthUser u) POST) (post_pk post) db
          = (Raise (Http404 "Post not found"), db)) as Hhid.
  { apply get_accessible_post_hidden; try done.
    unfold hidden_from, same_user. simpl. rewrite Hpriv.
    rewrite (bool_decide_eq_false_2 (post_author_id post = user_pk u)) by done.
    done. }
  split; [|split; [|split]].
  - unfold PostViewSet.retrieve.
    rewrite (get_object_visible db _ _ post); try done.
    unfold visible_to. simpl. by left.
  - unfold CommentViewSet.perform_create.
    by rewrite (bind_raise _ _ _ _ _ Hhid).
  - unfold MediaUploadView.perform_create.
    by rewrite (bind_raise _ _ _ _ _ Hhid).
  - unfold MediaBatchUploadView.post.
    by rewrite (bind_raise _ _ _ _ _ Hhid).
Qed.

Lemma staff_reads_but_cannot_write_witness :
  PostViewSet.retrieve (mkRequest (AuthUser admin) GET) 1 sample_db
  = (Return (mkPost 1 1 "" "Secret" "private"), sample_db)
  ∧ CommentViewSet.perform_create (mkRequest (AuthUser admin) POST) 1 "hi"
      sample_db = (Raise (Http404 "Post not found"), sample_db).
Proof.
  destruct (staff_reads_but_cannot_write (images := sample_images)
              (storage := sample_storage)
              sample_settings sample_db admin
              (mkPost 1 1 "" "Secret" "private") "hi"
              (mkFile "a" 1 None "a") [])
    as (Hget & Hcomment & _); try compute_done.
  split; [exact Hget|exact Hcomment].
Defined.

(** ** Deleting and hiding a post *)

Lemma author_sees_own_post u post :
  post_author_id post = user_pk u → visible_to (AuthUser u) post.
Proof.
  intros Hown. unfold visible_to. simpl. right. right.
  by apply bool_decide_eq_true_2.
Qed.

Lemma filter_comm {A} (P Q : A → Prop) `{!∀ x, Decision (P x)}
    `{!∀ x, Decision (Q x)} (rows : list A) :
  filter P (filter Q rows) = filter Q (filter P rows).
Proof.
  rewrite !list_filter_filter. apply list_filter_iff. intros x. tauto.
Qed.

Lemma get_queryset_delete_post db request post :
  PostViewSet.get_queryset (delete_post post db) request
  = filter (λ q, post_pk q ≠ post_pk post)
      (PostViewSet.get_queryset db request).
Proof.
  unfold PostViewSet.get_queryset, delete_post. cbn [posts].
  destruct (negb _); [apply filter_comm|].
  destruct (is_staff _); [done|]. apply filter_comm.
Qed.

(** X7. When its author deletes a post, the post is gone for every
    requester (404) and its row is the only post row removed; no comment,
    media file or like that referenced it is left; the media and likes of
    the other posts, the users, profiles and social accounts are
    untouched. *)
Theorem destroy_cascades (db : DB) (u : CustomUser) (post : Post) :
  NoDup (post_pk <$> posts db) → post ∈ posts db →
  post_author_id post = user_pk u →
  ∃ db',
    PostViewSet.destroy (mkRequest (AuthUser u) DELETE) (post_pk post) db
    = (Return (), db')
    ∧ (∀ request, PostViewSet.retrieve request (post_pk post) db'
                  = (Raise (Http404 "Not found."), db'))
    ∧ (∀ q, q ∈ posts db' ↔ q ∈ posts db ∧ q ≠ post)
    ∧ (∀ c, c ∈ comments db'
            → c ∈ comments db ∧ comment_post_id c ≠ post_pk post)
    ∧ (∀ m, m ∈ media db' ↔ m ∈ media db ∧ media_post_id m ≠ post_pk post)
    ∧ (∀ l, l ∈ likes db' ↔ l ∈ likes db ∧ like_post_id l ≠ post_pk post)
    ∧ users db' = users db ∧ profiles db' = profiles db
    ∧ social_accounts db' = social_accounts db.
Proof.
  intros Hnd Hin Hown. exists (delete_post post db).
  split.
  { unfold PostViewSet.destroy.
    pose proof (post_write_access db u DELETE post) as Hget.
    rewrite bool_decide_eq_true_2 in Hget by done.
    erewrite bind_return; [done|].
    apply Hget; [compute_done|done|done|by apply author_sees_own_post]. }
  split.
  { intros request. apply get_object_missing. unfold delete_post. simpl.
    intros (q & Hq & [Hne _]%list_elem_of_filter)%list_elem_of_fmap.
    by apply Hne. }
  split.
  { intros q. unfold delete_post. simpl. rewrite list_elem_of_filter.
    split; intros [H1 H2]; split; try done.
    - intros ->. by apply H1.
    - intros Hpk. apply H2. by apply (unique_key_eq post_pk (posts db)). }
  split. { intros c. unfold delete_post. simpl. rewrite list_elem_of_filter. tauto. }
  split. { intros m. unfold delete_post. simpl. rewrite list_elem_of_filter. tauto. }
  split. { intros l. unfold delete_post. simpl. rewrite list_elem_of_filter. tauto. }
  done.
Qed.

Lemma destroy_cascades_witness :
  ∃ db',
    PostViewSet.destroy (mkRequest (AuthUser alice) DELETE) 2 sample_db
    = (Return (), db')
    ∧ media db' = [] ∧ likes db' = []
    ∧ PostViewSet.retrieve (mkRequest (AuthUser alice) GET) 2 db'
      = (Raise (Http404 "Not found."), db').
Proof.
  destruct (destroy_cascades sample_db alice
              (mkPost 2 1 "" "Visible" "public"))
    as (db' & Hrun & Hgone & _); try compute_done.
  exists db'. split; [exact Hrun|].
  split; [|split]; [| |apply Hgone];
    vm_compute in Hrun; by injection Hrun as <-.
Defined.

Lemma replace_row_pks (post post' : Post) (rows : list Post) :
  post_pk post' = post_pk post →
  post_pk <$> ((λ q, if bool_decide (post_pk q = post_pk post)
                     then post' else q) <$> rows)
  = post_pk <$> rows.
Proof.
  intros Hpk. rewrite <- list_fmap_compose. apply list_fmap_ext.
  intros i q _. simpl. case_bool_decide; congruence.
Qed.

Lemma replace_row_elem (post post' : Post) (rows : list Post) :
  post ∈ rows →
  post' ∈ (λ q, if bool_decide (post_pk q = post_pk post)
                then post' else q) <$> rows.
Proof.
  intros Hin. apply list_elem_of_fmap. exists post.
  by rewrite bool_decide_eq_true_2.
Qed.

(** X8. When the author switches a post to private, that post keeps its
    key and its author, the keys of the posts and the users, profiles,
    comments, media, likes and social accounts stay as they were, the
    author still retrieves the post, and any other user who is not staff
    now gets 404 for it and no longer finds it in the listing. *)
Theorem update_to_private_hides (db : DB) (u v : CustomUser) (post : Post)
    (data : PostViewSet.PostFields) :
  NoDup (post_pk <$> posts db) → post ∈ posts db →
  post_author_id post = user_pk u →
  PostViewSet.new_privacy data = Some "private" →
  user_pk v ≠ user_pk u → user_is_staff v = false →
  ∃ post' db',
    PostViewSet.update (mkRequest (AuthUser u) PATCH) (post_pk post)
      (Some data) db = (Return post', db')
    ∧ post_pk post' = post_pk post
    ∧ post_author_id post' = post_author_id post
    ∧ post_privacy post' = "private"
    ∧ set_posts (posts db) db' = db
    ∧ post_pk <$> posts db' = post_pk <$> posts db
    ∧ PostViewSet.retrieve (mkRequest (AuthUser u) GET) (post_pk post) db'
      = (Return post', db')
    ∧ PostViewSet.retrieve (mkRequest (AuthUser v) GET) (post_pk post) db'
      = (Raise (Http404 "Not found."), db')
    ∧ (∀ q, q ∈ PostViewSet.get_queryset db' (mkRequest (AuthUser v) GET) →
            post_pk q ≠ post_pk post).
Proof.
  intros Hnd Hin Hown Hprivate Hvu Hstaff.
  set (post' := PostViewSet.serializer_update post data).
  set (db' := set_posts
                ((λ q, if bool_decide (post_pk q = post_pk post)
                       then post' else q) <$> posts db) db).
  assert (post_privacy post' = "private") as Hpriv'.
  { unfold post', PostViewSet.serializer_update. simpl. by rewrite Hprivate. }
  assert (NoDup (post_pk <$> posts db')) as Hnd'.
  { unfold db'. simpl. by rewrite replace_row_pks. }
  assert (post' ∈ posts db') as Hin'.
  { unfold db'. simpl. by apply replace_row_elem. }
  assert (¬ visible_to (AuthUser v) post') as Hhidden.
  { unfold visible_to. cbn [is_authenticated is_staff same_user].
    rewrite Hstaff, Hpriv'.
    rewrite bool_decide_eq_false_2; [by intros [?|[?|?]]|].
    change (post_author_id post') with (post_author_id post). congruence. }
  exists post', db'. split.
  { unfold PostViewSet.update.
    pose proof (post_write_access db u PATCH post) as Hget.
    rewrite bool_decide_eq_true_2 in Hget by done.
    erewrite bind_return; [done|].
    apply Hget; [compute_done|done|done|by apply author_sees_own_post]. }
  do 3 (split; [done|]).
  split; [unfold db'; by destruct db|].
  split; [unfold db'; simpl; by rewrite replace_row_pks|].
  split.
  { unfold PostViewSet.retrieve.
    change (post_pk post) with (post_pk post').
    rewrite (get_object_visible db' _ _ post'); try done.
    by apply author_sees_own_post. }
  split.
  { change (post_pk post) with (post_pk post').
    by apply get_object_hidden. }
  intros q [Hq Hvis]%elem_of_get_queryset Hpk.
  assert (q = post') as -> by (by apply (unique_key_eq post_pk (posts db'))).
  done.
Qed.

Lemma update_to_private_hides_witness :
  ∃ post' db',
    PostViewSet.update (mkRequest (AuthUser alice) PATCH) 2
      (Some (PostViewSet.mkPostFields None None (Some "private"))) sample_db
    = (Return post', db')
    ∧ post' = mkPost 2 1 "" "Visible" "private"
    ∧ PostViewSet.retrieve (mkRequest (AuthUser bob) GET) 2 db'
      = (Raise (Http404 "Not found."), db').
Proof.
  destruct (update_to_private_hides sample_db alice bob
              (mkPost 2 1 "" "Visible" "public")
              (PostViewSet.mkPostFields None None (Some "private")))
    as (post' & db' & Hrun & _ & _ & _ & _ & _ & _ & Hbob & _);
    try compute_done.
  exists post', db'. split; [exact Hrun|]. split; [|exact Hbob].
  vm_compute in Hrun. by injection Hrun as <- <-.
Defined.

(** ** What an upload stores *)

Section upload_rows.
Context `{images : ImageLibrary} `{storage : FileStorage}
  (settings : Settings).

Lemma create_media_ok db u method post_id f :
  media_acceptable settings f →
  let meta := media_meta f in
  let m := mkMedia (next_pk media_pk (media db)) post_id
             (storage_save db (upload_post_media_path post_id (file_name f)))
             (meta_content_type meta) (meta_size meta) (meta_width meta)
             (meta_height meta) (user_pk u) in
  MediaBatchUploadView.create_media settings (mkRequest (AuthUser u) method)
    post_id f db
  = (Return m, set_media (media db ++ [m]) db).
Proof.
  intros Hok meta m. unfold MediaBatchUploadView.create_media.
  erewrite bind_return; [done|].
  unfold lift. by rewrite validate_media_file_ok.
Qed.

Lemma create_media_rejects db request post_id f :
  ¬ media_acceptable settings f →
  ∃ msg, validate_media_file settings f = Raise (ValidationError msg)
    ∧ MediaBatchUploadView.create_media settings request post_id f db
      = (Raise (ValidationError msg), db).
Proof.
  intros [msg Hmsg]%validate_media_file_rejects. exists msg. split; [done|].
  unfold MediaBatchUploadView.create_media.
  erewrite bind_raise; [done|]. unfold lift. by rewrite Hmsg.
Qed.

Lemma fails_validation_false f :
  fails_validation settings f = false ↔ media_acceptable settings f.
Proof.
  unfold fails_validation.
  destruct (validate_media_file_cases settings f) as [[Hok ->]|[Hno [msg ->]]];
    split; done.
Qed.

Lemma set_media_app db (m : Media) (cs : list Media) :
  set_media (media (set_media (media db ++ [m]) db) ++ cs)
    (set_media (media db ++ [m]) db)
  = set_media (media db ++ m :: cs) db.
Proof. unfold set_media. simpl. by rewrite <- app_assoc. Qed.

Lemma upload_loop_rows (u : CustomUser) method post_id files :
  ∀ created errors db,
  ∃ cs es,
    MediaBatchUploadView.upload_loop settings (mkRequest (AuthUser u) method)
      post_id files created errors db
    = (Return ((created ++ cs)%list, (errors ++ es)%list),
       set_media (media db ++ cs) db)
    ∧ Forall2 (stored_as settings u post_id)
        (filter (λ f, fails_validation settings f = false) files) cs
    ∧ Forall2 (reported settings)
        (filter (λ f, fails_validation settings f = true) files) es
    ∧ (NoDup (media_pk <$> media db) →
       NoDup (media_pk <$> (media db ++ cs)%list)).
Proof.
  induction files as [|f files IH]; intros created errors db.
  { exists [], []. rewrite !app_nil_r. simpl.
    split; [by destruct db|]. by repeat split. }
  cbn [MediaBatchUploadView.upload_loop]. rewrite !filter_cons.
  destruct (decide (media_acceptable settings f)) as [Hok|Hno].
  - pose proof (proj2 (fails_validation_false f) Hok) as Hfalse.
    rewrite decide_True by done. rewrite decide_False by congruence.
    pose proof (create_media_ok db u method post_id f Hok) as Hrun.
    cbn zeta in Hrun.
    set (m := mkMedia _ _ _ _ _ _ _ _) in Hrun.
    set (db1 := set_media (media db ++ [m]) db) in *.
    destruct (IH (created ++ [m])%list errors db1)
      as (cs & es & Heq & Hcs & Hes & Hnd).
    exists (m :: cs), es. split.
    { unfold mbind at 1, ORM_bind, try_except.
      erewrite bind_return by exact Hrun. cbn [mret ORM_ret].
      rewrite Heq. unfold db1. rewrite set_media_app.
      by rewrite <- !app_assoc. }
    split.
    { constructor; [|done]. unfold stored_as, m. simpl.
      do 6 (split; [done|]). done. }
    split; [done|].
    intros Hpks. replace (media db ++ m :: cs)%list
      with (media db1 ++ cs)%list
      by (unfold db1; simpl; by rewrite <- app_assoc).
    apply Hnd. unfold db1. simpl. by apply NoDup_pk_snoc.
  - assert (fails_validation settings f = true) as Htrue.
    { destruct (fails_validation settings f) eqn:Hf; [done|].
      by apply fails_validation_false in Hf. }
    rewrite decide_False by congruence. rewrite decide_True by done.
    destruct (create_media_rejects db (mkRequest (AuthUser u) method) post_id
                f Hno) as (msg & Hmsg & Hrun).
    set (x := MediaBatchUploadView.mkFileError (file_name f)
                (str_exception (ValidationError msg))).
    destruct (IH created (errors ++ [x])%list db)
      as (cs & es & Heq & Hcs & Hes & Hnd).
    exists cs, (x :: es). split.
    { unfold mbind at 1, ORM_bind, try_except.
      erewrite bind_raise by exact Hrun. cbn [mret ORM_ret].
      fold x. rewrite Heq. by rewrite <- !app_assoc. }
    split; [done|]. split; [|done].
    constructor; [|done]. split; [done|]. by exists msg.
Qed.

End upload_rows.

Section upload_properties.
Context `{images : ImageLibrary} `{storage : FileStorage}
  (settings : Settings).

(** X9. A batch upload stores exactly the acceptable files, in the order
    sent: each row of [created] belongs to the post and to the requester
    and carries the declared type, the size and the dimensions of its file;
    each entry of [errors] names a refused file and gives the validator's
    message as Python prints it; the media keys stay unique and no other
    table changes. *)
Theorem batch_upload_rows (db : DB) (u : CustomUser) (post : Post)
    (files : list UploadedFile) :
  NoDup (post_pk <$> posts db) → post ∈ posts db →
  hidden_from post (AuthUser u) = false → files ≠ [] →
  ∃ created errors db',
    MediaBatchUploadView.post settings (mkRequest (AuthUser u) POST)
      (post_pk post) files db
    = (Return (mkResponse (match errors with [] => 201 | _ => 207 end)
                 (MediaBatchUploadView.BatchBody created errors)), db')
    ∧ Forall2 (stored_as settings u (post_pk post))
        (filter (media_acceptable settings) files) created
    ∧ Forall2 (reported settings)
        (filter (λ f, ¬ media_acceptable settings f) files) errors
    ∧ db' = set_media (media db ++ created) db
    ∧ (NoDup (media_pk <$> media db) → NoDup (media_pk <$> media db')).
Proof.
  intros Hnd Hin Hvis Hfiles.
  destruct (upload_loop_rows settings u POST (post_pk post) files [] [] db)
    as (cs & es & Hrun & Hcs & Hes & Hpks).
  exists cs, es, (set_media (media db ++ cs) db). split.
  { unfold MediaBatchUploadView.post.
    erewrite bind_return by (by apply get_accessible_post_ok).
    destruct files as [|f files]; [done|].
    by erewrite bind_return by exact Hrun. }
  split.
  { erewrite list_filter_iff; [exact Hcs|].
    intros f. symmetry. apply fails_validation_false. }
  split.
  { erewrite list_filter_iff; [exact Hes|].
    intros f. rewrite <- fails_validation_false.
    by destruct (fails_validation settings f). }
  split; [done|]. exact Hpks.
Qed.

(** X10. The single-file upload and a batch of that one file agree: an
    acceptable file is stored by either as one new row with the next key,
    the post, the requester and the type, size and dimensions of the file
    (status 201 for the batch); a refused file makes the single upload
    raise the validator's [ValidationError] while the batch answers 207
    with one error entry for that file, and neither stores anything. *)
Theorem single_upload_agrees_with_batch (db : DB) (u : CustomUser)
    (post : Post) (f : UploadedFile) :
  NoDup (post_pk <$> posts db) → post ∈ posts db →
  hidden_from post (AuthUser u) = false →
  let request := mkRequest (AuthUser u) POST in
  (media_acceptable settings f →
     ∃ m m', stored_as settings u (post_pk post) f m
       ∧ stored_as settings u (post_pk post) f m'
       ∧ media_pk m = next_pk media_pk (media db)
       ∧ media_pk m' = next_pk media_pk (media db)
       ∧ MediaUploadView.perform_create settings request (post_pk post) f db
         = (Return m, set_media (media db ++ [m]) db)
       ∧ MediaBatchUploadView.post settings request (post_pk post) [f] db
         = (Return (mkResponse 201 (MediaBatchUploadView.BatchBody [m'] [])),
            set_media (media db ++ [m']) db))
  ∧ (¬ media_acceptable settings f →
     ∃ msg e, validate_media_file settings f = Raise (ValidationError msg)
       ∧ MediaUploadView.perform_create settings request (post_pk post) f db
         = (Raise (ValidationError msg), db)
       ∧ MediaBatchUploadView.post settings request (post_pk post) [f] db
         = (Return (mkResponse 207 (MediaBatchUploadView.BatchBody [] [e])),
            db)
       ∧ reported settings f e).
Proof.
  intros Hnd Hin Hvis request. subst request.
  pose proof (get_accessible_post_ok db (mkRequest (AuthUser u) POST) post
                Hnd Hin Hvis) as Hpost.
  split.
  - intros Hok.
    pose proof (create_media_ok settings db u POST (post_pk post) f Hok)
      as Hrun. cbn zeta in Hrun.
    set (m := mkMedia _ _ _ _ _ _ _ _) in Hrun.
    assert (stored_as settings u (post_pk post) f m) as Hstored.
    { unfold stored_as, m. simpl. do 6 (split; [done|]). done. }
    exists m, m. do 4 (split; [done|]). split.
    + unfold MediaUploadView.perform_create.
      erewrite bind_return by exact Hpost.
      unfold MediaSerializer.create.
      erewrite bind_return; last first.
      { apply try_except_return. unfold lift.
        by rewrite validate_media_file_ok. }
      done.
    + unfold MediaBatchUploadView.post.
      erewrite bind_return by exact Hpost.
      cbn [MediaBatchUploadView.upload_loop].
      unfold mbind at 1, ORM_bind. unfold mbind at 1, ORM_bind, try_except.
      erewrite bind_return by exact Hrun. done.
  - intros Hno.
    destruct (create_media_rejects settings db (mkRequest (AuthUser u) POST)
                (post_pk post) f Hno) as (msg & Hmsg & Hrun).
    exists msg, (MediaBatchUploadView.mkFileError (file_name f)
                   (str_exception (ValidationError msg))).
    split; [done|]. split; [|split].
    + unfold MediaUploadView.perform_create.
      erewrite bind_return by exact Hpost.
      unfold MediaSerializer.create.
      erewrite bind_raise; [done|].
      erewrite try_except_raise; last first.
      { unfold lift. by rewrite Hmsg. }
      done.
    + unfold MediaBatchUploadView.post.
      erewrite bind_return by exact Hpost.
      cbn [MediaBatchUploadView.upload_loop].
      unfold mbind at 1, ORM_bind. unfold mbind at 1, ORM_bind, try_except.
      erewrite bind_raise by exact Hrun. done.
    + split; [done|]. by exists msg.
Qed.

(** X11. A stored upload can be read back and removed: after a single
    upload the uploader reads the new row through the media detail view; a
    user who is neither the uploader nor the author of the post gets 404
    for it; and the uploader's delete brings the database back to what it
    was before the upload. *)
Theorem upload_then_delete (db : DB) (u w : CustomUser) (post : Post)
    (f : UploadedFile) :
  NoDup (post_pk <$> posts db) → post ∈ posts db →
  hidden_from post (AuthUser u) = false →
  NoDup (media_pk <$> media db) →
  media_acceptable settings f →
  user_pk w ≠ user_pk u → user_pk w ≠ post_author_id post →
  ∃ m db',
    MediaUploadView.perform_create settings (mkRequest (AuthUser u) POST)
      (post_pk post) f db = (Return m, db')
    ∧ (media_pk m ∉ media_pk <$> media db)
    ∧ MediaDetailView.get (mkRequest (AuthUser u) GET) (post_pk post)
        (media_pk m) db' = (Return m, db')
    ∧ MediaDetailView.get (mkRequest (AuthUser w) GET) (post_pk post)
        (media_pk m) db' = (Raise (Http404 "Media not found"), db')
    ∧ MediaDetailView.delete (mkRequest (AuthUser u) DELETE) (post_pk post)
        (media_pk m) db'
      = (Return (mkResponse 204 "Media deleted successfully"), db).
Proof.
  intros Hnd Hin Hvis Hpks Hok Hwu Hwa.
  pose proof (get_accessible_post_ok db (mkRequest (AuthUser u) POST) post
                Hnd Hin Hvis) as Hpost.
  pose proof (create_media_ok settings db u POST (post_pk post) f Hok)
    as Hrun. cbn zeta in Hrun.
  set (m := mkMedia _ _ _ _ _ _ _ _) in Hrun.
  set (db' := set_media (media db ++ [m]) db) in *.
  assert (NoDup (media_pk <$> media db')) as Hpks'.
  { unfold db'. simpl. by apply NoDup_pk_snoc. }
  assert (m ∈ media db') as Hm.
  { unfold db'. simpl. apply elem_of_app. right. by left. }
  assert (∀ request,
            MediaDetailView.get_object request (post_pk post) (media_pk m) db'
            = if negb (same_user (Some (post_author_id post))
                                 (request_user request))
                 && negb (same_user (Some (user_pk u)) (request_user request))
              then (Raise (Http404 "Media not found"), db')
              else (Return m, db')) as Hget.
  { intros request.
    by apply (media_get_object db' request m post). }
  exists m, db'. split.
  { unfold MediaUploadView.perform_create.
    erewrite bind_return by exact Hpost.
    unfold MediaSerializer.create.
    erewrite bind_return; last first.
    { apply try_except_return. unfold lift.
      by rewrite validate_media_file_ok. }
    done. }
  split; [apply next_pk_not_in|]. split.
  { unfold MediaDetailView.get. rewrite Hget. simpl.
    rewrite (bool_decide_eq_true_2 (user_pk u = user_pk u)) by done.
    by rewrite andb_false_r. }
  split.
  { unfold MediaDetailView.get. rewrite Hget. simpl.
    rewrite (bool_decide_eq_false_2 (user_pk u = user_pk w)) by congruence.
    by rewrite (bool_decide_eq_false_2 (post_author_id post = user_pk w))
      by congruence. }
  unfold MediaDetailView.delete.
  erewrite bind_return; last first.
  { rewrite Hget. simpl.
    rewrite (bool_decide_eq_true_2 (user_pk u = user_pk u)) by done.
    by rewrite andb_false_r. }
  unfold modify, db', set_media, mbind, ORM_bind, mret, ORM_ret.
  cbn [media]. rewrite (filter_drop_fresh media_pk _ m) by done.
  by destruct db.
Qed.

End upload_properties.

Lemma batch_upload_rows_witness :
  ∃ created errors db',
    MediaBatchUploadView.post (images := sample_images)
      (storage := sample_storage) sample_settings
      (mkRequest (AuthUser bob) POST) 2 sample_files sample_db
    = (Return (mkResponse 207
                 (MediaBatchUploadView.BatchBody created errors)), db')
    ∧ media_content_type <$> created = ["image/png"]
    ∧ MediaBatchUploadView.filename <$> errors = ["big.txt"; "file.bin"]
    ∧ NoDup (media_pk <$> media db').
Proof.
  destruct (batch_upload_rows (images := sample_images)
              (storage := sample_storage) sample_settings
              sample_db bob (mkPost 2 1 "" "Visible" "public") sample_files)
    as (created & errors & db' & Hrun & _ & _ & _ & Hpks);
    try done; try compute_done.
  exists created, errors, db'.
  specialize (Hpks ltac:(compute_done)).
  vm_compute in Hrun. injection Hrun as Hstatus <- <- <-.
  repeat split; try done.
Defined.

Lemma single_upload_agrees_with_batch_witness :
  (∃ m,
     MediaUploadView.perform_create (images := sample_images)
       (storage := sample_storage) sample_settings
       (mkRequest (AuthUser bob) POST) 2
       (mkFile "img.png" 3 (Some "image/png") "PNG") sample_db
     = (Return m, set_media (media sample_db ++ [m]) sample_db)
     ∧ media_pk m = 3 ∧ media_width m = Some 10)
  ∧ ∃ msg,
      MediaUploadView.perform_create (images := sample_images)
        (storage := sample_storage) sample_settings
        (mkRequest (AuthUser bob) POST) 2
        (mkFile "big.txt" 2048 (Some "text/plain") "aaaa") sample_db
      = (Raise (ValidationError msg), sample_db).
Proof.
  split.
  - destruct (single_upload_agrees_with_batch (images := sample_images)
                (storage := sample_storage) sample_settings sample_db bob
                (mkPost 2 1 "" "Visible" "public")
                (mkFile "img.png" 3 (Some "image/png") "PNG"))
      as [Hok _]; try compute_done.
    destruct Hok as (m & m' & _ & _ & Hpk & _ & Hrun & _); [compute_done|].
    exists m. split; [exact Hrun|]. split; [exact Hpk|].
    vm_compute in Hrun. by injection Hrun as <-.
  - destruct (single_upload_agrees_with_batch (images := sample_images)
                (storage := sample_storage) sample_settings sample_db bob
                (mkPost 2 1 "" "Visible" "public")
                (mkFile "big.txt" 2048 (Some "text/plain") "aaaa"))
      as [_ Hno]; try compute_done.
    destruct Hno as (msg & e & _ & Hrun & _); [compute_done|].
    by exists msg.
Defined.

Lemma upload_then_delete_witness :
  ∃ m db',
    MediaUploadView.perform_create (images := sample_images)
      (storage := sample_storage) sample_settings
      (mkRequest (AuthUser bob) POST) 2
      (mkFile "img.png" 3 (Some "image/png") "PNG") sample_db
    = (Return m, db')
    ∧ MediaDetailView.get (mkRequest (AuthUser admin) GET) 2 (media_pk m) db'
      = (Raise (Http404 "Media not found"), db')
    ∧ MediaDetailView.delete (mkRequest (AuthUser bob) DELETE) 2 (media_pk m)
        db'
      = (Return (mkResponse 204 "Media deleted successfully"), sample_db).
Proof.
  destruct (upload_then_delete (images := sample_images)
              (storage := sample_storage) sample_settings
              sample_db bob admin (mkPost 2 1 "" "Visible" "public")
              (mkFile "img.png" 3 (Some "image/png") "PNG"))
    as (m & db' & Hrun & _ & _ & Hother & Hdelete); try compute_done.
  by exists m, db'.
Defined.

(** ** Logout only revokes *)

Lemma verifies_mono store store' payload :
  current_time store' = current_time store →
  blacklisted store ⊆ blacklisted store' →
  verifies store' payload → verifies store payload.
Proof.
  intros Htime Hsub (j & e & Hj & Hfree & He & Hexp & Htype).
  exists j, e. rewrite <- Htime. repeat split; try done.
  intros Hin. apply Hfree. by apply Hsub.
Qed.

(** X12. Whatever is submitted, logout answers 200 or 400, never moves the
    clock and never removes an entry from the blacklist: a token that is
    refused before a logout is refused after it, a 400 answer leaves the
    store untouched, and the only tokens a successful logout invalidates
    are those that carry the identifier of the submitted one. *)
Theorem logout_only_revokes `{backend : TokenBackend} (store store' : TokenStore)
    (refresh : option string) (response : Response LogoutBody) :
  logout_view store refresh = (response, store') →
  (status_code response = 200 ∨ status_code response = 400)
  ∧ current_time store' = current_time store
  ∧ blacklisted store ⊆ blacklisted store'
  ∧ outstanding store ⊆ outstanding store'
  ∧ (status_code response = 400 → store' = store)
  ∧ (∀ payload, verifies store' payload → verifies store payload)
  ∧ (∀ payload, verifies store payload → ¬ verifies store' payload →
       ∃ token submitted, refresh = Some token
         ∧ decode token = Some submitted ∧ jti submitted = jti payload).
Proof.
  unfold logout_view, RefreshToken.init, RefreshToken.blacklist.
  destruct (Py.truthy refresh) eqn:Htruthy; last first.
  { intros Hrun. simplify_eq/=.
    repeat split; try done; auto; try (intros payload H1 H2; by destruct H2). }
  destruct refresh as [token|]; [|done].
  change (default "" (Some token)) with token.
  destruct (decode token) as [submitted|] eqn:Hdecode; last first.
  { intros Hrun. simplify_eq/=.
    repeat split; try done; auto; try (intros payload H1 H2; by destruct H2). }
  destruct (RefreshToken.verify store submitted) as [[]|e] eqn:Hverify;
    last first.
  { intros Hrun. simplify_eq/=.
    repeat split; try done; auto; try (intros payload H1 H2; by destruct H2). }
  destruct (jti submitted) as [j|] eqn:Hj; last first.
  { intros Hrun. simpl in Hrun. rewrite Hj in Hrun. simplify_eq/=.
    repeat split; try done; auto; try (intros payload H1 H2; by destruct H2). }
  intros Hrun. simpl in Hrun. rewrite Hj in Hrun. simplify_eq/=.
  split; [by left|]. split; [done|].
  split; [set_solver|]. split; [set_solver|]. split; [done|]. split.
  - intros payload. apply verifies_mono; [done|]. simpl. set_solver.
  - intros payload (j' & e' & Hj' & Hfree & He & Hexp & Htype) Hno.
    exists token, submitted. split; [done|]. split; [done|].
    rewrite Hj, Hj'. f_equal.
    destruct (decide (j = j')) as [|Hne]; [done|].
    exfalso. apply Hno. exists j', e'. simpl. repeat split; try done.
    set_solver.
Qed.

Lemma logout_only_revokes_witness :
  logout_view (backend := sample_backend) (mkTokenStore 100 ∅ ∅) (Some "r1")
  = (logged_out, mkTokenStore 100 ({["j1"]} ∪ ∅) ({["j1"]} ∪ ∅))
  ∧ blacklisted (mkTokenStore 100 ∅ ∅)
    ⊆ blacklisted (mkTokenStore 100 ({["j1"]} ∪ ∅) ({["j1"]} ∪ ∅)).
Proof.
  split; [reflexivity|].
  refine (proj1 (proj2 (proj2
    (logout_only_revokes (backend := sample_backend) (mkTokenStore 100 ∅ ∅)
       (mkTokenStore 100 ({["j1"]} ∪ ∅) ({["j1"]} ∪ ∅)) (Some "r1")
       logged_out _)))).
  reflexivity.
Defined.

(** ** Creating users *)

Section create_user.
Context `{hasher : PasswordHasher}.

Lemma create_user_taken db email password first_name last_name :
  email ≠ "" →
  CustomUserManager.normalize_email email ∈ user_email <$> users db →
  CustomUserManager.create_user email password first_name last_name db
  = (Raise IntegrityError, db).
Proof.
  intros Hne Htaken. unfold CustomUserManager.create_user.
  rewrite bool_decide_eq_false_2 by done.
  unfold mbind at 1, ORM_bind. unfold query.
  unfold mbind at 1, ORM_bind, CustomUserManager.save_new.
  unfold mbind at 1, ORM_bind, query. cbn [user_email].
  by rewrite bool_decide_eq_true_2.
Qed.

Lemma create_user_no_email db password first_name last_name :
  CustomUserManager.create_user "" password first_name last_name db
  = (Raise (ValueError "The Email field must be set"), db).
Proof. done. Qed.

(** X13. [create_user] is all or nothing. It succeeds exactly when the
    email is not empty and its normalized form is not in use; the new row
    then carries the normalized email, a fresh key and no staff flag, and
    is appended to the users. Otherwise it raises [ValueError] (empty
    email) or [IntegrityError] (address in use) and the database is
    unchanged. *)
Theorem create_user_all_or_nothing (db : DB) (email : string)
    (password : option string) (first_name last_name : string) :
  let run :=
    CustomUserManager.create_user email password first_name last_name db in
  let normalized := CustomUserManager.normalize_email email in
  (email = "" →
     run = (Raise (ValueError "The Email field must be set"), db))
  ∧ (email ≠ "" → normalized ∈ user_email <$> users db →
     run = (Raise IntegrityError, db))
  ∧ (email ≠ "" → normalized ∉ user_email <$> users db →
     ∃ user, run = (Return user, set_users (users db ++ [user]) db)
       ∧ user_email user = normalized
       ∧ (user_pk user ∉ user_pk <$> users db)
       ∧ user_is_staff user = false
       ∧ user_first_name user = first_name
       ∧ user_last_name user = last_name).
Proof.
  intros run normalized. subst run normalized. split; [|split].
  - intros ->. apply create_user_no_email.
  - apply create_user_taken.
  - intros Hne Hfree. eexists. split; [by apply create_user_ok|].
    simpl. split; [done|]. split; [apply next_pk_not_in|done].
Qed.

(** X14. A user that was created can be found again: after a successful
    [create_user] the lookups by the normalized email and by the new key
    both return the new row, the email and key columns are still unique, a
    second [create_user] with the same address is refused with
    [IntegrityError], and the stored password verifies exactly when one was
    given (an account created without password accepts none). *)
Theorem create_user_round_trip `{hasher_correct : !HasherCorrect} (db : DB)
    (email : string) (password password' : option string)
    (first_name last_name first_name' last_name' : string) :
  NoDup (user_email <$> users db) → NoDup (user_pk <$> users db) →
  email ≠ "" →
  CustomUserManager.normalize_email email ∉ user_email <$> users db →
  ∃ user db',
    CustomUserManager.create_user email password first_name last_name db
    = (Return user, db')
    ∧ NoDup (user_email <$> users db') ∧ NoDup (user_pk <$> users db')
    ∧ User_get_by_email (CustomUserManager.normalize_email email) db'
      = (Return user, db')
    ∧ User_get (user_pk user) db' = (Return user, db')
    ∧ CustomUserManager.create_user email password' first_name' last_name' db'
      = (Raise IntegrityError, db')
    ∧ (∀ raw, password = Some raw → check_password user raw = true)
    ∧ (password = None → ∀ raw, check_password user raw = false).
Proof.
  intros Hemails Hpks Hne Hfree.
  set (user := mkUser (next_pk user_pk (users db))
                 (CustomUserManager.normalize_email email)
                 (make_password <$> password) first_name last_name false).
  set (db' := set_users (users db ++ [user]) db).
  assert (user ∈ users db') as Hin.
  { unfold db'. simpl. apply elem_of_app. right. by left. }
  assert (NoDup (user_email <$> users db')) as Hemails'.
  { unfold db'. simpl. rewrite fmap_app. apply NoDup_app.
    split; [done|]. split; [|apply NoDup_singleton].
    by intros x Hx ->%list_elem_of_singleton. }
  assert (NoDup (user_pk <$> users db')) as Hpks'.
  { unfold db'. simpl. by apply NoDup_pk_snoc. }
  exists user, db'. split; [by apply create_user_ok|].
  split; [done|]. split; [done|]. split.
  { unfold User_get_by_email.
    rewrite (filter_singleton user_email _ (users db') user); try done. }
  split.
  { unfold User_get.
    rewrite (filter_singleton user_pk _ (users db') user); try done. }
  split.
  { apply create_user_taken; [done|].
    apply list_elem_of_fmap. by exists user. }
  split.
  - intros raw ->. unfold check_password, user. simpl. apply check_make.
  - intros -> raw. done.
Qed.

End create_user.

Lemma create_user_all_or_nothing_witness :
  CustomUserManager.create_user (hasher := sample_hasher) "bob@EXAMPLE.com"
    None "" "" social_db = (Raise IntegrityError, social_db).
Proof.
  refine (proj1 (proj2 (create_user_all_or_nothing (hasher := sample_hasher)
            social_db "bob@EXAMPLE.com" None "" "")) _ _).
  - done.
  - compute_done.
Defined.

Lemma create_user_round_trip_witness :
  ∃ user db',
    CustomUserManager.create_user (hasher := sample_hasher)
      "Dan@Example.ORG" (Some "secret") "Dan" "" sample_db = (Return user, db')
    ∧ User_get_by_email "Dan@example.org" db' = (Return user, db')
    ∧ check_password (hasher := sample_hasher) user "secret" = true.
Proof.
  destruct (create_user_round_trip (hasher := sample_hasher)
              (hasher_correct := sample_hasher_correct) sample_db
              "Dan@Example.ORG" (Some "secret") None "Dan" "" "" "")
    as (user & db' & Hrun & _ & _ & Hget & _ & _ & Hpw & _);
    try done; try compute_done.
  exists user, db'. split; [exact Hrun|]. split; [exact Hget|].
  by apply Hpw.
Defined.

(** ** Failures write nothing *)

Lemma filter_nil_not_elem {A} (P : A → Prop) `{∀ x, Decision (P x)}
    (rows : list A) (x : A) :
  filter P rows = [] → x ∈ rows → ¬ P x.
Proof.
  intros Hnil Hx HP.
  assert (x ∈ filter P rows) as Hin by (by apply list_elem_of_filter).
  rewrite Hnil in Hin. by apply not_elem_of_nil in Hin.
Qed.

Section atomicity.
Context `{hasher : PasswordHasher}.

Lemma create_user_raise db email password first_name last_name e db' :
  CustomUserManager.create_user email password first_name last_name db
  = (Raise e, db') → db' = db.
Proof.
  destruct (decide (email = "")) as [->|Hne].
  { rewrite create_user_no_email. congruence. }
  destruct (decide (CustomUserManager.normalize_email email
                    ∈ user_email <$> users db)) as [Hin|Hfree].
  - rewrite create_user_taken by done. congruence.
  - rewrite create_user_ok by done. congruence.
Qed.

Lemma create_user_return db email password first_name last_name user db' :
  CustomUserManager.create_user email password first_name last_name db
  = (Return user, db') →
  user_pk user = next_pk user_pk (users db)
  ∧ db' = set_users (users db ++ [user]) db.
Proof.
  destruct (decide (email = "")) as [->|Hne].
  { rewrite create_user_no_email. congruence. }
  destruct (decide (CustomUserManager.normalize_email email
                    ∈ user_email <$> users db)) as [Hin|Hfree].
  - rewrite create_user_taken by done. congruence.
  - rewrite create_user_ok by done. intros [= <- <-]. done.
Qed.

Lemma filter_singleton_elem {A} (P : A → Prop) `{∀ x, Decision (P x)}
    (rows : list A) (x : A) :
  filter P rows = [x] → x ∈ rows.
Proof.
  intros Hone. assert (x ∈ filter P rows) as Hin by (rewrite Hone; by left).
  by apply list_elem_of_filter in Hin as [_ ?].
Qed.

(** A run is settled once its result is known. *)
Ltac settle :=
  let Hrun := fresh "Hrun" in
  intros Hrun; simpl in Hrun; unfold raise, mret, ORM_ret in Hrun;
  simplify_eq; simpl; try done.

(** Every way [get_or_create_user_from_google] can end: a raise before any
    write, or an account that is in the users table. *)
Lemma resolve_outcome (db db' : DB) (info : gmap string string)
    (r : Outcome (CustomUser * bool)) :
  social_auth.get_or_create_user_from_google info db = (r, db') →
  match r with
  | Raise _ => db' = db
  | Return (user, created) =>
      user ∈ users db'
      ∧ (NoDup (profile_user_id <$> profiles db) →
         NoDup (profile_user_id <$> profiles db'))
  end.
Proof.
  unfold social_auth.get_or_create_user_from_google.
  destruct (negb (Py.truthy (info !! "email"))
            || negb (Py.truthy (info !! "id"))); [settle|].
  set (email := default "" (info !! "email")).
  set (google_id := default "" (info !! "id")).
  unfold mbind at 1, ORM_bind, try_except.
  unfold mbind at 1, ORM_bind.
  destruct (filter _ (social_accounts db)) as [|a [|a' accounts]] eqn:Hlinked;
    cbn [qs_get]; [|..]; last first.
  { settle. }
  { unfold mbind at 1, ORM_bind, User_get.
    destruct (filter _ (users db)) as [|u [|u' us]] eqn:Hu; cbn [qs_get];
      settle.
    split; [|done]. by apply filter_singleton_elem in Hu. }
  assert (("google", google_id)
          ∉ (λ x, (social_provider x, social_uid x)) <$> social_accounts db)
    as Hfree.
  { intros (x & [= Hp Hu] & Hx)%list_elem_of_fmap.
    by apply (filter_nil_not_elem _ _ x Hlinked Hx). }
  cbn [mret ORM_ret]. unfold try_except.
  unfold mbind at 1, ORM_bind, User_get_by_email.
  destruct (filter _ (users db)) as [|u [|u' us]] eqn:Husers; cbn [qs_get];
    [|..]; last first.
  { settle. }
  { rewrite (bind_return _ _ _ _ _
               (SocialAccount_create_ok db
                  (mkSocialAccount (user_pk u) "google" google_id) Hfree)).
    settle. split; [|done]. by apply filter_singleton_elem in Husers. }
  cbv iota beta.
  unfold social_auth.create_user_from_google. fold email google_id.
  destruct (CustomUserManager.create_user email None
              (default "" (info !! "given_name"))
              (default "" (info !! "family_name")) db)
    as [[user|e'] db1] eqn:Hcreate.
  2:{ pose proof (create_user_raise _ _ _ _ _ _ _ Hcreate) as ->.
      unfold mbind at 1, ORM_bind. unfold mbind at 1, ORM_bind.
      rewrite Hcreate. settle. }
  pose proof (create_user_return _ _ _ _ _ _ _ Hcreate) as [Hpk ->].
  unfold mbind at 1, ORM_bind. unfold mbind at 1, ORM_bind.
  rewrite Hcreate.
  rewrite (bind_return _ _ _ _ _
             (SocialAccount_create_ok (set_users (users db ++ [user]) db)
                (mkSocialAccount (user_pk user) "google" google_id) Hfree)).
  unfold mbind at 1, ORM_bind, query.
  cbn [profiles set_social_accounts set_users].
  assert (user ∈ (users db ++ [user])%list) as Hin
    by (apply elem_of_app; right; by left).
  destruct (filter _ (profiles db)) as [|profile others] eqn:Hprofiles.
  - assert (user_pk user ∉ profile_user_id <$> profiles db) as Hnone.
    { intros (x & Hp & Hx)%list_elem_of_fmap.
      by apply (filter_nil_not_elem _ _ x Hprofiles Hx). }
    erewrite bind_return; last first.
    { by apply Profile_create_ok. }
    settle. split; [done|]. intros Hnd. rewrite fmap_app.
    apply NoDup_app. split; [done|]. split; [|apply NoDup_singleton].
    by intros x Hx ->%list_elem_of_singleton.
  - destruct (bool_decide _); settle; split; try done.
    intros Hnd. rewrite <- list_fmap_compose.
    erewrite list_fmap_ext; [exact Hnd|].
    intros i q _. simpl. by case_bool_decide.
Qed.

(** X15. [get_or_create_user_from_google] never leaves a half-made account:
    whenever it raises, for whatever claims and whatever database, nothing
    has been written. *)
Theorem social_login_failure_writes_nothing (db db' : DB)
    (info : gmap string string) (e : Exception) :
  social_auth.get_or_create_user_from_google info db = (Raise e, db') →
  db' = db.
Proof. intros Hrun. by apply resolve_outcome in Hrun. Qed.

End atomicity.

Lemma social_login_failure_writes_nothing_witness :
  ∃ e db',
    social_auth.get_or_create_user_from_google (hasher := sample_hasher)
      bob_claims social_db = (Raise e, db')
    ∧ db' = social_db.
Proof.
  exists IntegrityError, social_db. split; [by vm_compute|].
  apply (social_login_failure_writes_nothing (hasher := sample_hasher)
           social_db social_db bob_claims IntegrityError).
  by vm_compute.
Defined.

Section registration_atomicity.
Context `{hasher : PasswordHasher} `{policy : PasswordPolicy}
  `{email_format : EmailFormat}.

(** X16. A registration that fails leaves no trace: when every profile
    belongs to an existing user, [RegisterView.create] either returns the
    new user or raises with the database unchanged, so a user row without
    its profile is never left behind. *)
Theorem registration_failure_writes_nothing (db db' : DB)
    (data : UserRegistrationSerializer.Data) (e : Exception) :
  (∀ p, p ∈ profiles db → profile_user_id p ∈ user_pk <$> users db) →
  RegisterView.create data db = (Raise e, db') → db' = db.
Proof.
  intros Hfk. unfold RegisterView.create.
  destruct (is_valid_outcome db data) as [(attrs & Hvalid & _)|[msg Hmsg]];
    last first.
  { rewrite (bind_raise _ _ _ _ _ Hmsg). by intros [= _ <-]. }
  rewrite (bind_return _ _ _ _ _ Hvalid).
  unfold UserRegistrationSerializer.create.
  destruct (CustomUserManager.create_user
              (UserRegistrationSerializer.email attrs)
              (Some (UserRegistrationSerializer.password attrs)) "" "" db)
    as [[user|e'] db1] eqn:Hcreate.
  - pose proof (create_user_return _ _ _ _ _ _ _ Hcreate) as [Hpk ->].
    rewrite (bind_return _ _ _ _ _ Hcreate).
    erewrite bind_return; last first.
    { apply Profile_create_ok. simpl. rewrite Hpk.
      intros (p & Hp & Hin)%list_elem_of_fmap.
      apply (next_pk_not_in user_pk (users db)). rewrite Hp.
      by apply Hfk. }
    by intros [= ].
  - pose proof (create_user_raise _ _ _ _ _ _ _ Hcreate) as ->.
    rewrite (bind_raise _ _ _ _ _ Hcreate). by intros [= _ <-].
Qed.

End registration_atomicity.

Lemma registration_failure_writes_nothing_witness :
  ∃ e db',
    RegisterView.create (hasher := sample_hasher) (policy := sample_policy)
      (email_format := sample_email_format)
      (UserRegistrationSerializer.mkData (Some "bob@EXAMPLE.com")
         (Some "Passw0rd!") (Some "Passw0rd!") None) social_db = (Raise e, db')
    ∧ db' = social_db.
Proof.
  exists IntegrityError, social_db. split; [by vm_compute|].
  apply (registration_failure_writes_nothing (hasher := sample_hasher)
           (policy := sample_policy) (email_format := sample_email_format)
           social_db social_db
           (UserRegistrationSerializer.mkData (Some "bob@EXAMPLE.com")
              (Some "Passw0rd!") (Some "Passw0rd!") None) IntegrityError).
  - intros p ->%list_elem_of_singleton. compute_done.
  - by vm_compute.
Defined.

(** ** The requester's profile *)

Lemma profile_get_existing db u p :
  NoDup (profile_user_id <$> profiles db) → p ∈ profiles db →
  profile_user_id p = user_pk u →
  ∀ method,
    ProfileUpdateView.get_object (mkRequest (AuthUser u) method) db
    = (Return p, db).
Proof.
  intros Hnd Hp Hu method. unfold ProfileUpdateView.get_object. simpl.
  apply try_except_return.
  by rewrite (filter_singleton profile_user_id _ (profiles db) p)
    by (done || congruence).
Qed.

Lemma profile_get_missing db u :
  user_pk u ∉ profile_user_id <$> profiles db →
  ∀ method,
    let p := mkProfile (user_pk u) "" "" in
    ProfileUpdateView.get_object (mkRequest (AuthUser u) method) db
    = (Return p, set_profiles (profiles db ++ [p]) db).
Proof.
  intros Hfree method p. unfold ProfileUpdateView.get_object. simpl.
  erewrite try_except_raise; last first.
  { rewrite filter_empty; [done|].
    intros q Hq Hu. apply Hfree. apply list_elem_of_fmap. by exists q. }
  by apply Profile_create_ok.
Qed.

(** What [get_object] leaves, whether it finds or creates. *)
Lemma profile_get_or_create_aux db u method :
  NoDup (profile_user_id <$> profiles db) →
  ∃ p db',
    ProfileUpdateView.get_object (mkRequest (AuthUser u) method) db
    = (Return p, db')
    ∧ profile_user_id p = user_pk u
    ∧ p ∈ profiles db'
    ∧ (∀ q, profile_user_id q ≠ user_pk u →
            q ∈ profiles db' ↔ q ∈ profiles db)
    ∧ NoDup (profile_user_id <$> profiles db').
Proof.
  intros Hnd.
  destruct (decide (user_pk u ∈ profile_user_id <$> profiles db))
    as [Hin|Hfree].
  - pose proof Hin as (p & Hu & Hp)%list_elem_of_fmap.
    exists p, db. split; [by apply profile_get_existing|]. by repeat split.
  - set (p := mkProfile (user_pk u) "" "").
    exists p, (set_profiles (profiles db ++ [p]) db).
    split; [by apply profile_get_missing|]. split; [done|]. simpl.
    split; [apply elem_of_app; right; by left|]. split.
    + intros q Hq. rewrite elem_of_app, list_elem_of_singleton.
      split; [|by left]. intros [Hin| ->]; [done|]. by destruct Hq.
    + rewrite fmap_app. apply NoDup_app.
      split; [done|]. split; [|apply NoDup_singleton].
      by intros x Hx ->%list_elem_of_singleton.
Qed.

(** X17. [ProfileUpdateView.get_object] always yields the requester's own
    profile and creates an empty one only when there is none: no existing
    profile is changed or removed, the one-profile-per-user constraint is
    kept, and asking again returns the same profile without writing. *)
Theorem profile_get_or_create (db : DB) (u : CustomUser) (method : Method) :
  NoDup (profile_user_id <$> profiles db) →
  let request := mkRequest (AuthUser u) method in
  ∃ p db',
    ProfileUpdateView.get_object request db = (Return p, db')
    ∧ profile_user_id p = user_pk u
    ∧ p ∈ profiles db'
    ∧ (user_pk u ∈ profile_user_id <$> profiles db → db' = db)
    ∧ (user_pk u ∉ profile_user_id <$> profiles db →
       p = mkProfile (user_pk u) "" ""
       ∧ db' = set_profiles (profiles db ++ [p]) db)
    ∧ NoDup (profile_user_id <$> profiles db')
    ∧ ProfileUpdateView.get_object request db' = (Return p, db').
Proof.
  intros Hnd request. subst request.
  destruct (decide (user_pk u ∈ profile_user_id <$> profiles db))
    as [Hin|Hfree].
  - pose proof Hin as (p & Hu & Hp)%list_elem_of_fmap.
    pose proof (profile_get_existing db u p Hnd Hp (eq_sym Hu) method) as Hget.
    exists p, db. by repeat split.
  - set (p := mkProfile (user_pk u) "" "").
    set (db' := set_profiles (profiles db ++ [p]) db).
    assert (NoDup (profile_user_id <$> profiles db')) as Hnd'.
    { unfold db'. simpl. rewrite fmap_app. apply NoDup_app.
      split; [done|]. split; [|apply NoDup_singleton].
      by intros x Hx ->%list_elem_of_singleton. }
    assert (p ∈ profiles db') as Hp.
    { unfold db'. simpl. apply elem_of_app. right. by left. }
    exists p, db'. split; [by apply profile_get_missing|].
    split; [done|]. split; [done|]. split; [done|]. split; [done|].
    split; [done|]. by apply profile_get_existing.
Qed.

Lemma profile_get_or_create_witness :
  ∃ p db',
    ProfileUpdateView.get_object (mkRequest (AuthUser admin) PATCH) sample_db
    = (Return p, db')
    ∧ p = mkProfile 3 "" ""
    ∧ ProfileUpdateView.get_object (mkRequest (AuthUser admin) PATCH) db'
      = (Return p, db').
Proof.
  destruct (profile_get_or_create sample_db admin PATCH)
    as (p & db' & Hrun & _ & _ & _ & Hnew & _ & Hagain); [compute_done|].
  exists p, db'. split; [exact Hrun|]. split; [|exact Hagain].
  apply Hnew. compute_done.
Defined.

(** X18. A profile update writes the requester's own profile only: the
    submitted fields replace the old ones (the others stay), the row keeps
    its owner, every other user's profile is exactly as before, and the
    updated profile is what the view returns afterwards. The profile is
    fetched (or created) before the payload is validated, so a rejected
    payload still leaves the state [get_object] produced. *)
Theorem profile_update_own_only (db : DB) (u : CustomUser) (method : Method)
    (data : ProfileUpdateView.ProfileFields) :
  NoDup (profile_user_id <$> profiles db) →
  let request := mkRequest (AuthUser u) method in
  ∃ old p db',
    (ProfileUpdateView.get_object request db).1 = Return old
    ∧ ProfileUpdateView.update request (Some data) db = (Return p, db')
    ∧ profile_user_id p = user_pk u
    ∧ profile_display_name p
      = default (profile_display_name old)
          (ProfileUpdateView.new_display_name data)
    ∧ profile_bio p
      = default (profile_bio old) (ProfileUpdateView.new_bio data)
    ∧ (∀ q, profile_user_id q ≠ user_pk u →
            q ∈ profiles db' ↔ q ∈ profiles db)
    ∧ NoDup (profile_user_id <$> profiles db')
    ∧ ProfileUpdateView.get_object request db' = (Return p, db')
    ∧ ProfileUpdateView.update request None db
      = (Raise (ValidationError "invalid"),
         (ProfileUpdateView.get_object request db).2).
Proof.
  intros Hnd request. subst request.
  destruct (profile_get_or_create_aux db u method Hnd)
    as (old & db1 & Hget & Hu & Hold & Hsame & Hnd1).
  set (p := mkProfile (profile_user_id old)
              (default (profile_display_name old)
                 (ProfileUpdateView.new_display_name data))
              (default (profile_bio old) (ProfileUpdateView.new_bio data))).
  set (f := λ q, if bool_decide (profile_user_id q = profile_user_id old)
                 then p else q).
  set (db' := set_profiles (f <$> profiles db1) db1).
  assert (profile_user_id <$> (f <$> profiles db1)
          = profile_user_id <$> profiles db1) as Hids.
  { rewrite <- list_fmap_compose. apply list_fmap_ext.
    intros i q _. unfold f. simpl. by case_bool_decide. }
  assert (∀ q, profile_user_id q ≠ user_pk u →
               q ∈ f <$> profiles db1 ↔ q ∈ profiles db1) as Hothers.
  { intros q Hq. rewrite list_elem_of_fmap. unfold f. split.
    - intros (q' & -> & Hq'). case_bool_decide as Hcase; [|done].
      exfalso. apply Hq. by rewrite <- Hu.
    - intros Hin. exists q. split; [|done].
      rewrite bool_decide_eq_false_2; [done|]. by rewrite Hu. }
  exists old, p, db'. split; [by rewrite Hget|]. split.
  { unfold ProfileUpdateView.update.
    by rewrite (bind_return _ _ _ _ _ Hget). }
  split; [done|]. split; [done|]. split; [done|]. split.
  { intros q Hq. unfold db'. simpl. rewrite (Hothers q Hq). by apply Hsame. }
  split; [unfold db'; simpl; by rewrite Hids|].
  split.
  { apply profile_get_existing; [unfold db'; simpl; by rewrite Hids| |done].
    unfold db'. simpl. apply list_elem_of_fmap. exists old.
    unfold f. by rewrite bool_decide_eq_true_2. }
  unfold ProfileUpdateView.update.
  by rewrite (bind_return _ _ _ _ _ Hget), Hget.
Qed.

Lemma profile_update_own_only_witness :
  ∃ p db',
    ProfileUpdateView.update (mkRequest (AuthUser bob) PATCH)
      (Some (ProfileUpdateView.mkProfileFields None (Some "Hello")))
      sample_db = (Return p, db')
    ∧ p = mkProfile 2 "b" "Hello"
    ∧ (mkProfile 1 "a" "" ∈ profiles db').
Proof.
  destruct (profile_update_own_only sample_db bob PATCH
              (ProfileUpdateView.mkProfileFields None (Some "Hello")))
    as (old & p & db' & _ & Hrun & _ & _ & _ & Hothers & _);
    [compute_done|].
  exists p, db'. split; [exact Hrun|]. split.
  - vm_compute in Hrun. by injection Hrun as <- <-.
  - apply Hothers; compute_done.
Defined.

(** ** Throttle buckets *)

(** X19. The buckets of the throttles are disjoint and, for the two
    creation throttles, personal: two different throttle classes never
    produce the same cache key, whatever the requests; two authenticated
    users never share a key of the same creation throttle; and the key of
    an authenticated user does not depend on the client address. *)
Theorem throttle_buckets_disjoint (t t' : throttles.Throttle)
    (request request' : Request) (ident ident' key : string) :
  throttles.get_cache_key t request ident = Some key →
  throttles.get_cache_key t' request' ident' = Some key →
  t = t'
  ∧ (t ∈ [throttles.PostCreateThrottle; throttles.CommentCreateThrottle] →
     ∀ u u', request_user request = AuthUser u →
             request_user request' = AuthUser u' →
             user_pk u = user_pk u')
  ∧ (∀ u, request_user request = AuthUser u →
          t ∈ [throttles.PostCreateThrottle; throttles.CommentCreateThrottle] →
          ∀ other, throttles.get_cache_key t request other = Some key).
Proof.
  intros Hkey Hkey'.
  assert (t = t') as <-.
  { destruct t, t'; try done; simpl in Hkey, Hkey';
      repeat case_bool_decide; simplify_eq;
      unfold throttles.cache_format in *; simpl in *; simplify_eq. }
  split; [done|]. split.
  - intros Ht u u' Hu Hu'.
    destruct t;
      try (exfalso;
           repeat (apply elem_of_cons in Ht as [Ht|Ht]; [discriminate|]);
           by apply elem_of_nil in Ht);
      simpl in Hkey, Hkey'; rewrite Hu in Hkey; rewrite Hu' in Hkey';
      destruct (bool_decide (request_method request ≠ POST)); try done;
      destruct (bool_decide (request_method request' ≠ POST)); try done;
      injection Hkey as <-; injection Hkey' as Hkey';
      simpl in Hkey'; symmetry; by apply (inj pretty).
  - intros u Hu Ht other.
    destruct t;
      try (exfalso;
           repeat (apply elem_of_cons in Ht as [Ht|Ht]; [discriminate|]);
           by apply elem_of_nil in Ht);
      simpl in Hkey |- *; rewrite Hu in Hkey |- *;
      by destruct (bool_decide (request_method request ≠ POST)).
Qed.

Lemma throttle_buckets_disjoint_witness :
  throttles.get_cache_key throttles.PostCreateThrottle
    (mkRequest (AuthUser alice) POST) "203.0.113.9"
  = Some "throttle_post_create_1".
Proof.
  destruct (throttle_buckets_disjoint throttles.PostCreateThrottle
              throttles.PostCreateThrottle (mkRequest (AuthUser alice) POST)
              (mkRequest (AuthUser alice) POST) "10.0.0.1" "10.0.0.2"
              "throttle_post_create_1")
    as (_ & _ & Hany); [by vm_compute|by vm_compute|].
  apply (Hany alice); [done|]. apply elem_of_cons. by left.
Defined.

(** ** Profiles of social accounts *)

(** X20. The two sign-up paths name a profile alike: the display name the
    allauth adapter computes equals the one the Google endpoint computes
    from the same claims and user, unless the user has a last name but no
    first name; either one is the [name] claim when that is not empty, and
    is never empty when the email has a local part. *)
Theorem adapter_display_name (info : gmap string string) (user : CustomUser) :
  let adapter := SocialAccountAdapter.display_name_of info user in
  let endpoint :=
    social_auth.display_name_of info (user_first_name user)
      (user_last_name user) (user_email user) in
  (user_first_name user ≠ "" ∨ user_last_name user = "" → adapter = endpoint)
  ∧ (∀ name, info !! "name" = Some name → name ≠ "" →
       adapter = name ∧ endpoint = name)
  ∧ (Py.split_head "@"%char (user_email user) ≠ "" →
       adapter ≠ "" ∧ endpoint ≠ "").
Proof.
  intros adapter endpoint. subst adapter endpoint.
  unfold SocialAccountAdapter.display_name_of, social_auth.display_name_of.
  set (name := default "" (info !! "name")).
  set (full := Py.strip (user_first_name user +:+ " " +:+ user_last_name user)).
  set (local_part := Py.split_head "@"%char (user_email user)).
  split; [|split].
  - intros Hnames. destruct (decide (name = "")) as [Hname|Hname].
    + rewrite !(bool_decide_eq_true_2 (name = "")) by done. cbn [andb].
      destruct (decide (user_first_name user = "")) as [Hfirst|Hfirst].
      * destruct Hnames as [?|Hlast]; [done|].
        rewrite (bool_decide_eq_true_2 (user_first_name user = "")) by done.
        cbn [negb]. rewrite !(bool_decide_eq_true_2 (name = "")) by done.
        assert (full = "") as ->; [|done].
        unfold full. by rewrite Hfirst, Hlast.
      * by rewrite (bool_decide_eq_false_2 (user_first_name user = "")).
    + by rewrite !(bool_decide_eq_false_2 (name = "")) by done.
  - intros name' Hclaim Hname.
    assert (name = name') as -> by (unfold name; by rewrite Hclaim).
    by rewrite !(bool_decide_eq_false_2 (name' = "")) by done.
  - intros Hlocal. split; by case_bool_decide.
Qed.

Lemma adapter_display_name_witness :
  SocialAccountAdapter.display_name_of ∅
    (mkUser 7 "eve@example.com" None "Eve" "Adams" false)
  = social_auth.display_name_of ∅ "Eve" "Adams" "eve@example.com".
Proof.
  refine (proj1 (adapter_display_name ∅
            (mkUser 7 "eve@example.com" None "Eve" "Adams" false)) _).
  by left.
Defined.

(** X21. [SocialAccountAdapter.save_user] never fails on its own account
    and afterwards the user has exactly one profile: an existing profile is
    left as it is, and a missing one is created with the display name
    above and an empty bio. *)
Theorem adapter_save_user_ensures_profile (db : DB)
    (info : gmap string string) (user : CustomUser) :
  NoDup (profile_user_id <$> profiles db) →
  ∃ db',
    SocialAccountAdapter.save_user info user db = (Return user, db')
    ∧ (∃ p, filter (λ p, profile_user_id p = user_pk user) (profiles db')
            = [p])
    ∧ (user_pk user ∈ profile_user_id <$> profiles db → db' = db)
    ∧ (user_pk user ∉ profile_user_id <$> profiles db →
       db' = set_profiles
               (profiles db
                ++ [mkProfile (user_pk user)
                      (SocialAccountAdapter.display_name_of info user) ""])
               db)
    ∧ SocialAccountAdapter.save_user info user db' = (Return user, db').
Proof.
  intros Hnd. unfold SocialAccountAdapter.save_user.
  unfold mbind at 1 3, ORM_bind, query.
  destruct (decide (user_pk user ∈ profile_user_id <$> profiles db))
    as [Hin|Hfree].
  - pose proof Hin as (p & Hu & Hp)%list_elem_of_fmap.
    assert (filter (λ p, profile_user_id p = user_pk user) (profiles db)
            = [p]) as Hone.
    { apply (filter_singleton profile_user_id); try done. congruence. }
    exists db. rewrite !Hone. split; [done|]. split; [by exists p|].
    split; [done|]. split; [done|]. done.
  - assert (filter (λ p, profile_user_id p = user_pk user) (profiles db)
            = []) as Hnone.
    { apply filter_empty. intros q Hq Hu. apply Hfree.
      apply list_elem_of_fmap. by exists q. }
    set (p := mkProfile (user_pk user)
                (SocialAccountAdapter.display_name_of info user) "").
    exists (set_profiles (profiles db ++ [p]) db). rewrite Hnone.
    assert (filter (λ p, profile_user_id p = user_pk user)
              (profiles db ++ [p])%list = [p]) as Hone.
    { rewrite filter_app, Hnone, filter_cons, decide_True by done. done. }
    split.
    { erewrite bind_return by (by apply Profile_create_ok). done. }
    cbn [profiles set_profiles].
    split; [by exists p|]. split; [done|]. split; [done|].
    unfold mbind at 1, ORM_bind. cbn [profiles set_profiles].
    by rewrite Hone.
Qed.

Lemma adapter_save_user_ensures_profile_witness :
  ∃ db',
    SocialAccountAdapter.save_user ∅ admin sample_db = (Return admin, db')
    ∧ profiles db' = (profiles sample_db ++ [mkProfile 3 "root" ""])%list.
Proof.
  destruct (adapter_save_user_ensures_profile sample_db ∅ admin)
    as (db' & Hrun & _ & _ & Hnew & _); [compute_done|].
  exists db'. split; [exact Hrun|]. rewrite Hnew by compute_done. done.
Defined.

(** ** Social resolution on the sample data *)

Lemma social_resolution_order_witness :
  ∃ db',
    social_auth.get_or_create_user_from_google (hasher := sample_hasher)
      {[ "id" := "g1"; "email" := "bob@example.com" ]} social_db
    = (Return (mkUser 1 "bob@example.com" (Some "hash") "" "" false, false),
       db')
    ∧ users db' = users social_db
    ∧ linked db' "g1" (mkUser 1 "bob@example.com" (Some "hash") "" "" false).
Proof.
  destruct (social_resolution_order (hasher := sample_hasher) social_db
              {[ "id" := "g1"; "email" := "bob@example.com" ]}
              {[ "id" := "g1"; "email" := "bob@example.com" ]}
              "g1" "bob@example.com" "bob@example.com")
    as (_ & Hemail & _).
  - apply NoDup_nil_2.
  - compute_done.
  - compute_done.
  - intros p ->%list_elem_of_singleton. compute_done.
  - by repeat split.
  - by repeat split.
  - destruct (Hemail ltac:(by intros a Ha%elem_of_nil)
                (mkUser 1 "bob@example.com" (Some "hash") "" "" false)
                ltac:(by left) eq_refl)
      as (db' & Hrun & Husers & Hlinked & _).
    by exists db'.
Defined.

(** ** The Google login endpoint *)



Section google_login.
Context `{hasher : PasswordHasher} `{google : GoogleEndpoint}
  `{issuer : TokenIssuer}.


End google_login.


(** ** Registration followed by a Google login *)

Section register_then_google.
Context `{hasher : PasswordHasher} `{policy : PasswordPolicy}
  `{email_format : EmailFormat}.

(** X24. An account registered with a password is the one a later Google
    login gets when Google reports the address stored for it: the
    resolution links the Google identity to the registered account, answers
    [created = false], creates no user, and the account still holds the
    hash of the password it registered with (stripped, as the serializer's
    fields do). *)
Theorem registered_user_links_google (db db1 : DB)
    (data : UserRegistrationSerializer.Data) (user : CustomUser)
    (info : gmap string string) (google_id : string) :
  RegisterView.create data db = (Return user, db1) →
  NoDup (user_email <$> users db) → unlinked db google_id →
  claims info google_id (user_email user) →
  ∃ db2,
    social_auth.get_or_create_user_from_google info db1
    = (Return (user, false), db2)
    ∧ users db2 = users db1
    ∧ linked db2 google_id user
    ∧ ∃ supplied,
        UserRegistrationSerializer.data_password data = Some supplied
        ∧ user_password user = Some (make_password (Py.strip supplied)).
Proof.
  intros Hregister Hemails Hunlinked Hclaims.
  destruct (register_return db data user db1 Hregister)
    as (attrs & (e & pw & pc & _ & Hpw & _ & -> & _) & (_ & Hfree & _)
        & -> & ->).
  set (user := registered_user db _) in *.
  set (db1 := set_profiles _ _) in *.
  assert (user ∈ users db1) as Hin.
  { unfold db1. simpl. apply elem_of_app. right. by left. }
  assert (NoDup (user_email <$> users db1)) as Hemails1.
  { unfold db1. simpl. rewrite fmap_app. apply NoDup_app.
    split; [done|]. split; [|apply NoDup_singleton].
    by intros x Hx ->%list_elem_of_singleton. }
  pose proof (resolve_by_email db1 info _ google_id user Hclaims Hunlinked
                Hemails1 Hin eq_refl) as Hlogin.
  eexists. split; [exact Hlogin|]. split; [done|]. split.
  - exists (mkSocialAccount (user_pk user) "google" google_id). simpl.
    split; [apply elem_of_app; right; by left|]. by repeat split.
  - by exists pw.
Qed.

End register_then_google.

Lemma registered_user_links_google_witness :
  ∃ user db1 db2,
    RegisterView.create (hasher := sample_hasher) (policy := sample_policy)
      (email_format := sample_email_format) dave_data sample_db
    = (Return user, db1)
    ∧ social_auth.get_or_create_user_from_google (hasher := sample_hasher)
        {[ "id" := "g7"; "email" := "dave@example.com" ]} db1
      = (Return (user, false), db2)
    ∧ linked db2 "g7" user
    ∧ user_password user = Some (make_password (PasswordHasher := sample_hasher)
                                   "Passw0rd!").
Proof.
  destruct (RegisterView.create (hasher := sample_hasher)
              (policy := sample_policy) (email_format := sample_email_format)
              dave_data sample_db) as [[user|e] db1] eqn:Hregister;
    [|by vm_compute in Hregister].
  destruct (registered_user_links_google (hasher := sample_hasher)
              (policy := sample_policy) (email_format := sample_email_format)
              sample_db db1 dave_data user
              {[ "id" := "g7"; "email" := "dave@example.com" ]} "g7"
              Hregister)
    as (db2 & Hlogin & _ & Hlinked & pw & Hpw & Hhash).
  - compute_done.
  - intros a ->%list_elem_of_singleton [_ Huid]. discriminate Huid.
  - vm_compute in Hregister. injection Hregister as <- _. by repeat split.
  - exists user, db1, db2. injection Hpw as <-. by repeat split.
Defined.
